(** * SRStateMachine: the state-machine runtime of [Source/statemch.cpp]

    A shallow embedding of [StateMachine] and of the change-request part of
    [StateMachineManager], followed by the properties of the dispatch
    ladder, of [PerformStateChanges], of the request verbs, of the timers,
    of the state variables and of the list broadcast.

    Conventions of the embedding.
    - [ASSERTMSG] is a debug-build check; the embedding is the release
      build, in which the assertion is compiled out and the statements
      that follow it run.
    - The machine [*this], its owner, the clock and the router are one
      record [Env]; a member function [void StateMachine::f(args)] is a
      function [f args : Env -> Env].
    - The virtual [States] is the interface [StateMachineClass]; functions
      that invoke it work on a [World], an [Env] together with the log of
      the invocations made so far.
    - [unsigned int] and [int] members are [Z]; increments of unsigned
      counters and conversions to [int] are written out.
    - The router is seen through the requests it receives; what it does
      with them (delivery, now or later) is not part of the embedding.
      The name strings of the current state and the debug log are left
      out. *)

From Stdlib Require Import ZArith Lia Bool.
From stdpp Require Import base list.

#[local] Open Scope Z_scope.

(** ** Integer conversions *)

(** [x++] on an [unsigned int]. *)
Definition uint_incr (x : Z) : Z := (x + 1) mod 2 ^ 32.

(** [static_cast<int>(x)] for an [unsigned int] [x] (two's complement). *)
Definition static_cast_int (x : Z) : Z := (x + 2 ^ 31) mod 2 ^ 32 - 2 ^ 31.

(** [bits & mask] used as a condition. *)
Definition has_bits (bits mask : Z) : bool := negb (Z.land bits mask =? 0).

(** ** Vocabulary *)

(** The enumerations of [statemch.h] and [msg.h], with the enumerators that
    [statemch.cpp] uses. *)

Definition objectID := Z.
Definition MSG_Name := Z.
Definition StateMachineQueue := Z.

Inductive State_Machine_Event : Set :=
  | EVENT_Probe
  | EVENT_Enter
  | EVENT_Exit
  | EVENT_Update
  | EVENT_Message.

Inductive StateChange : Set :=
  | NO_STATE_CHANGE
  | STATE_CHANGE
  | STATE_POP.

Inductive Scope_Rule : Set :=
  | SCOPE_TO_SUBSTATE
  | SCOPE_TO_STATE
  | SCOPE_TO_STATE_MACHINE.

Inductive StateVariableScope : Set :=
  | STATE_VARIABLE_SCOPE
  | SUBSTATE_VARIABLE_SCOPE.

Inductive StateMachineChange : Set :=
  | NO_STATE_MACHINE_CHANGE
  | STATE_MACHINE_RESET
  | STATE_MACHINE_REPLACE
  | STATE_MACHINE_QUEUE
  | STATE_MACHINE_REQUEUE
  | STATE_MACHINE_PUSH
  | STATE_MACHINE_POP.

#[global] Instance State_Machine_Event_eq_dec : EqDecision State_Machine_Event.
Proof. solve_decision. Defined.
#[global] Instance StateChange_eq_dec : EqDecision StateChange.
Proof. solve_decision. Defined.
#[global] Instance Scope_Rule_eq_dec : EqDecision Scope_Rule.
Proof. solve_decision. Defined.
#[global] Instance StateVariableScope_eq_dec : EqDecision StateVariableScope.
Proof. solve_decision. Defined.
#[global] Instance StateMachineChange_eq_dec : EqDecision StateMachineChange.
Proof. solve_decision. Defined.

(** The constants of [statemch.h], [msgnames.h] and [global.h] that
    [statemch.cpp] uses; the headers are not among the sources, so the
    constants are parameters of the development.  [float] is the type of
    delays and clock readings, used only through [<] and copying. *)
Class HostConfig (float : Type) : Type := {
  float_zero : float;                      (* 0.0f *)
  float_lt : float -> float -> bool;       (* a < b *)
  ONE_FRAME : float;
  MSG_CHANGE_STATE_DELAYED : MSG_Name;
  MSG_CHANGE_SUBSTATE_DELAYED : MSG_Name;
  STATE_MACHINE_NUM_QUEUES : nat;
  STATE_MACHINE_QUEUE_ALL : StateMachineQueue;
  REGISTERED_EVENT_ENTER_SUBSTATE : Z;
  REGISTERED_EVENT_ENTER_STATE : Z;
  REGISTERED_EVENT_EXIT_SUBSTATE : Z;
  REGISTERED_EVENT_EXIT_STATE : Z;
  REGISTERED_EVENT_UPDATE_SUBSTATE : Z;
  REGISTERED_EVENT_UPDATE_STATE : Z;
  REGISTERED_EVENT_UPDATE_STATEMACHINE : Z;
  REGISTERED_EVENT_UPDATE : Z;
  REGISTERED_EVENT_STATE : Z;
  REGISTERED_EVENT_STATEMACHINE : Z
}.

Definition MAX_STATE_STACK_SIZE : nat := 10.

(** One invocation of the virtual [States]: the event, the queried state
    and substate, and the answer. *)
Record Call : Set := mkCall {
  call_event : State_Machine_Event;
  call_state : Z;
  call_substate : Z;
  call_handled : bool
}.

Section Runtime.

Context {float : Type}.

(** ** Messages *)

(** Modelled from the spec: [MSG_Data] of [msg.h], the "payload (variant)"
    of a message, with the two constructors [statemch.cpp] calls. *)
Inductive MSG_Data : Type :=
  | MSG_Data_none
  | MSG_Data_int (v : Z)
  | MSG_Data_float (v : float).

(** Modelled from the spec: [MSG_Object] of [msg.h].  Its fields are the
    argument tuple of [g_msgroute.SendMsg], "(delay, name, receiver,
    sender, scope_rule, scope_value, queue, payload, is_timer, is_cc)". *)
Record MSG_Object : Type := mkMSG {
  msg_delay : float;
  msg_name : MSG_Name;
  msg_receiver : objectID;
  msg_sender : objectID;
  msg_rule : Scope_Rule;
  msg_scope : Z;
  msg_queue : StateMachineQueue;
  msg_data : MSG_Data;
  msg_timer : bool;
  msg_cc : bool
}.

(** ** State variables *)

(** Modelled from the spec: [StateMachinePersistentData] of [statemch.h],
    one of the "indexed slots of typed values", stored as "a tagged union of
    primitive types"; a slot made by [new StateMachinePersistentData()] has
    not been written yet. *)
Inductive StateMachinePersistentData : Type :=
  | PersistentData_new
  | PersistentData_int (v : Z)
  | PersistentData_float (v : float)
  | PersistentData_bool (v : bool)
  | PersistentData_objectID (v : objectID).

(** ** The manager's pending change requests *)

(** A [StateMachine *]; [None] is the null pointer. *)
Definition StateMachinePtr := option Z.

(** [m_stateMachineChange] and [m_newStateMachine], arrays of
    [STATE_MACHINE_NUM_QUEUES] entries. *)
Record StateMachineManager : Type := mkManager {
  m_stateMachineChange : list StateMachineChange;
  m_newStateMachine : list StateMachinePtr
}.

(** ** The machine and its collaborators *)

Record Env : Type := mkEnv {
  owner_id : objectID;  (* m_owner->GetID() *)
  owner_marked : bool;  (* m_owner->IsMarkedForDeletion() *)
  g_time : float;  (* g_time.GetCurTime() *)
  g_msgroute : list MSG_Object;  (* requests received by g_msgroute.SendMsg, oldest first *)
  m_mgr : StateMachineManager;  (* *m_mgr *)
  m_queue : StateMachineQueue;
  m_scopeState : Z;  (* unsigned int *)
  m_scopeSubstate : Z;  (* unsigned int *)
  m_currentState : Z;  (* unsigned int *)
  m_updateIteration : Z;
  m_currentSubstate : Z;  (* int, -1 = none *)
  m_stateChange : StateChange;
  m_nextState : Z;  (* unsigned int *)
  m_nextSubstate : Z;  (* int *)
  m_delayedStateChangeQueued : bool;
  m_delayedSubstateChangeQueued : bool;
  m_stateChangeAllowed : bool;
  m_registeredEvents : Z;  (* bit set *)
  m_timeOnEnterState : float;
  m_timeOnEnterSubstate : float;
  m_ccMessagesToGameObject : objectID;
  m_broadcastList : list objectID;
  m_stack : list Z;  (* std::deque, front = head, back = last *)
  m_stateVariables : list StateMachinePersistentData;
  m_substateVariables : list StateMachinePersistentData
}.

Definition set_owner_marked (v : bool) (e : Env) : Env :=
  mkEnv (e.(owner_id)) v (e.(g_time)) (e.(g_msgroute)) (e.(m_mgr))
    (e.(m_queue)) (e.(m_scopeState)) (e.(m_scopeSubstate))
    (e.(m_currentState)) (e.(m_updateIteration)) (e.(m_currentSubstate))
    (e.(m_stateChange)) (e.(m_nextState)) (e.(m_nextSubstate))
    (e.(m_delayedStateChangeQueued)) (e.(m_delayedSubstateChangeQueued))
    (e.(m_stateChangeAllowed)) (e.(m_registeredEvents))
    (e.(m_timeOnEnterState)) (e.(m_timeOnEnterSubstate))
    (e.(m_ccMessagesToGameObject)) (e.(m_broadcastList)) (e.(m_stack))
    (e.(m_stateVariables)) (e.(m_substateVariables)).
Definition set_g_time (v : float) (e : Env) : Env :=
  mkEnv (e.(owner_id)) (e.(owner_marked)) v (e.(g_msgroute)) (e.(m_mgr))
    (e.(m_queue)) (e.(m_scopeState)) (e.(m_scopeSubstate))
    (e.(m_currentState)) (e.(m_updateIteration)) (e.(m_currentSubstate))
    (e.(m_stateChange)) (e.(m_nextState)) (e.(m_nextSubstate))
    (e.(m_delayedStateChangeQueued)) (e.(m_delayedSubstateChangeQueued))
    (e.(m_stateChangeAllowed)) (e.(m_registeredEvents))
    (e.(m_timeOnEnterState)) (e.(m_timeOnEnterSubstate))
    (e.(m_ccMessagesToGameObject)) (e.(m_broadcastList)) (e.(m_stack))
    (e.(m_stateVariables)) (e.(m_substateVariables)).
Definition set_g_msgroute (v : list MSG_Object) (e : Env) : Env :=
  mkEnv (e.(owner_id)) (e.(owner_marked)) (e.(g_time)) v (e.(m_mgr))
    (e.(m_queue)) (e.(m_scopeState)) (e.(m_scopeSubstate))
    (e.(m_currentState)) (e.(m_updateIteration)) (e.(m_currentSubstate))
    (e.(m_stateChange)) (e.(m_nextState)) (e.(m_nextSubstate))
    (e.(m_delayedStateChangeQueued)) (e.(m_delayedSubstateChangeQueued))
    (e.(m_stateChangeAllowed)) (e.(m_registeredEvents))
    (e.(m_timeOnEnterState)) (e.(m_timeOnEnterSubstate))
    (e.(m_ccMessagesToGameObject)) (e.(m_broadcastList)) (e.(m_stack))
    (e.(m_stateVariables)) (e.(m_substateVariables)).
Definition set_m_mgr (v : StateMachineManager) (e : Env) : Env :=
  mkEnv (e.(owner_id)) (e.(owner_marked)) (e.(g_time)) (e.(g_msgroute)) v
    (e.(m_queue)) (e.(m_scopeState)) (e.(m_scopeSubstate))
    (e.(m_currentState)) (e.(m_updateIteration)) (e.(m_currentSubstate))
    (e.(m_stateChange)) (e.(m_nextState)) (e.(m_nextSubstate))
    (e.(m_delayedStateChangeQueued)) (e.(m_delayedSubstateChangeQueued))
    (e.(m_stateChangeAllowed)) (e.(m_registeredEvents))
    (e.(m_timeOnEnterState)) (e.(m_timeOnEnterSubstate))
    (e.(m_ccMessagesToGameObject)) (e.(m_broadcastList)) (e.(m_stack))
    (e.(m_stateVariables)) (e.(m_substateVariables)).
Definition set_m_queue (v : StateMachineQueue) (e : Env) : Env :=
  mkEnv (e.(owner_id)) (e.(owner_marked)) (e.(g_time)) (e.(g_msgroute))
    (e.(m_mgr)) v (e.(m_scopeState)) (e.(m_scopeSubstate))
    (e.(m_currentState)) (e.(m_updateIteration)) (e.(m_currentSubstate))
    (e.(m_stateChange)) (e.(m_nextState)) (e.(m_nextSubstate))
    (e.(m_delayedStateChangeQueued)) (e.(m_delayedSubstateChangeQueued))
    (e.(m_stateChangeAllowed)) (e.(m_registeredEvents))
    (e.(m_timeOnEnterState)) (e.(m_timeOnEnterSubstate))
    (e.(m_ccMessagesToGameObject)) (e.(m_broadcastList)) (e.(m_stack))
    (e.(m_stateVariables)) (e.(m_substateVariables)).
Definition set_m_scopeState (v : Z) (e : Env) : Env :=
  mkEnv (e.(owner_id)) (e.(owner_marked)) (e.(g_time)) (e.(g_msgroute))
    (e.(m_mgr)) (e.(m_queue)) v (e.(m_scopeSubstate)) (e.(m_currentState))
    (e.(m_updateIteration)) (e.(m_currentSubstate)) (e.(m_stateChange))
    (e.(m_nextState)) (e.(m_nextSubstate)) (e.(m_delayedStateChangeQueued))
    (e.(m_delayedSubstateChangeQueued)) (e.(m_stateChangeAllowed))
    (e.(m_registeredEvents)) (e.(m_timeOnEnterState))
    (e.(m_timeOnEnterSubstate)) (e.(m_ccMessagesToGameObject))
    (e.(m_broadcastList)) (e.(m_stack)) (e.(m_stateVariables))
    (e.(m_substateVariables)).
Definition set_m_scopeSubstate (v : Z) (e : Env) : Env :=
  mkEnv (e.(owner_id)) (e.(owner_marked)) (e.(g_time)) (e.(g_msgroute))
    (e.(m_mgr)) (e.(m_queue)) (e.(m_scopeState)) v (e.(m_currentState))
    (e.(m_updateIteration)) (e.(m_currentSubstate)) (e.(m_stateChange))
    (e.(m_nextState)) (e.(m_nextSubstate)) (e.(m_delayedStateChangeQueued))
    (e.(m_delayedSubstateChangeQueued)) (e.(m_stateChangeAllowed))
    (e.(m_registeredEvents)) (e.(m_timeOnEnterState))
    (e.(m_timeOnEnterSubstate)) (e.(m_ccMessagesToGameObject))
    (e.(m_broadcastList)) (e.(m_stack)) (e.(m_stateVariables))
    (e.(m_substateVariables)).
Definition set_m_currentState (v : Z) (e : Env) : Env :=
  mkEnv (e.(owner_id)) (e.(owner_marked)) (e.(g_time)) (e.(g_msgroute))
    (e.(m_mgr)) (e.(m_queue)) (e.(m_scopeState)) (e.(m_scopeSubstate)) v
    (e.(m_updateIteration)) (e.(m_currentSubstate)) (e.(m_stateChange))
    (e.(m_nextState)) (e.(m_nextSubstate)) (e.(m_delayedStateChangeQueued))
    (e.(m_delayedSubstateChangeQueued)) (e.(m_stateChangeAllowed))
    (e.(m_registeredEvents)) (e.(m_timeOnEnterState))
    (e.(m_timeOnEnterSubstate)) (e.(m_ccMessagesToGameObject))
    (e.(m_broadcastList)) (e.(m_stack)) (e.(m_stateVariables))
    (e.(m_substateVariables)).
Definition set_m_updateIteration (v : Z) (e : Env) : Env :=
  mkEnv (e.(owner_id)) (e.(owner_marked)) (e.(g_time)) (e.(g_msgroute))
    (e.(m_mgr)) (e.(m_queue)) (e.(m_scopeState)) (e.(m_scopeSubstate))
    (e.(m_currentState)) v (e.(m_currentSubstate)) (e.(m_stateChange))
    (e.(m_nextState)) (e.(m_nextSubstate)) (e.(m_delayedStateChangeQueued))
    (e.(m_delayedSubstateChangeQueued)) (e.(m_stateChangeAllowed))
    (e.(m_registeredEvents)) (e.(m_timeOnEnterState))
    (e.(m_timeOnEnterSubstate)) (e.(m_ccMessagesToGameObject))
    (e.(m_broadcastList)) (e.(m_stack)) (e.(m_stateVariables))
    (e.(m_substateVariables)).
Definition set_m_currentSubstate (v : Z) (e : Env) : Env :=
  mkEnv (e.(owner_id)) (e.(owner_marked)) (e.(g_time)) (e.(g_msgroute))
    (e.(m_mgr)) (e.(m_queue)) (e.(m_scopeState)) (e.(m_scopeSubstate))
    (e.(m_currentState)) (e.(m_updateIteration)) v (e.(m_stateChange))
    (e.(m_nextState)) (e.(m_nextSubstate)) (e.(m_delayedStateChangeQueued))
    (e.(m_delayedSubstateChangeQueued)) (e.(m_stateChangeAllowed))
    (e.(m_registeredEvents)) (e.(m_timeOnEnterState))
    (e.(m_timeOnEnterSubstate)) (e.(m_ccMessagesToGameObject))
    (e.(m_broadcastList)) (e.(m_stack)) (e.(m_stateVariables))
    (e.(m_substateVariables)).
Definition set_m_stateChange (v : StateChange) (e : Env) : Env :=
  mkEnv (e.(owner_id)) (e.(owner_marked)) (e.(g_time)) (e.(g_msgroute))
    (e.(m_mgr)) (e.(m_queue)) (e.(m_scopeState)) (e.(m_scopeSubstate))
    (e.(m_currentState)) (e.(m_updateIteration)) (e.(m_currentSubstate)) v
    (e.(m_nextState)) (e.(m_nextSubstate)) (e.(m_delayedStateChangeQueued))
    (e.(m_delayedSubstateChangeQueued)) (e.(m_stateChangeAllowed))
    (e.(m_registeredEvents)) (e.(m_timeOnEnterState))
    (e.(m_timeOnEnterSubstate)) (e.(m_ccMessagesToGameObject))
    (e.(m_broadcastList)) (e.(m_stack)) (e.(m_stateVariables))
    (e.(m_substateVariables)).
Definition set_m_nextState (v : Z) (e : Env) : Env :=
  mkEnv (e.(owner_id)) (e.(owner_marked)) (e.(g_time)) (e.(g_msgroute))
    (e.(m_mgr)) (e.(m_queue)) (e.(m_scopeState)) (e.(m_scopeSubstate))
    (e.(m_currentState)) (e.(m_updateIteration)) (e.(m_currentSubstate))
    (e.(m_stateChange)) v (e.(m_nextSubstate))
    (e.(m_delayedStateChangeQueued)) (e.(m_delayedSubstateChangeQueued))
    (e.(m_stateChangeAllowed)) (e.(m_registeredEvents))
    (e.(m_timeOnEnterState)) (e.(m_timeOnEnterSubstate))
    (e.(m_ccMessagesToGameObject)) (e.(m_broadcastList)) (e.(m_stack))
    (e.(m_stateVariables)) (e.(m_substateVariables)).
Definition set_m_nextSubstate (v : Z) (e : Env) : Env :=
  mkEnv (e.(owner_id)) (e.(owner_marked)) (e.(g_time)) (e.(g_msgroute))
    (e.(m_mgr)) (e.(m_queue)) (e.(m_scopeState)) (e.(m_scopeSubstate))
    (e.(m_currentState)) (e.(m_updateIteration)) (e.(m_currentSubstate))
    (e.(m_stateChange)) (e.(m_nextState)) v (e.(m_delayedStateChangeQueued))
    (e.(m_delayedSubstateChangeQueued)) (e.(m_stateChangeAllowed))
    (e.(m_registeredEvents)) (e.(m_timeOnEnterState))
    (e.(m_timeOnEnterSubstate)) (e.(m_ccMessagesToGameObject))
    (e.(m_broadcastList)) (e.(m_stack)) (e.(m_stateVariables))
    (e.(m_substateVariables)).
Definition set_m_delayedStateChangeQueued (v : bool) (e : Env) : Env :=
  mkEnv (e.(owner_id)) (e.(owner_marked)) (e.(g_time)) (e.(g_msgroute))
    (e.(m_mgr)) (e.(m_queue)) (e.(m_scopeState)) (e.(m_scopeSubstate))
    (e.(m_currentState)) (e.(m_updateIteration)) (e.(m_currentSubstate))
    (e.(m_stateChange)) (e.(m_nextState)) (e.(m_nextSubstate)) v
    (e.(m_delayedSubstateChangeQueued)) (e.(m_stateChangeAllowed))
    (e.(m_registeredEvents)) (e.(m_timeOnEnterState))
    (e.(m_timeOnEnterSubstate)) (e.(m_ccMessagesToGameObject))
    (e.(m_broadcastList)) (e.(m_stack)) (e.(m_stateVariables))
    (e.(m_substateVariables)).
Definition set_m_delayedSubstateChangeQueued (v : bool) (e : Env) : Env :=
  mkEnv (e.(owner_id)) (e.(owner_marked)) (e.(g_time)) (e.(g_msgroute))
    (e.(m_mgr)) (e.(m_queue)) (e.(m_scopeState)) (e.(m_scopeSubstate))
    (e.(m_currentState)) (e.(m_updateIteration)) (e.(m_currentSubstate))
    (e.(m_stateChange)) (e.(m_nextState)) (e.(m_nextSubstate))
    (e.(m_delayedStateChangeQueued)) v (e.(m_stateChangeAllowed))
    (e.(m_registeredEvents)) (e.(m_timeOnEnterState))
    (e.(m_timeOnEnterSubstate)) (e.(m_ccMessagesToGameObject))
    (e.(m_broadcastList)) (e.(m_stack)) (e.(m_stateVariables))
    (e.(m_substateVariables)).
Definition set_m_stateChangeAllowed (v : bool) (e : Env) : Env :=
  mkEnv (e.(owner_id)) (e.(owner_marked)) (e.(g_time)) (e.(g_msgroute))
    (e.(m_mgr)) (e.(m_queue)) (e.(m_scopeState)) (e.(m_scopeSubstate))
    (e.(m_currentState)) (e.(m_updateIteration)) (e.(m_currentSubstate))
    (e.(m_stateChange)) (e.(m_nextState)) (e.(m_nextSubstate))
    (e.(m_delayedStateChangeQueued)) (e.(m_delayedSubstateChangeQueued)) v
    (e.(m_registeredEvents)) (e.(m_timeOnEnterState))
    (e.(m_timeOnEnterSubstate)) (e.(m_ccMessagesToGameObject))
    (e.(m_broadcastList)) (e.(m_stack)) (e.(m_stateVariables))
    (e.(m_substateVariables)).
Definition set_m_registeredEvents (v : Z) (e : Env) : Env :=
  mkEnv (e.(owner_id)) (e.(owner_marked)) (e.(g_time)) (e.(g_msgroute))
    (e.(m_mgr)) (e.(m_queue)) (e.(m_scopeState)) (e.(m_scopeSubstate))
    (e.(m_currentState)) (e.(m_updateIteration)) (e.(m_currentSubstate))
    (e.(m_stateChange)) (e.(m_nextState)) (e.(m_nextSubstate))
    (e.(m_delayedStateChangeQueued)) (e.(m_delayedSubstateChangeQueued))
    (e.(m_stateChangeAllowed)) v (e.(m_timeOnEnterState))
    (e.(m_timeOnEnterSubstate)) (e.(m_ccMessagesToGameObject))
    (e.(m_broadcastList)) (e.(m_stack)) (e.(m_stateVariables))
    (e.(m_substateVariables)).
Definition set_m_timeOnEnterState (v : float) (e : Env) : Env :=
  mkEnv (e.(owner_id)) (e.(owner_marked)) (e.(g_time)) (e.(g_msgroute))
    (e.(m_mgr)) (e.(m_queue)) (e.(m_scopeState)) (e.(m_scopeSubstate))
    (e.(m_currentState)) (e.(m_updateIteration)) (e.(m_currentSubstate))
    (e.(m_stateChange)) (e.(m_nextState)) (e.(m_nextSubstate))
    (e.(m_delayedStateChangeQueued)) (e.(m_delayedSubstateChangeQueued))
    (e.(m_stateChangeAllowed)) (e.(m_registeredEvents)) v
    (e.(m_timeOnEnterSubstate)) (e.(m_ccMessagesToGameObject))
    (e.(m_broadcastList)) (e.(m_stack)) (e.(m_stateVariables))
    (e.(m_substateVariables)).
Definition set_m_timeOnEnterSubstate (v : float) (e : Env) : Env :=
  mkEnv (e.(owner_id)) (e.(owner_marked)) (e.(g_time)) (e.(g_msgroute))
    (e.(m_mgr)) (e.(m_queue)) (e.(m_scopeState)) (e.(m_scopeSubstate))
    (e.(m_currentState)) (e.(m_updateIteration)) (e.(m_currentSubstate))
    (e.(m_stateChange)) (e.(m_nextState)) (e.(m_nextSubstate))
    (e.(m_delayedStateChangeQueued)) (e.(m_delayedSubstateChangeQueued))
    (e.(m_stateChangeAllowed)) (e.(m_registeredEvents))
    (e.(m_timeOnEnterState)) v (e.(m_ccMessagesToGameObject))
    (e.(m_broadcastList)) (e.(m_stack)) (e.(m_stateVariables))
    (e.(m_substateVariables)).
Definition set_m_ccMessagesToGameObject (v : objectID) (e : Env) : Env :=
  mkEnv (e.(owner_id)) (e.(owner_marked)) (e.(g_time)) (e.(g_msgroute))
    (e.(m_mgr)) (e.(m_queue)) (e.(m_scopeState)) (e.(m_scopeSubstate))
    (e.(m_currentState)) (e.(m_updateIteration)) (e.(m_currentSubstate))
    (e.(m_stateChange)) (e.(m_nextState)) (e.(m_nextSubstate))
    (e.(m_delayedStateChangeQueued)) (e.(m_delayedSubstateChangeQueued))
    (e.(m_stateChangeAllowed)) (e.(m_registeredEvents))
    (e.(m_timeOnEnterState)) (e.(m_timeOnEnterSubstate)) v
    (e.(m_broadcastList)) (e.(m_stack)) (e.(m_stateVariables))
    (e.(m_substateVariables)).
Definition set_m_broadcastList (v : list objectID) (e : Env) : Env :=
  mkEnv (e.(owner_id)) (e.(owner_marked)) (e.(g_time)) (e.(g_msgroute))
    (e.(m_mgr)) (e.(m_queue)) (e.(m_scopeState)) (e.(m_scopeSubstate))
    (e.(m_currentState)) (e.(m_updateIteration)) (e.(m_currentSubstate))
    (e.(m_stateChange)) (e.(m_nextState)) (e.(m_nextSubstate))
    (e.(m_delayedStateChangeQueued)) (e.(m_delayedSubstateChangeQueued))
    (e.(m_stateChangeAllowed)) (e.(m_registeredEvents))
    (e.(m_timeOnEnterState)) (e.(m_timeOnEnterSubstate))
    (e.(m_ccMessagesToGameObject)) v (e.(m_stack)) (e.(m_stateVariables))
    (e.(m_substateVariables)).
Definition set_m_stack (v : list Z) (e : Env) : Env :=
  mkEnv (e.(owner_id)) (e.(owner_marked)) (e.(g_time)) (e.(g_msgroute))
    (e.(m_mgr)) (e.(m_queue)) (e.(m_scopeState)) (e.(m_scopeSubstate))
    (e.(m_currentState)) (e.(m_updateIteration)) (e.(m_currentSubstate))
    (e.(m_stateChange)) (e.(m_nextState)) (e.(m_nextSubstate))
    (e.(m_delayedStateChangeQueued)) (e.(m_delayedSubstateChangeQueued))
    (e.(m_stateChangeAllowed)) (e.(m_registeredEvents))
    (e.(m_timeOnEnterState)) (e.(m_timeOnEnterSubstate))
    (e.(m_ccMessagesToGameObject)) (e.(m_broadcastList)) v
    (e.(m_stateVariables)) (e.(m_substateVariables)).
Definition set_m_stateVariables (v : list StateMachinePersistentData) (e : Env) : Env :=
  mkEnv (e.(owner_id)) (e.(owner_marked)) (e.(g_time)) (e.(g_msgroute))
    (e.(m_mgr)) (e.(m_queue)) (e.(m_scopeState)) (e.(m_scopeSubstate))
    (e.(m_currentState)) (e.(m_updateIteration)) (e.(m_currentSubstate))
    (e.(m_stateChange)) (e.(m_nextState)) (e.(m_nextSubstate))
    (e.(m_delayedStateChangeQueued)) (e.(m_delayedSubstateChangeQueued))
    (e.(m_stateChangeAllowed)) (e.(m_registeredEvents))
    (e.(m_timeOnEnterState)) (e.(m_timeOnEnterSubstate))
    (e.(m_ccMessagesToGameObject)) (e.(m_broadcastList)) (e.(m_stack)) v
    (e.(m_substateVariables)).
Definition set_m_substateVariables (v : list StateMachinePersistentData) (e : Env) : Env :=
  mkEnv (e.(owner_id)) (e.(owner_marked)) (e.(g_time)) (e.(g_msgroute))
    (e.(m_mgr)) (e.(m_queue)) (e.(m_scopeState)) (e.(m_scopeSubstate))
    (e.(m_currentState)) (e.(m_updateIteration)) (e.(m_currentSubstate))
    (e.(m_stateChange)) (e.(m_nextState)) (e.(m_nextSubstate))
    (e.(m_delayedStateChangeQueued)) (e.(m_delayedSubstateChangeQueued))
    (e.(m_stateChangeAllowed)) (e.(m_registeredEvents))
    (e.(m_timeOnEnterState)) (e.(m_timeOnEnterSubstate))
    (e.(m_ccMessagesToGameObject)) (e.(m_broadcastList)) (e.(m_stack))
    (e.(m_stateVariables)) v.

Context `{cfg : HostConfig float}.

(** The user-supplied transition function, [virtual bool States( event,
    msg, state, substate )].  Its body runs on the machine and on its
    collaborators, so it is a function on [Env] that also answers
    [handled]. *)
Class StateMachineClass : Type := {
  States : State_Machine_Event -> option MSG_Object -> Z -> Z ->
           Env -> bool * Env
}.

Context `{machine : StateMachineClass}.

(** An [Env] and the invocations of [States] made on it so far. *)
Record World : Type := mkWorld {
  w_env : Env;
  w_calls : list Call
}.

Definition lift (f : Env -> Env) (w : World) : World :=
  mkWorld (f (w_env w)) (w_calls w).

(** [States( event, msg, state, substate )] as the runtime calls it. *)
Definition call_States (event : State_Machine_Event) (msg : option MSG_Object)
    (state substate : Z) (w : World) : bool * World :=
  let r := States event msg state substate (w_env w) in
  (r.1, mkWorld r.2 (w_calls w ++ [mkCall event state substate r.1])).

(** ** The router, as [statemch.cpp] sees it *)

(** Modelled from the spec: [g_msgroute.SendMsg] of [msgroute.cpp], which
    is not among the sources.  "Every send funnels into the Router with an
    explicit (delay, name, receiver, sender, scope_rule, scope_value,
    queue, payload, is_timer, is_cc) tuple": the call is recorded with its
    arguments, in the order of the calls, and nothing is said about what
    the router does with it. *)
Definition g_msgroute_SendMsg (delay : float) (name : MSG_Name)
    (receiver sender : objectID) (rule : Scope_Rule) (scope : Z)
    (queue : StateMachineQueue) (data : MSG_Data) (timer cc : bool)
    (e : Env) : Env :=
  set_g_msgroute
    (g_msgroute e ++
     [mkMSG delay name receiver sender rule scope queue data timer cc]) e.

(** ** Initialisation *)

Definition DeleteAllStateVariables (e : Env) : Env :=
  set_m_stateVariables [] e.

Definition DeleteAllSubstateVariables (e : Env) : Env :=
  set_m_substateVariables [] e.

Definition Initialize (e : Env) : Env :=
  let e := set_m_scopeState 0 e in
  let e := set_m_scopeSubstate 0 e in
  let e := set_m_currentState 0 e in
  let e := set_m_updateIteration 0 e in
  let e := set_m_currentSubstate (-1) e in
  let e := set_m_stateChange NO_STATE_CHANGE e in
  let e := set_m_nextState 0 e in
  let e := set_m_nextSubstate 0 e in
  let e := set_m_delayedStateChangeQueued false e in
  let e := set_m_delayedSubstateChangeQueued false e in
  let e := set_m_stateChangeAllowed true e in
  let e := set_m_registeredEvents 0 e in
  let e := set_m_timeOnEnterState float_zero e in
  let e := set_m_timeOnEnterSubstate float_zero e in
  let e := set_m_ccMessagesToGameObject 0 e in
  let e := set_m_broadcastList [] e in
  let e := set_m_stack [] e in
  let e := DeleteAllStateVariables e in
  DeleteAllSubstateVariables e.

(** ** PerformStateChanges *)

(** Lines 185-188: the flags cleared at the start of an iteration. *)
Definition PerformStateChanges_begin (e : Env) : Env :=
  let e := set_m_stateChangeAllowed false e in
  let e := set_m_delayedStateChangeQueued false e in
  let e := set_m_delayedSubstateChangeQueued false e in
  set_m_updateIteration 0 e.

(** Lines 190-198: "Let the last state clean-up". *)
Definition PerformStateChanges_exit (w : World) : World :=
  let w :=
    if (0 <=? m_currentSubstate (w_env w)) &&
       has_bits (m_registeredEvents (w_env w)) REGISTERED_EVENT_EXIT_SUBSTATE
    then (call_States EVENT_Exit None
            (static_cast_int (m_currentState (w_env w)))
            (m_currentSubstate (w_env w)) w).2
    else w in
  if (m_nextSubstate (w_env w) <? 0) &&
     has_bits (m_registeredEvents (w_env w)) REGISTERED_EVENT_EXIT_STATE
  then (call_States EVENT_Exit None
          (static_cast_int (m_currentState (w_env w))) (-1) w).2
  else w.

(** Lines 202-239: the [switch( m_stateChange )].  The [default] case is
    an assertion only. *)
Definition PerformStateChanges_switch (e : Env) : Env :=
  match m_stateChange e with
  | STATE_CHANGE =>
      let e :=
        if m_nextSubstate e <? 0 then
          let e := set_m_stack (m_stack e ++ [m_currentState e]) e in
          if (MAX_STATE_STACK_SIZE <? length (m_stack e))%nat
          then set_m_stack (tail (m_stack e)) e
          else e
        else e in
      let e := set_m_currentState (m_nextState e) e in
      set_m_currentSubstate (m_nextSubstate e) e
  | STATE_POP =>
      match last (m_stack e) with
      | Some back =>
          let e := set_m_currentState back e in
          let e := set_m_currentSubstate (-1) e in
          set_m_stack (removelast (m_stack e)) e
      | None => e
      end
  | NO_STATE_CHANGE => e
  end.

(** Lines 241-270: scope counters, variables, entry times, request flags
    and the registered-event bits that survive. *)
Definition PerformStateChanges_scope (e : Env) : Env :=
  let e := set_m_scopeSubstate (uint_incr (m_scopeSubstate e)) e in
  let e :=
    if m_nextSubstate e <? 0
    then set_m_scopeState (uint_incr (m_scopeState e)) e else e in
  let e := DeleteAllSubstateVariables e in
  let e := if m_nextSubstate e <? 0 then DeleteAllStateVariables e else e in
  let e := set_m_timeOnEnterSubstate (g_time e) e in
  let e :=
    if m_nextSubstate e <? 0
    then set_m_timeOnEnterState (g_time e) e else e in
  let e := set_m_stateChange NO_STATE_CHANGE e in
  let e := set_m_stateChangeAllowed true e in
  if m_nextSubstate e <? 0
  then set_m_registeredEvents
         (Z.land (m_registeredEvents e) REGISTERED_EVENT_STATEMACHINE) e
  else set_m_registeredEvents
         (Z.land (m_registeredEvents e)
            (Z.lor REGISTERED_EVENT_STATE REGISTERED_EVENT_STATEMACHINE)) e.

(** Lines 272-286: [EVENT_Probe], then [EVENT_Enter] where registered. *)
Definition PerformStateChanges_enter (w : World) : World :=
  let w :=
    (call_States EVENT_Probe None
       (static_cast_int (m_currentState (w_env w)))
       (m_currentSubstate (w_env w)) w).2 in
  if m_nextSubstate (w_env w) <? 0 then
    if has_bits (m_registeredEvents (w_env w)) REGISTERED_EVENT_ENTER_STATE
    then (call_States EVENT_Enter None
            (static_cast_int (m_currentState (w_env w)))
            (m_currentSubstate (w_env w)) w).2
    else w
  else
    if has_bits (m_registeredEvents (w_env w)) REGISTERED_EVENT_ENTER_SUBSTATE
    then (call_States EVENT_Enter None
            (static_cast_int (m_currentState (w_env w)))
            (m_currentSubstate (w_env w)) w).2
    else w.

(** The body of the [while] loop. *)
Definition PerformStateChanges_iteration (w : World) : World :=
  let w := lift PerformStateChanges_begin w in
  let w := PerformStateChanges_exit w in
  let w := lift PerformStateChanges_switch w in
  let w := lift PerformStateChanges_scope w in
  PerformStateChanges_enter w.

(** [while( m_stateChange != NO_STATE_CHANGE && (--safetyCount >= 0) )]:
    [safetyCount] is the number of iterations still permitted. *)
Fixpoint PerformStateChanges_loop (safetyCount : nat) (w : World) : World :=
  match safetyCount with
  | O => w
  | S n =>
      match m_stateChange (w_env w) with
      | NO_STATE_CHANGE => w
      | _ => PerformStateChanges_loop n (PerformStateChanges_iteration w)
      end
  end.

Definition PerformStateChanges (w : World) : World :=
  PerformStateChanges_loop 20 w.

(** ** Sending *)

Definition SendMsgDelayedToMeHelper (delay : float) (name : MSG_Name)
    (rule : Scope_Rule) (queue : StateMachineQueue) (data : MSG_Data)
    (timer : bool) (e : Env) : Env :=
  let scope := 0 in
  let scope :=
    if bool_decide (rule = SCOPE_TO_SUBSTATE) then m_scopeSubstate e
    else if bool_decide (rule = SCOPE_TO_STATE) then m_scopeState e
    else scope in
  g_msgroute_SendMsg delay name (owner_id e) (owner_id e) rule scope queue
    data timer false e.

Definition SendCCMsg (name : MSG_Name) (receiver : objectID)
    (data : MSG_Data) (e : Env) : Env :=
  g_msgroute_SendMsg float_zero name receiver (owner_id e)
    SCOPE_TO_STATE_MACHINE 0 STATE_MACHINE_QUEUE_ALL data false true e.

(** Modelled from the spec: [GetCCReceiver()], an inline accessor of
    [statemch.h]; the "configured CC receiver" is the member that
    [Initialize] resets. *)
Definition GetCCReceiver (e : Env) : objectID := m_ccMessagesToGameObject e.

Definition SendMsgToSubstate (name : MSG_Name) (data : MSG_Data)
    (e : Env) : Env :=
  SendMsgDelayedToMeHelper ONE_FRAME name SCOPE_TO_SUBSTATE (m_queue e) data
    false e.

Definition SendMsgToState (name : MSG_Name) (data : MSG_Data)
    (e : Env) : Env :=
  SendMsgDelayedToMeHelper ONE_FRAME name SCOPE_TO_STATE (m_queue e) data
    false e.

Definition SendMsgToStateMachine (name : MSG_Name) (data : MSG_Data)
    (e : Env) : Env :=
  SendMsgDelayedToMeHelper ONE_FRAME name SCOPE_TO_STATE_MACHINE (m_queue e)
    data false e.

Definition SendMsgToStateMachineNow (name : MSG_Name) (data : MSG_Data)
    (e : Env) : Env :=
  SendMsgDelayedToMeHelper float_zero name SCOPE_TO_STATE_MACHINE (m_queue e)
    data false e.

Definition SendMsgDelayedToSubstate (delay : float) (name : MSG_Name)
    (data : MSG_Data) (e : Env) : Env :=
  SendMsgDelayedToMeHelper delay name SCOPE_TO_SUBSTATE (m_queue e) data
    false e.

Definition SendMsgDelayedToState (delay : float) (name : MSG_Name)
    (data : MSG_Data) (e : Env) : Env :=
  SendMsgDelayedToMeHelper delay name SCOPE_TO_STATE (m_queue e) data false e.

Definition SendMsgDelayedToStateMachine (delay : float) (name : MSG_Name)
    (data : MSG_Data) (e : Env) : Env :=
  SendMsgDelayedToMeHelper delay name SCOPE_TO_STATE_MACHINE (m_queue e) data
    false e.

Definition SendMsg (name : MSG_Name) (receiver : objectID) (data : MSG_Data)
    (e : Env) : Env :=
  g_msgroute_SendMsg ONE_FRAME name receiver (owner_id e)
    SCOPE_TO_STATE_MACHINE 0 STATE_MACHINE_QUEUE_ALL data false false e.

Definition SendMsgNow (name : MSG_Name) (receiver : objectID)
    (data : MSG_Data) (e : Env) : Env :=
  g_msgroute_SendMsg float_zero name receiver (owner_id e)
    SCOPE_TO_STATE_MACHINE 0 STATE_MACHINE_QUEUE_ALL data false false e.

Definition SendMsgToSingleQueue (name : MSG_Name) (queue : StateMachineQueue)
    (data : MSG_Data) (e : Env) : Env :=
  SendMsgDelayedToMeHelper ONE_FRAME name SCOPE_TO_STATE_MACHINE queue data
    false e.

Definition SendMsgToSingleQueueNow (name : MSG_Name)
    (queue : StateMachineQueue) (data : MSG_Data) (e : Env) : Env :=
  SendMsgDelayedToMeHelper float_zero name SCOPE_TO_STATE_MACHINE queue data
    false e.

Definition SendMsgToAllQueues (name : MSG_Name) (data : MSG_Data)
    (e : Env) : Env :=
  SendMsgDelayedToMeHelper ONE_FRAME name SCOPE_TO_STATE_MACHINE
    STATE_MACHINE_QUEUE_ALL data false e.

Definition SendMsgToAllQueuesNow (name : MSG_Name) (data : MSG_Data)
    (e : Env) : Env :=
  SendMsgDelayedToMeHelper float_zero name SCOPE_TO_STATE_MACHINE
    STATE_MACHINE_QUEUE_ALL data false e.

(** [for( int queue=0; queue<STATE_MACHINE_NUM_QUEUES; ++queue )] with the
    test [queue != m_queue], shared by the three "all other queues"
    sends. *)
Definition to_all_other_queues (delay : float) (name : MSG_Name)
    (data : MSG_Data) (e : Env) : Env :=
  foldl
    (fun e queue =>
       if bool_decide (queue <> m_queue e)
       then SendMsgDelayedToMeHelper delay name SCOPE_TO_STATE_MACHINE queue
              data false e
       else e)
    e (seqZ 0 (Z.of_nat STATE_MACHINE_NUM_QUEUES)).

Definition SendMsgToAllOtherQueues (name : MSG_Name) (data : MSG_Data)
    : Env -> Env :=
  to_all_other_queues ONE_FRAME name data.

Definition SendMsgToAllOtherQueuesNow (name : MSG_Name) (data : MSG_Data)
    : Env -> Env :=
  to_all_other_queues float_zero name data.

Definition SendMsgDelayed (delay : float) (name : MSG_Name)
    (receiver : objectID) (data : MSG_Data) (e : Env) : Env :=
  g_msgroute_SendMsg delay name receiver (owner_id e) SCOPE_TO_STATE_MACHINE 0
    STATE_MACHINE_QUEUE_ALL data false false e.

Definition SendMsgDelayedToSingleQueue (delay : float) (name : MSG_Name)
    (queue : StateMachineQueue) (data : MSG_Data) (e : Env) : Env :=
  SendMsgDelayedToMeHelper delay name SCOPE_TO_STATE_MACHINE queue data
    false e.

Definition SendMsgDelayedToAllQueues (delay : float) (name : MSG_Name)
    (data : MSG_Data) (e : Env) : Env :=
  SendMsgDelayedToMeHelper delay name SCOPE_TO_STATE_MACHINE
    STATE_MACHINE_QUEUE_ALL data false e.

Definition SendMsgDelayedToAllOtherQueues (delay : float) (name : MSG_Name)
    (data : MSG_Data) : Env -> Env :=
  to_all_other_queues delay name data.

(** The [for] loop over [m_broadcastList], front to back. *)
Definition SendMsgBroadcastToList (name : MSG_Name) (data : MSG_Data)
    (e : Env) : Env :=
  foldl
    (fun e id =>
       if bool_decide (id <> owner_id e)
       then g_msgroute_SendMsg ONE_FRAME name id (owner_id e)
              SCOPE_TO_STATE_MACHINE 0 STATE_MACHINE_QUEUE_ALL data false
              false e
       else e)
    e (m_broadcastList e).

Definition SendMsgBroadcastToListNow (name : MSG_Name) (data : MSG_Data)
    (e : Env) : Env :=
  foldl
    (fun e id =>
       if bool_decide (id <> owner_id e)
       then g_msgroute_SendMsg float_zero name id (owner_id e)
              SCOPE_TO_STATE_MACHINE 0 STATE_MACHINE_QUEUE_ALL data false
              false e
       else e)
    e (m_broadcastList e).

Definition BroadcastClearList (e : Env) : Env := set_m_broadcastList [] e.

Definition BroadcastAddToList (id : objectID) (e : Env) : Env :=
  set_m_broadcastList (m_broadcastList e ++ [id]) e.

(** ** Timers *)

Definition SetTimerSubstate (delay : float) (name : MSG_Name)
    (e : Env) : Env :=
  let delay := if float_lt delay ONE_FRAME then ONE_FRAME else delay in
  let data := MSG_Data_float delay in
  SendMsgDelayedToMeHelper delay name SCOPE_TO_SUBSTATE (m_queue e) data
    true e.

Definition SetTimerState (delay : float) (name : MSG_Name) (e : Env) : Env :=
  let delay := if float_lt delay ONE_FRAME then ONE_FRAME else delay in
  let data := MSG_Data_float delay in
  SendMsgDelayedToMeHelper delay name SCOPE_TO_SUBSTATE (m_queue e) data
    true e.

Definition SetTimerStateMachine (delay : float) (name : MSG_Name)
    (e : Env) : Env :=
  let delay := if float_lt delay ONE_FRAME then ONE_FRAME else delay in
  let data := MSG_Data_float delay in
  SendMsgDelayedToMeHelper delay name SCOPE_TO_STATE_MACHINE (m_queue e) data
    true e.

Definition SetTimerExternal (delay : float) (name : MSG_Name)
    (rule : Scope_Rule) (e : Env) : Env :=
  let data := MSG_Data_float delay in
  SendMsgDelayedToMeHelper delay name rule (m_queue e) data true e.

(** ** Requesting a transition *)

Definition ChangeState (newState : Z) (e : Env) : Env :=
  if m_stateChangeAllowed e then
    let e := set_m_stateChange STATE_CHANGE e in
    let e := set_m_nextState newState e in
    set_m_nextSubstate (-1) e
  else e.

Definition ChangeSubstate (newSubstate : Z) (e : Env) : Env :=
  if m_stateChangeAllowed e then
    let e := set_m_stateChange STATE_CHANGE e in
    let e := set_m_nextState (m_currentState e) e in
    set_m_nextSubstate (static_cast_int newSubstate) e
  else e.

Definition ChangeStateDelayed (delay : float) (newState : Z)
    (e : Env) : Env :=
  if m_stateChangeAllowed e then
    let e := set_m_delayedStateChangeQueued true e in
    SendMsgDelayedToState delay MSG_CHANGE_STATE_DELAYED
      (MSG_Data_int (static_cast_int newState)) e
  else e.

Definition ChangeSubstateDelayed (delay : float) (newSubstate : Z)
    (e : Env) : Env :=
  if m_stateChangeAllowed e then
    let e := set_m_delayedSubstateChangeQueued true e in
    SendMsgDelayedToSubstate delay MSG_CHANGE_SUBSTATE_DELAYED
      (MSG_Data_int (static_cast_int newSubstate)) e
  else e.

Definition PopState (e : Env) : Env :=
  if m_stateChangeAllowed e then set_m_stateChange STATE_POP e else e.

(** ** Dispatch *)

(** Lines 146-159 of [Process]: the three queries. *)
Definition Process_dispatch (event : State_Machine_Event)
    (msg : option MSG_Object) (w : World) : World :=
  let r :=
    if 0 <=? m_currentSubstate (w_env w)
    then call_States event msg (static_cast_int (m_currentState (w_env w)))
           (m_currentSubstate (w_env w)) w
    else (false, w) in
  let r :=
    if negb r.1
    then call_States event msg (static_cast_int (m_currentState (w_env r.2)))
           (-1) r.2
    else r in
  let r := if negb r.1 then call_States event msg (-1) (-1) r.2 else r in
  r.2.

Definition Process (event : State_Machine_Event) (msg : option MSG_Object)
    (w : World) : World :=
  if negb (owner_marked (w_env w)) then
    let w :=
      match msg with
      | Some m =>
          if (0 <? GetCCReceiver (w_env w)) &&
             bool_decide (event = EVENT_Message)
          then lift (SendCCMsg (msg_name m) (GetCCReceiver (w_env w))
                       (msg_data m)) w
          else w
      | None => w
      end in
    let w := Process_dispatch event msg w in
    PerformStateChanges w
  else w.

Definition Reset (w : World) : World :=
  let w := lift Initialize w in
  let w := Process EVENT_Probe None w in
  Process EVENT_Enter None w.

(** Lines 103-117 of [Update]: the counter and the gated queries. *)
Definition Update_dispatch (w : World) : World :=
  let w :=
    lift (fun e => set_m_updateIteration (m_updateIteration e + 1) e) w in
  let r :=
    if (0 <=? m_currentSubstate (w_env w)) &&
       has_bits (m_registeredEvents (w_env w)) REGISTERED_EVENT_UPDATE_SUBSTATE
    then call_States EVENT_Update None
           (static_cast_int (m_currentState (w_env w)))
           (m_currentSubstate (w_env w)) w
    else (false, w) in
  let r :=
    if negb r.1 &&
       has_bits (m_registeredEvents (w_env r.2)) REGISTERED_EVENT_UPDATE_STATE
    then call_States EVENT_Update None
           (static_cast_int (m_currentState (w_env r.2))) (-1) r.2
    else r in
  let r :=
    if negb r.1 &&
       has_bits (m_registeredEvents (w_env r.2))
         REGISTERED_EVENT_UPDATE_STATEMACHINE
    then call_States EVENT_Update None (-1) (-1) r.2
    else r in
  r.2.

Definition Update (w : World) : World :=
  if has_bits (m_registeredEvents (w_env w)) REGISTERED_EVENT_UPDATE &&
     negb (owner_marked (w_env w))
  then PerformStateChanges (Update_dispatch w)
  else w.

(** ** State variables *)

Definition DeclareVariable (id : Z) (scope : StateVariableScope)
    (e : Env) : Env :=
  if bool_decide (scope = STATE_VARIABLE_SCOPE) &&
     (Z.of_nat (length (m_stateVariables e)) <=? id)
  then set_m_stateVariables (m_stateVariables e ++ [PersistentData_new]) e
  else if bool_decide (scope = SUBSTATE_VARIABLE_SCOPE) &&
          (Z.of_nat (length (m_substateVariables e)) <=? id)
  then set_m_substateVariables
         (m_substateVariables e ++ [PersistentData_new]) e
  else e.

(** The condition asserted by every accessor: [id >= 0 && id < size],
    where [(int)size] is the size itself for a vector of fewer than [2^31]
    slots. *)
Definition id_in_range (id : Z) (vars : list StateMachinePersistentData)
    : bool :=
  (0 <=? id) && (id <? Z.of_nat (length vars)).

(** [m_stateVariables[id]->SetInt( value )]; indexing outside the vector
    is undefined behaviour, rendered as [None]. *)
Definition SetStateVariableInt (value : Z) (id : Z)
    (scope : StateVariableScope) (e : Env) : option Env :=
  if bool_decide (scope = STATE_VARIABLE_SCOPE) then
    if id_in_range id (m_stateVariables e)
    then Some (set_m_stateVariables
                 (<[Z.to_nat id := PersistentData_int value]>
                    (m_stateVariables e)) e)
    else None
  else
    if id_in_range id (m_substateVariables e)
    then Some (set_m_substateVariables
                 (<[Z.to_nat id := PersistentData_int value]>
                    (m_substateVariables e)) e)
    else None.

(** [m_stateVariables[id]], or [None] outside the vector. *)
Definition GetStateVariable (id : Z) (scope : StateVariableScope)
    (e : Env) : option StateMachinePersistentData :=
  if bool_decide (scope = STATE_VARIABLE_SCOPE) then
    if id_in_range id (m_stateVariables e)
    then m_stateVariables e !! Z.to_nat id else None
  else
    if id_in_range id (m_substateVariables e)
    then m_substateVariables e !! Z.to_nat id else None.

(** ** The manager's change requests *)

(** The constructor of [StateMachineManager]. *)
Definition StateMachineManager_new : StateMachineManager :=
  mkManager (replicate STATE_MACHINE_NUM_QUEUES NO_STATE_MACHINE_CHANGE)
    (replicate STATE_MACHINE_NUM_QUEUES None).

(** [queue] indexes both arrays; an index outside them is undefined
    behaviour, rendered as [None]. *)
Definition RequestStateMachineChange (mch : StateMachinePtr)
    (change : StateMachineChange) (queue : StateMachineQueue)
    (m : StateMachineManager) : option StateMachineManager :=
  if (0 <=? queue) &&
     (queue <? Z.of_nat (length (m_stateMachineChange m))) &&
     (queue <? Z.of_nat (length (m_newStateMachine m)))
  then Some (mkManager
               (<[Z.to_nat queue := change]> (m_stateMachineChange m))
               (<[Z.to_nat queue := mch]> (m_newStateMachine m)))
  else None.

(** The verbs of [StateMachine] that forward to the manager with
    [m_queue]. *)
Definition mgr_request (mch : StateMachinePtr) (change : StateMachineChange)
    (e : Env) : option Env :=
  match RequestStateMachineChange mch change (m_queue e) (m_mgr e) with
  | Some m => Some (set_m_mgr m e)
  | None => None
  end.

Definition ResetStateMachine : Env -> option Env :=
  mgr_request None STATE_MACHINE_RESET.

Definition ReplaceStateMachine (mch : Z) : Env -> option Env :=
  mgr_request (Some mch) STATE_MACHINE_REPLACE.

Definition QueueStateMachine (mch : Z) : Env -> option Env :=
  mgr_request (Some mch) STATE_MACHINE_QUEUE.

Definition RequeueStateMachine : Env -> option Env :=
  mgr_request None STATE_MACHINE_REQUEUE.

Definition PushStateMachine (mch : Z) : Env -> option Env :=
  mgr_request (Some mch) STATE_MACHINE_PUSH.

Definition PopStateMachine : Env -> option Env :=
  mgr_request None STATE_MACHINE_POP.

(** ** Operations and reachable configurations *)

(** What the rest of the program does to the surroundings of the machine
    between two calls: the clock advances, the owner may be marked for
    deletion, and the manager assigns the queue, by
    [SetStateMachineQueue]. *)
Definition host_step (marked : bool) (now : float)
    (queue : StateMachineQueue) (e : Env) : Env :=
  let e := set_owner_marked marked e in
  let e := set_g_time now e in
  set_m_queue queue e.

(** The verbs that act on the machine without invoking [States].  The
    sends to the machine itself are all instances of
    [SendMsgDelayedToMeHelper] or of the loop over the other queues, and
    the verbs that address the manager are all instances of
    [RequestStateMachineChange] on [m_queue]. *)
Inductive Verb : Type :=
  | Verb_host_step (marked : bool) (now : float) (queue : StateMachineQueue)
  | Verb_Initialize
  | Verb_ChangeState (newState : Z)
  | Verb_ChangeSubstate (newSubstate : Z)
  | Verb_ChangeStateDelayed (delay : float) (newState : Z)
  | Verb_ChangeSubstateDelayed (delay : float) (newSubstate : Z)
  | Verb_PopState
  | Verb_SendMsg (name : MSG_Name) (receiver : objectID) (data : MSG_Data)
  | Verb_SendMsgNow (name : MSG_Name) (receiver : objectID) (data : MSG_Data)
  | Verb_SendMsgDelayed (delay : float) (name : MSG_Name)
      (receiver : objectID) (data : MSG_Data)
  | Verb_SendMsgDelayedToMeHelper (delay : float) (name : MSG_Name)
      (rule : Scope_Rule) (queue : StateMachineQueue) (data : MSG_Data)
      (timer : bool)
  | Verb_to_all_other_queues (delay : float) (name : MSG_Name)
      (data : MSG_Data)
  | Verb_SendMsgBroadcastToList (name : MSG_Name) (data : MSG_Data)
  | Verb_SendMsgBroadcastToListNow (name : MSG_Name) (data : MSG_Data)
  | Verb_BroadcastClearList
  | Verb_BroadcastAddToList (id : objectID)
  | Verb_SetTimerSubstate (delay : float) (name : MSG_Name)
  | Verb_SetTimerState (delay : float) (name : MSG_Name)
  | Verb_SetTimerStateMachine (delay : float) (name : MSG_Name)
  | Verb_SendCCMsg (name : MSG_Name) (receiver : objectID) (data : MSG_Data)
  | Verb_DeclareVariable (id : Z) (scope : StateVariableScope)
  | Verb_SetStateVariableInt (value id : Z) (scope : StateVariableScope)
  | Verb_RequestStateMachineChange (mch : StateMachinePtr)
      (change : StateMachineChange).

Definition run_verb (v : Verb) (e : Env) : option Env :=
  match v with
  | Verb_host_step marked now queue => Some (host_step marked now queue e)
  | Verb_Initialize => Some (Initialize e)
  | Verb_ChangeState n => Some (ChangeState n e)
  | Verb_ChangeSubstate n => Some (ChangeSubstate n e)
  | Verb_ChangeStateDelayed d n => Some (ChangeStateDelayed d n e)
  | Verb_ChangeSubstateDelayed d n => Some (ChangeSubstateDelayed d n e)
  | Verb_PopState => Some (PopState e)
  | Verb_SendMsg n r d => Some (SendMsg n r d e)
  | Verb_SendMsgNow n r d => Some (SendMsgNow n r d e)
  | Verb_SendMsgDelayed dl n r d => Some (SendMsgDelayed dl n r d e)
  | Verb_SendMsgDelayedToMeHelper dl n r q d t =>
      Some (SendMsgDelayedToMeHelper dl n r q d t e)
  | Verb_to_all_other_queues dl n d => Some (to_all_other_queues dl n d e)
  | Verb_SendMsgBroadcastToList n d => Some (SendMsgBroadcastToList n d e)
  | Verb_SendMsgBroadcastToListNow n d =>
      Some (SendMsgBroadcastToListNow n d e)
  | Verb_BroadcastClearList => Some (BroadcastClearList e)
  | Verb_BroadcastAddToList id => Some (BroadcastAddToList id e)
  | Verb_SetTimerSubstate d n => Some (SetTimerSubstate d n e)
  | Verb_SetTimerState d n => Some (SetTimerState d n e)
  | Verb_SetTimerStateMachine d n => Some (SetTimerStateMachine d n e)
  | Verb_SendCCMsg n r d => Some (SendCCMsg n r d e)
  | Verb_DeclareVariable id s => Some (DeclareVariable id s e)
  | Verb_SetStateVariableInt v id s => SetStateVariableInt v id s e
  | Verb_RequestStateMachineChange mch c => mgr_request mch c e
  end.

(** The operations a machine undergoes: a verb, or one of the entry
    points that invoke [States]. *)
Inductive Op : Type :=
  | Op_Verb (v : Verb)
  | Op_Reset
  | Op_Update
  | Op_Process (event : State_Machine_Event) (msg : option MSG_Object)
  | Op_PerformStateChanges.

Definition run_op (o : Op) (w : World) : option World :=
  match o with
  | Op_Verb v =>
      match run_verb v (w_env w) with
      | Some e => Some (mkWorld e (w_calls w))
      | None => None
      end
  | Op_Reset => Some (Reset w)
  | Op_Update => Some (Update w)
  | Op_Process event msg => Some (Process event msg w)
  | Op_PerformStateChanges => Some (PerformStateChanges w)
  end.

Fixpoint run_ops (os : list Op) (w : World) : option World :=
  match os with
  | [] => Some w
  | o :: os' =>
      match run_op o w with
      | Some w' => run_ops os' w'
      | None => None
      end
  end.

(** A machine is constructed by [StateMachine::StateMachine], which ends
    in [Initialize()], and changes by the operations above. *)
Inductive reachable : World -> Prop :=
  | reachable_new (e : Env) : reachable (mkWorld (Initialize e) [])
  | reachable_op (o : Op) (w w' : World) :
      reachable w -> run_op o w = Some w' -> reachable w'.

(** ** Vocabulary of the statements *)

Definition stack_bounded (e : Env) : Prop :=
  (length (m_stack e) <= MAX_STATE_STACK_SIZE)%nat.

(** The slot vector of a scope. *)
Definition variables (scope : StateVariableScope) (e : Env)
    : list StateMachinePersistentData :=
  match scope with
  | STATE_VARIABLE_SCOPE => m_stateVariables e
  | SUBSTATE_VARIABLE_SCOPE => m_substateVariables e
  end.

(** The rungs of the dispatch ladder for a machine in state [cs] and
    substate [sub], in the order of the queries. *)
Definition ladder (cs sub : Z) : list (Z * Z) :=
  (if 0 <=? sub then [(cs, sub)] else []) ++ [(cs, -1); (-1, -1)].

(** [calls] queries the rungs in order with [event] and stops at the
    first call that answers [handled = true]. *)
Fixpoint walks_ladder (event : State_Machine_Event) (rungs : list (Z * Z))
    (calls : list Call) : Prop :=
  match rungs with
  | [] => calls = []
  | q :: rungs' =>
      match calls with
      | [] => False
      | c :: calls' =>
          call_event c = event /\
          (call_state c, call_substate c) = q /\
          if call_handled c then calls' = []
          else walks_ladder event rungs' calls'
      end
  end.

(** The request [SendMsgBroadcastToList] issues for the entry [id]. *)
Definition broadcast_msg (delay : float) (name : MSG_Name)
    (data : MSG_Data) (owner id : objectID) : MSG_Object :=
  mkMSG delay name id owner SCOPE_TO_STATE_MACHINE 0 STATE_MACHINE_QUEUE_ALL
    data false false.

(** The newest [MAX_STATE_STACK_SIZE] entries of a stack. *)
Definition newest (stack : list Z) : list Z :=
  drop (length stack - MAX_STATE_STACK_SIZE) stack.

End Runtime.

(** ** A concrete host and concrete machines *)

(** Modelled from the spec: a host for the examples.  Delays are whole
    ticks, there are [NUM_QUEUES = 3] queues, and the registered-event bits
    are laid out as [{Enter, Exit, Update} x {Machine, State, Substate}],
    one bit each. *)

Definition demo_config : HostConfig Z := {|
  float_zero := 0;
  float_lt := Z.ltb;
  ONE_FRAME := 1;
  MSG_CHANGE_STATE_DELAYED := 1;
  MSG_CHANGE_SUBSTATE_DELAYED := 2;
  STATE_MACHINE_NUM_QUEUES := 3;
  STATE_MACHINE_QUEUE_ALL := 4;
  REGISTERED_EVENT_ENTER_SUBSTATE := 0x040;
  REGISTERED_EVENT_ENTER_STATE := 0x008;
  REGISTERED_EVENT_EXIT_SUBSTATE := 0x080;
  REGISTERED_EVENT_EXIT_STATE := 0x010;
  REGISTERED_EVENT_UPDATE_SUBSTATE := 0x100;
  REGISTERED_EVENT_UPDATE_STATE := 0x020;
  REGISTERED_EVENT_UPDATE_STATEMACHINE := 0x004;
  REGISTERED_EVENT_UPDATE := 0x124;
  REGISTERED_EVENT_STATE := 0x038;
  REGISTERED_EVENT_STATEMACHINE := 0x007
|}.

(** A freshly constructed machine of owner 7 on queue 0. *)
Definition demo_env : Env (float := Z) :=
  Initialize (cfg := demo_config)
    (mkEnv 7 false 0 [] (StateMachineManager_new (cfg := demo_config)) 0
       0 0 0 0 0 NO_STATE_CHANGE 0 0 false false false 0 0 0 0 [] [] [] []).

(** A machine without any handler: no query is handled, nothing is
    registered. *)
Definition idle_machine : StateMachineClass (float := Z) := {|
  States := fun _ _ _ _ e => (false, e)
|}.

(** A machine whose states all declare [OnEnter] and [OnExit]: the probe of
    a state registers both, and no handler body does anything. *)
Definition probing_machine : StateMachineClass (float := Z) := {|
  States := fun event _ state substate e =>
    match event with
    | EVENT_Probe =>
        (true,
         set_m_registeredEvents
           (Z.lor (m_registeredEvents e)
              (Z.lor (REGISTERED_EVENT_ENTER_STATE (HostConfig := demo_config))
                 (REGISTERED_EVENT_EXIT_STATE (HostConfig := demo_config))))
           e)
    | EVENT_Enter | EVENT_Exit => (true, e)
    | _ => (false, e)
    end
|}.

(** A machine that answers every message at the state level by requesting
    state 5, and handles nothing else. *)
Definition state_level_machine : StateMachineClass (float := Z) := {|
  States := fun event _ state substate e =>
    match event with
    | EVENT_Message =>
        if (0 <=? state) && (substate =? -1)
        then (true, ChangeState 5 e) else (false, e)
    | _ => (false, e)
    end
|}.

(** A machine whose states declare [OnUpdate]: the probe registers the
    state-level Update handler, and the handler requests the next state. *)
Definition ticking_machine : StateMachineClass (float := Z) := {|
  States := fun event _ state substate e =>
    match event with
    | EVENT_Probe =>
        (true,
         set_m_registeredEvents
           (Z.lor (m_registeredEvents e)
              (REGISTERED_EVENT_UPDATE_STATE (HostConfig := demo_config))) e)
    | EVENT_Update =>
        if (0 <=? state) && (substate =? -1)
        then (true, ChangeState (m_currentState e + 1) e) else (false, e)
    | _ => (false, e)
    end
|}.

Definition demo_world : World := mkWorld demo_env [].

(** A message some other object sent to the demo machine. *)
Definition demo_msg : MSG_Object (float := Z) :=
  mkMSG 0 9 7 3 SCOPE_TO_STATE_MACHINE 0 4 MSG_Data_none false false.

(** Ten state changes, each applied, and then a request for an eleventh. *)
Definition eleven_state_changes : list (Op (float := Z)) :=
  flat_map
    (fun k => [Op_Verb (Verb_ChangeState k); Op_PerformStateChanges])
    (seqZ 1 10) ++ [Op_Verb (Verb_ChangeState 11)].

(** A handler of state 0 requests state 1; there a state variable is
    declared and set and substate 0 is requested; a handler of that substate
    requests a pop. *)
Definition pop_after_substate_change : list (Op (float := Z)) :=
  [Op_Verb (Verb_ChangeState 1); Op_PerformStateChanges;
   Op_Verb (Verb_DeclareVariable 0 STATE_VARIABLE_SCOPE);
   Op_Verb (Verb_SetStateVariableInt 42 0 STATE_VARIABLE_SCOPE);
   Op_Verb (Verb_ChangeSubstate 0); Op_PerformStateChanges;
   Op_Verb Verb_PopState].

(** A machine is reset, visits state 1 and pops back to state 0, which
    empties the stack; a state variable is declared and a handler requests
    another pop. *)
Definition pop_twice_after_one_change : list (Op (float := Z)) :=
  [Op_Reset; Op_Verb (Verb_ChangeState 1); Op_PerformStateChanges;
   Op_Verb Verb_PopState; Op_PerformStateChanges;
   Op_Verb (Verb_DeclareVariable 0 STATE_VARIABLE_SCOPE);
   Op_Verb Verb_PopState].


(** * The machine manager

    [StateMachineManager] keeps, for every queue, a list of machines
    ([m_stateMachineList], front = bottom, back = the active machine) and
    one pending change request.  The manager calls into the machines
    ([Reset], [Update], [Process]), whose handlers may call back into the
    manager; the machines' code is therefore an interface, [MachineCode],
    that acts on the manager's state, and the calls the manager makes are
    logged.  A machine is known to the manager by its address. *)

Module Manager.

Section Manager.

Context {float : Type} `{cfg : HostConfig float}.

(** Everything the machines' code reads and writes besides the manager:
    the machines themselves, the router, the game objects. *)
Context {Rest : Type}.

Record State : Type := mkState {
  requests : StateMachineManager;
  m_stateMachineList : list (list Z);
  rest : Rest
}.

(** A call the manager makes: on a machine, or [g_msgroute.PurgeScopedMsg(
    m_owner->GetID(), queue )]. *)
Inductive Call : Type :=
  | Call_SetStateMachineQueue (mch : Z) (queue : StateMachineQueue)
  | Call_Reset (mch : Z)
  | Call_Update (mch : Z)
  | Call_Process (mch : Z) (event : State_Machine_Event)
      (msg : option (@MSG_Object float))
  | Call_delete (mch : Z)
  | Call_PurgeScopedMsg (queue : StateMachineQueue).

(** The code behind those calls.  [SetStateMachineQueue] is a setter of
    the machine, [delete] runs its destructor and [PurgeScopedMsg] belongs
    to the router: none of them reaches the manager.  [Reset], [Update] and
    [Process] run the machine's handlers, which may. *)
Class MachineCode : Type := {
  mch_SetStateMachineQueue : Z -> StateMachineQueue -> Rest -> Rest;
  mch_delete : Z -> Rest -> Rest;
  purge_scoped : StateMachineQueue -> Rest -> Rest;
  mch_Reset : Z -> State -> State;
  mch_Update : Z -> State -> State;
  mch_Process : Z -> State_Machine_Event -> option (@MSG_Object float) ->
                State -> State
}.

Context `{code : MachineCode}.

(** The manager's state and the calls it has made so far. *)
Record World : Type := mkWorld {
  state : State;
  calls : list Call
}.

Definition on_rest (f : Rest -> Rest) (c : Call) (w : World) : World :=
  mkWorld
    (mkState (requests (state w)) (m_stateMachineList (state w))
       (f (rest (state w))))
    (calls w ++ [c]).

Definition on_state (f : State -> State) (c : Call) (w : World) : World :=
  mkWorld (f (state w)) (calls w ++ [c]).

Definition call_SetStateMachineQueue (mch : Z) (queue : StateMachineQueue)
    : World -> World :=
  on_rest (mch_SetStateMachineQueue mch queue)
    (Call_SetStateMachineQueue mch queue).

Definition call_delete (mch : Z) : World -> World :=
  on_rest (mch_delete mch) (Call_delete mch).

Definition call_PurgeScopedMsg (queue : StateMachineQueue) : World -> World :=
  on_rest (purge_scoped queue) (Call_PurgeScopedMsg queue).

Definition call_Reset (mch : Z) : World -> World :=
  on_state (mch_Reset mch) (Call_Reset mch).

Definition call_Update (mch : Z) : World -> World :=
  on_state (mch_Update mch) (Call_Update mch).

Definition call_Process (mch : Z) (event : State_Machine_Event)
    (msg : option (@MSG_Object float)) : World -> World :=
  on_state (mch_Process mch event msg) (Call_Process mch event msg).

(** [m_stateMachineList[queue]]; an index outside the array is undefined
    behaviour, rendered as [None]. *)
Definition queue_list (queue : StateMachineQueue) (w : World)
    : option (list Z) :=
  if 0 <=? queue
  then m_stateMachineList (state w) !! Z.to_nat queue
  else None.

(** Assignment to [m_stateMachineList[queue]]. *)
Definition set_queue_list (queue : StateMachineQueue) (l : list Z)
    (w : World) : World :=
  mkWorld
    (mkState (requests (state w))
       (<[Z.to_nat queue := l]> (m_stateMachineList (state w)))
       (rest (state w)))
    (calls w).

(** The constructor. *)
Definition new (r : Rest) : World :=
  mkWorld
    (mkState StateMachineManager_new
       (replicate STATE_MACHINE_NUM_QUEUES []) r) [].

Definition PushStateMachine (mch : Z) (queue : StateMachineQueue)
    (initialize : bool) (w : World) : option World :=
  let w := call_SetStateMachineQueue mch queue w in
  l ← queue_list queue w;
  let w := set_queue_list queue (l ++ [mch]) w in
  Some (if initialize then call_Reset mch w else w).

Definition ResetStateMachine (queue : StateMachineQueue) (w : World)
    : option World :=
  l ← queue_list queue w;
  if (0 <? length l)%nat
  then mch ← last l; Some (call_Reset mch w)
  else Some w.

Definition ReplaceStateMachine (mch : Z) (queue : StateMachineQueue)
    (w : World) : option World :=
  let w := call_SetStateMachineQueue mch queue w in
  l ← queue_list queue w;
  w ←
    (if (0 <? length l)%nat
     then temp ← last l;
          Some (call_delete temp (set_queue_list queue (removelast l) w))
     else Some w);
  PushStateMachine mch queue true w.

Definition QueueStateMachine (mch : Z) (queue : StateMachineQueue)
    (w : World) : option World :=
  let w := call_SetStateMachineQueue mch queue w in
  l ← queue_list queue w;
  if (length l <=? 1)%nat
  then PushStateMachine mch queue false w
  else Some (set_queue_list queue (take 1 l ++ mch :: drop 1 l) w).

Definition RequeueStateMachine (queue : StateMachineQueue) (w : World)
    : option World :=
  l ← queue_list queue w;
  if (1 <? length l)%nat then
    mch ← last l;
    w ← QueueStateMachine mch queue w;
    l ← queue_list queue w;
    let w := set_queue_list queue (removelast l) w in
    l ← queue_list queue w;
    mch ← last l;
    Some (call_Reset mch w)
  else if (length l =? 1)%nat then
    mch ← last l; Some (call_Reset mch w)
  else Some w.

Definition PopStateMachine (queue : StateMachineQueue) (w : World)
    : option World :=
  l ← queue_list queue w;
  if (1 <? length l)%nat then
    mch ← last l;
    let w := set_queue_list queue (removelast l) w in
    let w := call_delete mch w in
    l ← queue_list queue w;
    mch ← last l;
    Some (call_Reset mch w)
  else Some w.

(** [while( m_stateMachineList[queue].size() > 0 )]: [n] bounds the number
    of rounds. *)
Fixpoint delete_loop (n : nat) (queue : StateMachineQueue) (w : World)
    : option World :=
  match n with
  | O => Some w
  | S n' =>
      l ← queue_list queue w;
      match last l with
      | Some mch =>
          delete_loop n' queue
            (call_delete mch (set_queue_list queue (removelast l) w))
      | None => Some w
      end
  end.

(** The loop on one queue, with as many rounds as the queue has
    machines. *)
Definition delete_queue (queue : StateMachineQueue) (w : World)
    : option World :=
  l ← queue_list queue w;
  delete_loop (length l) queue w.

(** [for( int i=0; i<STATE_MACHINE_NUM_QUEUES; ++i )] over a body that may
    be undefined. *)
Fixpoint for_queues (queues : list Z) (body : Z -> World -> option World)
    (w : World) : option World :=
  match queues with
  | [] => Some w
  | q :: queues' => w ← body q w; for_queues queues' body w
  end.

Definition all_queues : list Z := seqZ 0 (Z.of_nat STATE_MACHINE_NUM_QUEUES).

Definition DeleteStateMachineQueue (queue : StateMachineQueue) (w : World)
    : option World :=
  if queue =? STATE_MACHINE_QUEUE_ALL then for_queues all_queues delete_queue w
  else if queue <? Z.of_nat STATE_MACHINE_NUM_QUEUES then delete_queue queue w
  else Some w.

(** [RequestStateMachineChange] on the manager of the world. *)
Definition RequestStateMachineChange (mch : StateMachinePtr)
    (change : StateMachineChange) (queue : StateMachineQueue) (w : World)
    : option World :=
  m ← RequestStateMachineChange mch change queue
            (requests (state w));
  Some (mkWorld
          (mkState m (m_stateMachineList (state w)) (rest (state w)))
          (calls w)).

(** [m_stateMachineChange[queue]] and [m_newStateMachine[queue]]. *)
Definition pending (queue : StateMachineQueue) (w : World)
    : option (StateMachineChange * StateMachinePtr) :=
  if 0 <=? queue then
    change ← m_stateMachineChange (requests (state w)) !! Z.to_nat queue;
    mch ← m_newStateMachine (requests (state w)) !! Z.to_nat queue;
    Some (change, mch)
  else None.

(** The [switch( change )] of [ProcessStateMachineChangeRequests];
    [*tempStateMachine] of a null pointer is undefined. *)
Definition apply_change (change : StateMachineChange)
    (tempStateMachine : StateMachinePtr) (queue : StateMachineQueue)
    (w : World) : option World :=
  match change with
  | STATE_MACHINE_RESET =>
      ResetStateMachine queue (call_PurgeScopedMsg queue w)
  | STATE_MACHINE_REPLACE =>
      let w := call_PurgeScopedMsg queue w in
      mch ← tempStateMachine; ReplaceStateMachine mch queue w
  | STATE_MACHINE_QUEUE =>
      mch ← tempStateMachine; QueueStateMachine mch queue w
  | STATE_MACHINE_REQUEUE =>
      RequeueStateMachine queue (call_PurgeScopedMsg queue w)
  | STATE_MACHINE_PUSH =>
      let w := call_PurgeScopedMsg queue w in
      mch ← tempStateMachine; PushStateMachine mch queue true w
  | STATE_MACHINE_POP =>
      PopStateMachine queue (call_PurgeScopedMsg queue w)
  | NO_STATE_MACHINE_CHANGE => Some w
  end.

(** [while( change != NO_STATE_MACHINE_CHANGE && (--safetyCount >= 0) )]:
    [safetyCount] is the number of rounds still permitted. *)
Fixpoint requests_loop (safetyCount : nat) (change : StateMachineChange)
    (tempStateMachine : StateMachinePtr) (queue : StateMachineQueue)
    (w : World) : option World :=
  match safetyCount with
  | O => Some w
  | S n =>
      match change with
      | NO_STATE_MACHINE_CHANGE => Some w
      | _ =>
          w ← RequestStateMachineChange None NO_STATE_MACHINE_CHANGE
                    queue w;
          w ← apply_change change tempStateMachine queue w;
          next ← pending queue w;
          requests_loop n next.1 next.2 queue w
      end
  end.

Definition ProcessStateMachineChangeRequests (queue : StateMachineQueue)
    (w : World) : option World :=
  first ← pending queue w;
  requests_loop 20 first.1 first.2 queue w.

(** The body of the loop of [Update]. *)
Definition Update_queue (queue : StateMachineQueue) (w : World)
    : option World :=
  l ← queue_list queue w;
  if (0 <? length l)%nat then
    w ← ProcessStateMachineChangeRequests queue w;
    l ← queue_list queue w;
    mch ← last l;
    Some (call_Update mch w)
  else Some w.

Definition Update : World -> option World := for_queues all_queues Update_queue.

(** [m_stateMachineList[queue].back()->Process( event, msg )] for a queue
    that is not empty. *)
Definition Process_queue (event : State_Machine_Event)
    (msg : option (@MSG_Object float)) (queue : StateMachineQueue) (w : World)
    : option World :=
  l ← queue_list queue w;
  if (0 <? length l)%nat
  then mch ← last l; Some (call_Process mch event msg w)
  else Some w.

Definition SendMsg (msg : @MSG_Object float) : World -> option World :=
  for_queues all_queues (Process_queue EVENT_Message (Some msg)).

Definition Process (event : State_Machine_Event) (msg : option (@MSG_Object float))
    (queue : StateMachineQueue) (w : World) : option World :=
  if queue <? Z.of_nat STATE_MACHINE_NUM_QUEUES
  then Process_queue event msg queue w
  else if queue =? STATE_MACHINE_QUEUE_ALL
  then for_queues all_queues (Process_queue event msg) w
  else Some w.

(** Machine code whose [Reset] handlers leave the manager's lists alone:
    they change machines only through [RequestStateMachineChange]. *)
Definition Reset_keeps_lists : Prop :=
  forall mch s, m_stateMachineList (mch_Reset mch s) = m_stateMachineList s.

(** Machine code whose [Reset] handlers request no machine change. *)
Definition Reset_keeps_requests : Prop :=
  forall mch s, requests (mch_Reset mch s) = requests s.

(** Machine code whose [Process] handlers leave the manager's lists
    alone. *)
Definition Process_keeps_lists : Prop :=
  forall mch ev msg s,
    m_stateMachineList (mch_Process mch ev msg s) = m_stateMachineList s.

(** The [Process] call on the active machine of a queue, if it has one. *)
Definition delivery (event : State_Machine_Event)
    (msg : option (@MSG_Object float)) (l : list Z) : list Call :=
  match last l with
  | Some mch => [Call_Process mch event msg]
  | None => []
  end.

End Manager.

End Manager.

(** * Vocabulary of the further statements *)

Section MoreVocabulary.

Context {float : Type} `{cfg : HostConfig float}.

(** The members that decide where a machine is and what it will do next:
    the scope counters, the current and the requested state and substate,
    the request and its permission, the state stack and the variables. *)
Definition core (e : Env (float := float)) :=
  (m_scopeState e, m_scopeSubstate e, m_currentState e, m_currentSubstate e,
   m_stateChange e, m_nextState e, m_nextSubstate e, m_stateChangeAllowed e,
   m_stack e, m_stateVariables e, m_substateVariables e).

(** A transition function whose handlers request no transition and leave
    the variables alone: it may register events, send messages and set
    timers. *)
Definition keeps_core (machine : StateMachineClass (float := float)) : Prop :=
  forall ev m q r e, core (States ev m q r e).2 = core e.

(** The number of [EVENT_Probe] invocations in a log. *)
Definition probes (l : list Call) : nat :=
  length (filter (fun c => call_event c = EVENT_Probe) l).

(** The rungs [Update] may query: those of the ladder whose Update handler
    is registered. *)
Definition update_ladder (registered cs sub : Z) : list (Z * Z) :=
  (if (0 <=? sub) && has_bits registered REGISTERED_EVENT_UPDATE_SUBSTATE
   then [(cs, sub)] else []) ++
  (if has_bits registered REGISTERED_EVENT_UPDATE_STATE
   then [(cs, -1)] else []) ++
  (if has_bits registered REGISTERED_EVENT_UPDATE_STATEMACHINE
   then [(-1, -1)] else []).

(** The stack after [current] was pushed by a state change. *)
Definition pushed (stack : list Z) (current : Z) : list Z :=
  if (MAX_STATE_STACK_SIZE <? length (stack ++ [current]))%nat
  then tail (stack ++ [current]) else stack ++ [current].

(** [f] reads and writes the core through the core alone. *)
Definition on_core (f : Env (float := float) -> Env (float := float)) : Prop :=
  forall e1 e2, core e1 = core e2 -> core (f e1) = core (f e2).

End MoreVocabulary.

(** Machine code for the demo manager: nothing calls back into the manager,
    and the rest of the world is the list of the machines deleted so
    far. *)
Definition demo_code : @Manager.MachineCode Z (list Z) := {|
  Manager.mch_SetStateMachineQueue := fun _ _ r => r;
  Manager.mch_delete := fun mch r => r ++ [mch];
  Manager.purge_scoped := fun _ r => r;
  Manager.mch_Reset := fun _ s => s;
  Manager.mch_Update := fun _ s => s;
  Manager.mch_Process := fun _ _ _ s => s
|}.

(** A manager whose queue 0 holds the machines 1, 2 and 3 (3 is active),
    and whose queue 1 holds the machine 4. *)
Definition demo_manager : @Manager.World Z (list Z) :=
  Manager.mkWorld
    (Manager.mkState (@StateMachineManager_new Z demo_config)
       [[1; 2; 3]; [4]; []] []) [].

(** The demo manager with a request pending on queue 0: push machine 5. *)
Definition demo_manager_pushing : @Manager.World Z (list Z) :=
  Manager.mkWorld
    (Manager.mkState
       (mkManager
          [STATE_MACHINE_PUSH; NO_STATE_MACHINE_CHANGE;
           NO_STATE_MACHINE_CHANGE]
          [Some 5; None; None])
       [[1; 2; 3]; [4]; []] []) [].
(** * Properties *)

(** Unfolds the field updates. *)
Ltac env_simpl :=
  cbn [owner_id owner_marked g_time g_msgroute m_mgr m_queue m_scopeState
       m_scopeSubstate m_currentState m_updateIteration m_currentSubstate
       m_stateChange m_nextState m_nextSubstate m_delayedStateChangeQueued
       m_delayedSubstateChangeQueued m_stateChangeAllowed m_registeredEvents
       m_timeOnEnterState m_timeOnEnterSubstate m_ccMessagesToGameObject
       m_broadcastList m_stack m_stateVariables m_substateVariables
       set_owner_marked set_g_time set_m_queue
       set_g_msgroute set_m_mgr set_m_scopeState set_m_scopeSubstate
       set_m_currentState set_m_updateIteration set_m_currentSubstate
       set_m_stateChange set_m_nextState set_m_nextSubstate
       set_m_delayedStateChangeQueued set_m_delayedSubstateChangeQueued
       set_m_stateChangeAllowed set_m_registeredEvents set_m_timeOnEnterState
       set_m_timeOnEnterSubstate set_m_ccMessagesToGameObject
       set_m_broadcastList set_m_stack set_m_stateVariables
       set_m_substateVariables w_env w_calls lift fst snd] in *.

Section Properties.

Context {float : Type} `{cfg : HostConfig float}.
Context `{machine : @StateMachineClass float}.

Implicit Types (e : @Env float) (w : @World float).

(** ** Integer conversions *)

Lemma static_cast_int_small (x : Z) :
  0 <= x < 2 ^ 31 -> static_cast_int x = x.
Proof.
  intros Hx. unfold static_cast_int.
  rewrite Z.mod_small by lia. lia.
Qed.

Lemma uint_incr_small (x : Z) :
  0 <= x < 2 ^ 32 - 1 -> uint_incr x = x + 1.
Proof. intros Hx. unfold uint_incr. rewrite Z.mod_small by lia. lia. Qed.

(** ** The list broadcast *)

Lemma broadcast_loop (delay : float) (name : MSG_Name) (data : MSG_Data)
    (owner : objectID) (l : list objectID) :
  forall e, owner_id e = owner ->
    let e' :=
      foldl
        (fun e id =>
           if bool_decide (id <> owner_id e)
           then g_msgroute_SendMsg delay name id (owner_id e)
                  SCOPE_TO_STATE_MACHINE 0 STATE_MACHINE_QUEUE_ALL data false
                  false e
           else e) e l in
    g_msgroute e' =
      g_msgroute e ++
      map (broadcast_msg delay name data owner)
        (filter (fun id => id <> owner) l).
Proof.
  induction l as [|id l IH]; intros e Ho; cbn [foldl].
  - cbn. by rewrite app_nil_r.
  - case_bool_decide as Hid.
    + rewrite filter_cons_True by congruence.
      rewrite IH by done. unfold g_msgroute_SendMsg; env_simpl.
      rewrite Ho. by rewrite <- app_assoc.
    + rewrite filter_cons_False by (intros ?; congruence).
      by apply IH.
Qed.

(** C10. [SendMsgBroadcastToList] and [SendMsgBroadcastToListNow] hand the
    router exactly one request per entry of [m_broadcastList] that differs
    from the owner's id, in list order and with that entry as receiver; the
    entries equal to the owner's id are skipped, so that no request is
    addressed to the owner. *)
Theorem C10_broadcast_to_list_skips_owner (name : MSG_Name)
    (data : MSG_Data) e :
  let others := filter (fun id => id <> owner_id e) (m_broadcastList e) in
  let sent delay := map (broadcast_msg delay name data (owner_id e)) others in
  g_msgroute (SendMsgBroadcastToList name data e) =
    g_msgroute e ++ sent ONE_FRAME /\
  g_msgroute (SendMsgBroadcastToListNow name data e) =
    g_msgroute e ++ sent float_zero /\
  forall delay,
    map msg_receiver (sent delay) = others /\
    Forall (fun m => msg_receiver m <> owner_id e) (sent delay).
Proof.
  cbn zeta. split; [|split].
  - unfold SendMsgBroadcastToList. by apply broadcast_loop.
  - unfold SendMsgBroadcastToListNow. by apply broadcast_loop.
  - intros delay. split.
    + rewrite <- list_fmap_compose.
      rewrite <- (list_fmap_id (filter _ _)) at 2. by apply list_fmap_ext.
    + apply Forall_fmap, Forall_forall. intros id Hin. cbn.
      by apply list_elem_of_filter in Hin as [? _].
Qed.

(** ** Timers *)

Lemma SendMsgDelayedToMeHelper_route (delay : float) (name : MSG_Name)
    (rule : Scope_Rule) (queue : StateMachineQueue) (data : MSG_Data)
    (timer : bool) e :
  g_msgroute (SendMsgDelayedToMeHelper delay name rule queue data timer e) =
    g_msgroute e ++
    [mkMSG delay name (owner_id e) (owner_id e) rule
       match rule with
       | SCOPE_TO_SUBSTATE => m_scopeSubstate e
       | SCOPE_TO_STATE => m_scopeState e
       | SCOPE_TO_STATE_MACHINE => 0
       end queue data timer false].
Proof. by destruct rule. Qed.

(** C3. [SetTimerState] hands the router one self-addressed timer message
    whose scope rule is [SCOPE_TO_SUBSTATE] and whose captured scope value
    is [m_scopeSubstate], exactly as [SetTimerSubstate] does; the rule is
    not [SCOPE_TO_STATE] and [m_scopeState] is not captured. *)
Theorem C3_SetTimerState_scopes_to_substate (delay : float)
    (name : MSG_Name) e :
  let d := if float_lt delay ONE_FRAME then ONE_FRAME else delay in
  let sent :=
    mkMSG d name (owner_id e) (owner_id e) SCOPE_TO_SUBSTATE
      (m_scopeSubstate e) (m_queue e) (MSG_Data_float d) true false in
  g_msgroute (SetTimerState delay name e) = g_msgroute e ++ [sent] /\
  msg_rule sent <> SCOPE_TO_STATE /\
  SetTimerState delay name e = SetTimerSubstate delay name e.
Proof.
  cbn zeta. split; [|split]; [|done|done].
  unfold SetTimerState. by rewrite SendMsgDelayedToMeHelper_route.
Qed.

(** ** Requests for a transition *)

(** C4. In the release build a request made while a change is pending is
    not rejected: the test [m_stateChange == NO_STATE_CHANGE] is an
    [ASSERTMSG] only, and the guard of the three verbs is
    [m_stateChangeAllowed] alone.  While changes are allowed the call
    overwrites the pending request: [ChangeState n] leaves
    [(STATE_CHANGE, n, -1)], [ChangeSubstate n] leaves
    [(STATE_CHANGE, m_currentState, (int)n)] and [PopState] leaves
    [STATE_POP] with [m_nextState] and [m_nextSubstate] as they were.  The
    pending request is kept only while changes are disallowed. *)
Theorem C4_pending_request_is_replaced (n : Z) e
    (Hpending : m_stateChange e <> NO_STATE_CHANGE) :
  if m_stateChangeAllowed e then
    (m_stateChange (ChangeState n e) = STATE_CHANGE /\
     m_nextState (ChangeState n e) = n /\
     m_nextSubstate (ChangeState n e) = -1) /\
    (m_stateChange (ChangeSubstate n e) = STATE_CHANGE /\
     m_nextState (ChangeSubstate n e) = m_currentState e /\
     m_nextSubstate (ChangeSubstate n e) = static_cast_int n) /\
    (m_stateChange (PopState e) = STATE_POP /\
     m_nextState (PopState e) = m_nextState e /\
     m_nextSubstate (PopState e) = m_nextSubstate e)
  else
    ChangeState n e = e /\ ChangeSubstate n e = e /\ PopState e = e.
Proof.
  unfold ChangeState, ChangeSubstate, PopState.
  destruct (m_stateChangeAllowed e); env_simpl; done.
Qed.

(** ** The manager's change requests *)

(** C8. In the release build a second request on a queue is not dropped:
    the test [m_stateMachineChange[queue] == NO_STATE_MACHINE_CHANGE] is an
    [ASSERTMSG] only and the two assignments after it are unconditional.  A
    call of [RequestStateMachineChange] on a queue of the manager stores
    its own arguments as the pending change kind and the pending new
    machine of that queue, whatever was pending there before, and leaves
    the other queues as they were. *)
Theorem C8_second_request_overwrites (mch : StateMachinePtr)
    (change : StateMachineChange) (queue : nat) (m : StateMachineManager)
    (Hc : (queue < length (m_stateMachineChange m))%nat)
    (Hn : (queue < length (m_newStateMachine m))%nat) :
  exists m',
    RequestStateMachineChange mch change (Z.of_nat queue) m = Some m' /\
    m_stateMachineChange m' !! queue = Some change /\
    m_newStateMachine m' !! queue = Some mch /\
    forall other, other <> queue ->
      m_stateMachineChange m' !! other = m_stateMachineChange m !! other /\
      m_newStateMachine m' !! other = m_newStateMachine m !! other.
Proof.
  unfold RequestStateMachineChange.
  assert (Hq : (0 <=? Z.of_nat queue) &&
               (Z.of_nat queue <? Z.of_nat (length (m_stateMachineChange m))) &&
               (Z.of_nat queue <? Z.of_nat (length (m_newStateMachine m)))
               = true).
  { rewrite !andb_true_iff, Z.leb_le, !Z.ltb_lt. lia. }
  rewrite Hq, Nat2Z.id. eexists; split; [done|]. cbn.
  split; [by apply list_lookup_insert_eq|].
  split; [by apply list_lookup_insert_eq|].
  intros other Ho. split; by apply list_lookup_insert_ne.
Qed.

(** ** State variables *)

Lemma DeclareVariable_variables (id : Z) (scope : StateVariableScope) e :
  variables scope (DeclareVariable id scope e) =
    if Z.of_nat (length (variables scope e)) <=? id
    then variables scope e ++ [PersistentData_new]
    else variables scope e.
Proof.
  unfold DeclareVariable.
  destruct scope; cbn [variables]; simpl bool_decide; cbn [andb];
    destruct (_ <=? _); done.
Qed.

Lemma SetStateVariableInt_in_range (value id : Z)
    (scope : StateVariableScope) e :
  id_in_range id (variables scope e) = true ->
  exists e', SetStateVariableInt value id scope e = Some e' /\
    GetStateVariable id scope e' = Some (PersistentData_int value).
Proof.
  intros Hr. unfold SetStateVariableInt, GetStateVariable.
  assert (Hlt : (Z.to_nat id < length (variables scope e))%nat).
  { unfold id_in_range in Hr. apply andb_true_iff in Hr as [H1 H2].
    apply Z.leb_le in H1. apply Z.ltb_lt in H2. lia. }
  destruct scope; cbn [variables] in *; simpl bool_decide; cbn iota;
    rewrite Hr; eexists; (split; [done|]); env_simpl;
    unfold id_in_range in *; rewrite length_insert, Hr;
    by apply list_lookup_insert_eq.
Qed.

(** C9 (amended). When [id] is non-negative and at most the current size
    of the scope's slot vector, the vector has a slot at index [id] after
    [DeclareVariable( id, scope )], and an immediately following set and get
    of that id are within range.  In every case the call appends at most
    one slot. *)
Theorem C9_DeclareVariable_next_slot (value id : Z)
    (scope : StateVariableScope) e
    (Hid : 0 <= id <= Z.of_nat (length (variables scope e))) :
  let e1 := DeclareVariable id scope e in
  id + 1 <= Z.of_nat (length (variables scope e1)) /\
  (length (variables scope e1) <= length (variables scope e) + 1)%nat /\
  id_in_range id (variables scope e1) = true /\
  exists e2, SetStateVariableInt value id scope e1 = Some e2 /\
    GetStateVariable id scope e2 = Some (PersistentData_int value).
Proof.
  cbn zeta.
  assert (Hlen : id + 1 <= Z.of_nat
                   (length (variables scope (DeclareVariable id scope e))) /\
                 (length (variables scope (DeclareVariable id scope e))
                  <= length (variables scope e) + 1)%nat).
  { rewrite DeclareVariable_variables.
    destruct (Z.leb_spec (Z.of_nat (length (variables scope e))) id);
      rewrite ?length_app; cbn [length]; lia. }
  destruct Hlen as [Hlen1 Hlen2].
  assert (Hr : id_in_range id (variables scope (DeclareVariable id scope e))
               = true).
  { unfold id_in_range. rewrite andb_true_iff, Z.leb_le, Z.ltb_lt. lia. }
  repeat split; [done|done|done|].
  by apply SetStateVariableInt_in_range.
Qed.

(** ** The dispatch ladder *)

Lemma call_States_calls (event : State_Machine_Event)
    (msg : option MSG_Object) (q r : Z) w :
  w_calls (call_States event msg q r w).2 =
    w_calls w ++ [mkCall event q r (call_States event msg q r w).1].
Proof. done. Qed.

Lemma call_States_env (event : State_Machine_Event)
    (msg : option MSG_Object) (q r : Z) w :
  w_env (call_States event msg q r w).2 =
    (States event msg q r (w_env w)).2.
Proof. done. Qed.

Lemma Process_dispatch_walks_ladder (event : State_Machine_Event)
    (msg : option MSG_Object) w
    (Hkeep : forall ev m q r e,
       m_currentState (States ev m q r e).2 = m_currentState e) :
  exists new,
    w_calls (Process_dispatch event msg w) = w_calls w ++ new /\
    walks_ladder event
      (ladder (static_cast_int (m_currentState (w_env w)))
         (m_currentSubstate (w_env w))) new.
Proof.
  unfold Process_dispatch, ladder.
  set (cs := static_cast_int (m_currentState (w_env w))).
  set (sub := m_currentSubstate (w_env w)).
  destruct (0 <=? sub).
  - destruct (call_States event msg cs sub w) as [h1 w1] eqn:E1.
    pose proof (call_States_calls event msg cs sub w) as C1.
    pose proof (call_States_env event msg cs sub w) as V1.
    rewrite E1 in C1, V1. cbn [fst snd] in *.
    assert (Hcs : static_cast_int (m_currentState (w_env w1)) = cs).
    { rewrite V1, Hkeep. done. }
    destruct h1; cbn [negb fst snd].
    + exists [mkCall event cs sub true]. by rewrite C1.
    + rewrite Hcs.
      destruct (call_States event msg cs (-1) w1) as [h2 w2] eqn:E2.
      pose proof (call_States_calls event msg cs (-1) w1) as C2.
      rewrite E2 in C2. cbn [fst snd] in *.
      destruct h2; cbn [negb fst snd].
      * exists [mkCall event cs sub false; mkCall event cs (-1) true].
        rewrite C2, C1, <- app_assoc. done.
      * destruct (call_States event msg (-1) (-1) w2) as [h3 w3] eqn:E3.
        pose proof (call_States_calls event msg (-1) (-1) w2) as C3.
        rewrite E3 in C3. cbn [fst snd] in *.
        exists [mkCall event cs sub false; mkCall event cs (-1) false;
                mkCall event (-1) (-1) h3].
        rewrite C3, C2, C1, <- !app_assoc.
        split; [done|]. cbn. repeat split; by destruct h3.
  - cbn [negb fst snd app]. fold cs.
    destruct (call_States event msg cs (-1) w) as [h2 w2] eqn:E2.
    pose proof (call_States_calls event msg cs (-1) w) as C2.
    rewrite E2 in C2. cbn [fst snd] in *.
    destruct h2; cbn [negb fst snd].
    + exists [mkCall event cs (-1) true]. by rewrite C2.
    + destruct (call_States event msg (-1) (-1) w2) as [h3 w3] eqn:E3.
      pose proof (call_States_calls event msg (-1) (-1) w2) as C3.
      rewrite E3 in C3. cbn [fst snd] in *.
      exists [mkCall event cs (-1) false; mkCall event (-1) (-1) h3].
      rewrite C3, C2, <- !app_assoc.
      split; [done|]. cbn. repeat split; by destruct h3.
Qed.

(** C1. For an owner that is not marked for deletion, [Process] queries
    [States] with the event down the ladder of the machine's state [cs] and
    substate [sub] at entry - [(cs, sub)] when [sub] is not none, then
    [(cs, -1)], then [(-1, -1)] - stops at the first query answered
    [handled = true], and then runs [PerformStateChanges].  The transition
    function is taken not to write [m_currentState] itself. *)
Theorem C1_Process_walks_ladder (event : State_Machine_Event)
    (msg : option MSG_Object) w
    (Hkeep : forall ev m q r e,
       m_currentState (States ev m q r e).2 = m_currentState e)
    (Halive : owner_marked (w_env w) = false) :
  exists w1 new,
    Process event msg w = PerformStateChanges w1 /\
    w_calls w1 = w_calls w ++ new /\
    walks_ladder event
      (ladder (static_cast_int (m_currentState (w_env w)))
         (m_currentSubstate (w_env w))) new.
Proof.
  unfold Process. rewrite Halive. cbn [negb].
  set (w0 := match msg with Some m => _ | None => w end).
  assert (H0 : w_calls w0 = w_calls w /\
               m_currentState (w_env w0) = m_currentState (w_env w) /\
               m_currentSubstate (w_env w0) = m_currentSubstate (w_env w)).
  { subst w0. destruct msg as [m|]; [|done].
    by destruct (_ && _). }
  destruct H0 as (Hc & Hs & Hss).
  destruct (Process_dispatch_walks_ladder event msg w0 Hkeep)
    as (new & Hnew & Hwalk).
  exists (Process_dispatch event msg w0), new.
  rewrite Hs, Hss, Hc in *. done.
Qed.

(** ** What [PerformStateChanges] logs *)

Lemma PerformStateChanges_exit_calls w :
  exists l, w_calls (PerformStateChanges_exit w) = w_calls w ++ l.
Proof.
  unfold PerformStateChanges_exit.
  destruct (_ && _).
  - destruct (_ && _).
    + rewrite !call_States_calls, <- app_assoc. by eexists.
    + rewrite call_States_calls. by eexists.
  - destruct (_ && _).
    + rewrite call_States_calls. by eexists.
    + exists []. by rewrite app_nil_r.
Qed.

Lemma PerformStateChanges_enter_calls w :
  exists q r h l,
    w_calls (PerformStateChanges_enter w) =
      w_calls w ++ mkCall EVENT_Probe q r h :: l.
Proof.
  unfold PerformStateChanges_enter.
  destruct (_ <? _); destruct (has_bits _ _);
    rewrite ?call_States_calls, <- ?app_assoc; cbn [app];
    by do 4 eexists.
Qed.

Lemma PerformStateChanges_iteration_calls w :
  exists pre q r h post,
    w_calls (PerformStateChanges_iteration w) =
      w_calls w ++ pre ++ mkCall EVENT_Probe q r h :: post.
Proof.
  unfold PerformStateChanges_iteration.
  set (w1 := lift PerformStateChanges_begin w).
  set (w2 := PerformStateChanges_exit w1).
  set (w3 := lift PerformStateChanges_scope
               (lift PerformStateChanges_switch w2)).
  destruct (PerformStateChanges_enter_calls w3) as (q & r & h & post & ->).
  destruct (PerformStateChanges_exit_calls w1) as (pre & Hpre).
  exists pre, q, r, h, post.
  change (w_calls w3) with (w_calls w2). fold w2 in Hpre. rewrite Hpre.
  change (w_calls w1) with (w_calls w). by rewrite <- app_assoc.
Qed.

Lemma PerformStateChanges_loop_calls (n : nat) w :
  exists l, w_calls (PerformStateChanges_loop n w) = w_calls w ++ l.
Proof.
  revert w. induction n as [|n IH]; intros w; cbn [PerformStateChanges_loop].
  - exists []. by rewrite app_nil_r.
  - destruct (PerformStateChanges_iteration_calls w)
      as (pre & q & r & h & post & Hit).
    destruct (IH (PerformStateChanges_iteration w)) as (l & Hl).
    destruct (m_stateChange (w_env w)).
    + exists []. by rewrite app_nil_r.
    + rewrite Hl, Hit, <- app_assoc. by eexists.
    + rewrite Hl, Hit, <- app_assoc. by eexists.
Qed.

Lemma PerformStateChanges_loop_S (n : nat) w :
  PerformStateChanges_loop (S n) w =
    match m_stateChange (w_env w) with
    | NO_STATE_CHANGE => w
    | _ => PerformStateChanges_loop n (PerformStateChanges_iteration w)
    end.
Proof. reflexivity. Qed.

(** A pending change is applied: at least one iteration runs, and its
    probe is logged. *)
Lemma PerformStateChanges_applies_pending w :
  m_stateChange (w_env w) <> NO_STATE_CHANGE ->
  exists pre q r h post,
    w_calls (PerformStateChanges w) =
      w_calls w ++ pre ++ mkCall EVENT_Probe q r h :: post.
Proof.
  intros Hp. unfold PerformStateChanges.
  rewrite (PerformStateChanges_loop_S 19).
  destruct (PerformStateChanges_iteration_calls w)
    as (pre & q & r & h & post & Hit).
  destruct (PerformStateChanges_loop_calls 19
              (PerformStateChanges_iteration w)) as (l & Hl).
  destruct (m_stateChange (w_env w)); [done| |];
    exists pre, q, r, h, (post ++ l);
    rewrite Hl, Hit, <- !app_assoc; done.
Qed.

Lemma PerformStateChanges_nothing_pending w :
  m_stateChange (w_env w) = NO_STATE_CHANGE -> PerformStateChanges w = w.
Proof.
  intros Hp. unfold PerformStateChanges.
  by rewrite (PerformStateChanges_loop_S 19), Hp.
Qed.

(** ** Update *)

(** C6 (amended). On a machine whose owner is not marked for deletion,
    [Update] runs the Update queries and then [PerformStateChanges] exactly
    when [m_registeredEvents] has a bit of [REGISTERED_EVENT_UPDATE];
    whether a query was handled makes no difference, and a change pending
    after the queries is then applied (its probe is dispatched).  When no
    such bit is set, [Update] leaves the machine as it is, a pending change
    included. *)
Theorem C6_Update_performs_changes_when_registered w
    (Halive : owner_marked (w_env w) = false) :
  if has_bits (m_registeredEvents (w_env w)) REGISTERED_EVENT_UPDATE
  then
    Update w = PerformStateChanges (Update_dispatch w) /\
    (m_stateChange (w_env (Update_dispatch w)) <> NO_STATE_CHANGE ->
     exists pre q r h post,
       w_calls (Update w) =
         w_calls (Update_dispatch w) ++
         pre ++ mkCall EVENT_Probe q r h :: post)
  else Update w = w.
Proof.
  unfold Update. rewrite Halive.
  destruct (has_bits _ _); cbn [andb negb]; [|done].
  split; [done|]. apply PerformStateChanges_applies_pending.
Qed.

(** ** The state stack *)

Lemma tail_length (l : list Z) : length (tail l) = pred (length l).
Proof. by destruct l. Qed.

Lemma removelast_length_le (l : list Z) :
  (length (removelast l) <= length l)%nat.
Proof. induction l as [|a [|b l'] IH]; cbn in *; lia. Qed.

Lemma foldl_stack {A : Type} (f : Env -> A -> Env) (l : list A) :
  (forall e x, m_stack (f e x) = m_stack e) ->
  forall e, m_stack (foldl f e l) = m_stack e.
Proof.
  intros Hf. induction l as [|x l IH]; intros e; cbn [foldl]; [done|].
  by rewrite IH, Hf.
Qed.

Lemma run_verb_stack (v : Verb) e e' :
  run_verb v e = Some e' -> stack_bounded e -> stack_bounded e'.
Proof.
  unfold stack_bounded.
  destruct v; cbn [run_verb]; intros Hr Hb;
    try (injection Hr as <-).
  - done.
  - cbn. lia.
  - unfold ChangeState. by destruct (m_stateChangeAllowed e).
  - unfold ChangeSubstate. by destruct (m_stateChangeAllowed e).
  - unfold ChangeStateDelayed. by destruct (m_stateChangeAllowed e).
  - unfold ChangeSubstateDelayed. by destruct (m_stateChangeAllowed e).
  - unfold PopState. by destruct (m_stateChangeAllowed e).
  - done.
  - done.
  - done.
  - done.
  - unfold to_all_other_queues. rewrite foldl_stack; [done|].
    intros e0 x. by case_bool_decide.
  - unfold SendMsgBroadcastToList. rewrite foldl_stack; [done|].
    intros e0 x. by case_bool_decide.
  - unfold SendMsgBroadcastToListNow. rewrite foldl_stack; [done|].
    intros e0 x. by case_bool_decide.
  - done.
  - done.
  - done.
  - done.
  - done.
  - done.
  - unfold DeclareVariable.
    repeat match goal with
           | |- context [if ?c then _ else _] => destruct c
           end; done.
  - unfold SetStateVariableInt in Hr.
    repeat match type of Hr with
           | context [if ?c then _ else _] => destruct c
           end; try done; by injection Hr as <-.
  - unfold mgr_request in Hr.
    destruct (RequestStateMachineChange _ _ _ _); [|done].
    by injection Hr as <-.
Qed.

(** The stack after the [switch], for a stack within the bound: a state
    change keeps the newest [MAX_STATE_STACK_SIZE] entries of the stack
    extended by the state that is left, a substate change keeps the stack,
    a pop removes the back. *)
Lemma PerformStateChanges_switch_stack e :
  stack_bounded e ->
  m_stack (PerformStateChanges_switch e) =
    match m_stateChange e with
    | STATE_CHANGE =>
        if m_nextSubstate e <? 0
        then newest (m_stack e ++ [m_currentState e])
        else m_stack e
    | STATE_POP => removelast (m_stack e)
    | NO_STATE_CHANGE => m_stack e
    end.
Proof.
  unfold stack_bounded, PerformStateChanges_switch, newest,
    MAX_STATE_STACK_SIZE.
  intros Hb. destruct (m_stateChange e); [done| |].
  - destruct (m_nextSubstate e <? 0); env_simpl; [|done].
    rewrite length_app. cbn [length].
    destruct (Nat.ltb_spec 10 (length (m_stack e) + 1)) as [Hl|Hl];
      env_simpl.
    + replace (length (m_stack e) + 1 - 10)%nat with 1%nat by lia.
      by destruct (m_stack e).
    + replace (length (m_stack e) + 1 - 10)%nat with 0%nat by lia. done.
  - destruct (last (m_stack e)) eqn:E; env_simpl; [done|].
    apply last_None in E. by rewrite E.
Qed.

Lemma PerformStateChanges_scope_stack e :
  m_stack (PerformStateChanges_scope e) = m_stack e.
Proof.
  destruct e as [oid omk gt rt mgr q ss ssub cs ui csub sc ns nsub d1 d2 al
                 regs t1 t2 cc bl st sv ssv].
  destruct nsub as [|p|p]; reflexivity.
Qed.

(** What the scope step does to the two counters and to the state
    variables: the substate counter always moves, the state counter and the
    state variables only when [m_nextSubstate] is negative. *)
Lemma PerformStateChanges_scope_counters e :
  let e' := PerformStateChanges_scope e in
  m_scopeSubstate e' = uint_incr (m_scopeSubstate e) /\
  m_substateVariables e' = [] /\
  m_scopeState e' =
    (if m_nextSubstate e <? 0 then uint_incr (m_scopeState e)
     else m_scopeState e) /\
  m_stateVariables e' =
    (if m_nextSubstate e <? 0 then [] else m_stateVariables e).
Proof.
  destruct e as [oid omk gt rt mgr q ss ssub cs ui csub sc ns nsub d1 d2 al
                 regs t1 t2 cc bl st sv ssv].
  destruct nsub as [|p|p]; repeat split; reflexivity.
Qed.

(** The [switch] on a pop: it writes neither [m_nextSubstate] nor the
    counters, and with an empty stack it writes nothing. *)
Lemma PerformStateChanges_switch_pop e :
  m_stateChange e = STATE_POP ->
  let e' := PerformStateChanges_switch e in
  m_nextSubstate e' = m_nextSubstate e /\
  m_scopeState e' = m_scopeState e /\
  m_scopeSubstate e' = m_scopeSubstate e /\
  m_stateVariables e' = m_stateVariables e /\
  (m_stack e = [] -> e' = e) /\
  (m_stack e <> [] -> m_currentSubstate e' = -1).
Proof.
  intros Hp. unfold PerformStateChanges_switch. rewrite Hp.
  destruct (last (m_stack e)) eqn:E; cbn zeta.
  - repeat split; try done.
    intros Hnil. by rewrite Hnil in E.
  - repeat split; try done. intros Hne. by apply last_None in E.
Qed.

Section StackBound.

Hypothesis States_keeps_bound :
  forall ev m q r e, stack_bounded e -> stack_bounded (States ev m q r e).2.

Lemma call_States_bounded ev m q r w :
  stack_bounded (w_env w) -> stack_bounded (w_env (call_States ev m q r w).2).
Proof. intros Hb. rewrite call_States_env. by apply States_keeps_bound. Qed.

Lemma PerformStateChanges_switch_bounded e :
  stack_bounded e -> stack_bounded (PerformStateChanges_switch e).
Proof.
  unfold stack_bounded, PerformStateChanges_switch, MAX_STATE_STACK_SIZE.
  intros Hb. destruct (m_stateChange e); [done| |].
  - destruct (m_nextSubstate e <? 0); env_simpl; [|done].
    destruct (Nat.ltb_spec 10 (length (m_stack e ++ [m_currentState e])))
      as [Hl|Hl]; env_simpl; [|done].
    rewrite tail_length, length_app. cbn [length]. lia.
  - destruct (last (m_stack e)); env_simpl; [|done].
    pose proof (removelast_length_le (m_stack e)). lia.
Qed.

Lemma PerformStateChanges_iteration_bounded w :
  stack_bounded (w_env w) ->
  stack_bounded (w_env (PerformStateChanges_iteration w)).
Proof.
  intros Hb. unfold PerformStateChanges_iteration.
  assert (H1 : stack_bounded
                 (w_env (PerformStateChanges_exit
                           (lift PerformStateChanges_begin w)))).
  { unfold PerformStateChanges_exit.
    repeat match goal with
           | |- context [if ?c then _ else _] => destruct c
           end; repeat apply call_States_bounded; done. }
  set (w1 := PerformStateChanges_exit _) in *.
  assert (H2 : stack_bounded
                 (w_env (lift PerformStateChanges_scope
                           (lift PerformStateChanges_switch w1)))).
  { apply PerformStateChanges_switch_bounded in H1.
    unfold stack_bounded in *. cbn [lift w_env].
    by rewrite PerformStateChanges_scope_stack. }
  set (w2 := lift PerformStateChanges_scope _) in *.
  unfold PerformStateChanges_enter.
  repeat match goal with
         | |- context [if ?c then _ else _] => destruct c
         end; repeat apply call_States_bounded; done.
Qed.

Lemma PerformStateChanges_loop_bounded (n : nat) w :
  stack_bounded (w_env w) ->
  stack_bounded (w_env (PerformStateChanges_loop n w)).
Proof.
  revert w. induction n as [|n IH]; intros w Hb; [done|].
  cbn [PerformStateChanges_loop].
  destruct (m_stateChange (w_env w)); [done| |];
    by apply IH, PerformStateChanges_iteration_bounded.
Qed.

Lemma Process_bounded ev m w :
  stack_bounded (w_env w) -> stack_bounded (w_env (Process ev m w)).
Proof.
  intros Hb. unfold Process. destruct (negb _); [|done].
  apply PerformStateChanges_loop_bounded.
  set (w0 := match m with Some _ => _ | None => w end).
  assert (H0 : stack_bounded (w_env w0)).
  { subst w0. destruct m; [|done]. by destruct (_ && _). }
  unfold Process_dispatch.
  repeat match goal with
         | |- context [if ?c then _ else _] => destruct c
         end; cbn [fst snd]; repeat apply call_States_bounded; done.
Qed.

Lemma Update_bounded w :
  stack_bounded (w_env w) -> stack_bounded (w_env (Update w)).
Proof.
  intros Hb. unfold Update. destruct (_ && _); [|done].
  apply PerformStateChanges_loop_bounded.
  unfold Update_dispatch.
  repeat match goal with
         | |- context [if ?c then _ else _] => destruct c
         end; cbn [fst snd]; repeat apply call_States_bounded; done.
Qed.

End StackBound.

Lemma run_op_bounded
    (Hkeep : forall ev m q r e,
       stack_bounded e -> stack_bounded (States ev m q r e).2)
    (o : Op) w w' :
  run_op o w = Some w' ->
  stack_bounded (w_env w) -> stack_bounded (w_env w').
Proof.
  destruct o as [v| | |ev m|]; cbn [run_op]; intros Hr Hb.
  - destruct (run_verb v (w_env w)) as [e1|] eqn:E; [|done].
    injection Hr as <-. by eapply run_verb_stack.
  - injection Hr as <-. unfold Reset.
    do 2 apply (Process_bounded Hkeep).
    unfold stack_bounded. cbn. lia.
  - injection Hr as <-. by apply (Update_bounded Hkeep).
  - injection Hr as <-. by apply (Process_bounded Hkeep).
  - injection Hr as <-. by apply (PerformStateChanges_loop_bounded Hkeep).
Qed.

Lemma reachable_run_ops (os : list Op) :
  forall w w', reachable w -> run_ops os w = Some w' -> reachable w'.
Proof.
  induction os as [|o os IH]; intros w w' Hw Hr; cbn [run_ops] in Hr.
  - by injection Hr as <-.
  - destruct (run_op o w) as [w1|] eqn:E; [|done].
    eapply IH; [|exact Hr]. by eapply reachable_op.
Qed.

(** C7. In every configuration reachable from a newly constructed machine
    by the operations of the runtime, [m_stack] holds at most
    [MAX_STATE_STACK_SIZE = 10] entries, and every operation leads to a
    configuration within the bound again; there the [switch] of
    [PerformStateChanges] turns the stack, for a state-level change, into
    the newest ten entries of the stack extended by the state that is left,
    so that a push onto a full stack evicts the front entry.  The
    transition function is taken to keep the bound itself. *)
Theorem C7_state_stack_bounded w
    (Hkeep : forall ev m q r e,
       stack_bounded e -> stack_bounded (States ev m q r e).2)
    (Hreach : reachable w) :
  (length (m_stack (w_env w)) <= 10)%nat /\
  (forall o w', run_op o w = Some w' ->
     (length (m_stack (w_env w')) <= 10)%nat) /\
  m_stack (PerformStateChanges_switch (w_env w)) =
    match m_stateChange (w_env w) with
    | STATE_CHANGE =>
        if m_nextSubstate (w_env w) <? 0
        then newest (m_stack (w_env w) ++ [m_currentState (w_env w)])
        else m_stack (w_env w)
    | STATE_POP => removelast (m_stack (w_env w))
    | NO_STATE_CHANGE => m_stack (w_env w)
    end /\
  (length (m_stack (w_env w)) = 10%nat ->
   newest (m_stack (w_env w) ++ [m_currentState (w_env w)]) =
     tail (m_stack (w_env w)) ++ [m_currentState (w_env w)]).
Proof.
  assert (Hb : stack_bounded (w_env w)).
  { induction Hreach as [e|o w w' Hw IH Hr].
    - unfold stack_bounded. cbn. lia.
    - by eapply run_op_bounded. }
  split; [exact Hb|].
  split; [intros o w' Hr; by apply (run_op_bounded Hkeep o w w')|].
  split; [by apply PerformStateChanges_switch_stack|].
  intros Hfull. unfold newest, MAX_STATE_STACK_SIZE.
  rewrite length_app, Hfull. cbn [length Nat.add Nat.sub].
  destruct (m_stack (w_env w)); [done|]. done.
Qed.

End Properties.

(** * The properties on concrete machines *)

(** ** The dispatch ladder *)

(** In substate 2 of state 0 a message is offered to the substate, which
    declines, and to the state, which handles it; the global level is not
    asked. *)
Example Process_dispatch_stops_at_state_level :
  let w :=
    PerformStateChanges (cfg := demo_config) (machine := state_level_machine)
      (lift (ChangeSubstate 2) demo_world) in
  w_calls (Process_dispatch (machine := state_level_machine) EVENT_Message
             (Some demo_msg) w) =
    w_calls w ++
    [mkCall EVENT_Message 0 2 false; mkCall EVENT_Message 0 (-1) true].
Proof. vm_compute. reflexivity. Qed.

(** Outside any substate an event nobody handles is offered to the state
    and to the global level, in that order. *)
Example Process_dispatch_unhandled :
  w_calls (Process_dispatch (machine := idle_machine) EVENT_Message
             (Some demo_msg) demo_world) =
    [mkCall EVENT_Message 0 (-1) false; mkCall EVENT_Message (-1) (-1) false].
Proof. vm_compute. reflexivity. Qed.

Lemma C1_Process_walks_ladder_witness :
  let w :=
    PerformStateChanges (cfg := demo_config) (machine := state_level_machine)
      (lift (ChangeSubstate 2) demo_world) in
  (forall ev m q r e,
     m_currentState (States (StateMachineClass := state_level_machine)
                       ev m q r e).2 = m_currentState e) /\
  owner_marked (w_env w) = false /\
  exists w1 new,
    Process (cfg := demo_config) (machine := state_level_machine)
      EVENT_Message (Some demo_msg) w =
    PerformStateChanges (cfg := demo_config) (machine := state_level_machine)
      w1 /\
    w_calls w1 = w_calls w ++ new /\
    walks_ladder EVENT_Message (ladder 0 2) new.
Proof.
  assert (Hkeep : forall ev m q r e,
            m_currentState (States (StateMachineClass := state_level_machine)
                              ev m q r e).2 = m_currentState e).
  { intros ev m q r e. destruct ev; cbn; try reflexivity.
    destruct (_ && _); cbn; [|reflexivity].
    unfold ChangeState. destruct (m_stateChangeAllowed e); reflexivity. }
  split; [exact Hkeep|]. split; [reflexivity|].
  exact (C1_Process_walks_ladder (cfg := demo_config)
           (machine := state_level_machine) EVENT_Message (Some demo_msg)
           (PerformStateChanges (cfg := demo_config)
              (machine := state_level_machine)
              (lift (ChangeSubstate 2) demo_world))
           Hkeep eq_refl).
Defined.

(** ** Pop on an empty stack *)

(** C2. In the release build a pop applied on an empty stack is not
    absorbed.  On a fresh machine whose handler called [PopState],
    [PerformStateChanges] leaves [m_currentState] and [m_currentSubstate]
    alone but increments [m_scopeSubstate] and dispatches [EVENT_Probe].
    On a machine that went to state 1 and popped back, a second pop
    increments [m_scopeState] as well, deletes the state variables and
    dispatches [EVENT_Exit], [EVENT_Probe] and [EVENT_Enter]. *)
Theorem C2_pop_on_empty_stack_is_not_absorbed :
  (let w0 := mkWorld (PopState demo_env) [] in
   let w1 :=
     PerformStateChanges (cfg := demo_config) (machine := idle_machine) w0 in
   m_stateChange (w_env w0) = STATE_POP /\
   m_stack (w_env w0) = [] /\
   (m_currentState (w_env w1), m_currentSubstate (w_env w1)) =
     (m_currentState (w_env w0), m_currentSubstate (w_env w0)) /\
   m_scopeSubstate (w_env w0) = 0 /\
   m_scopeSubstate (w_env w1) = 1 /\
   w_calls w1 = [mkCall EVENT_Probe 0 (-1) false]) /\
  exists w0,
    run_ops (cfg := demo_config) (machine := probing_machine)
      pop_twice_after_one_change demo_world = Some w0 /\
    let w1 :=
      PerformStateChanges (cfg := demo_config) (machine := probing_machine)
        w0 in
    m_stateChange (w_env w0) = STATE_POP /\
    m_stack (w_env w0) = [] /\
    (m_scopeState (w_env w0), m_scopeSubstate (w_env w0)) = (2, 2) /\
    (m_scopeState (w_env w1), m_scopeSubstate (w_env w1)) = (3, 3) /\
    m_stateVariables (w_env w0) = [PersistentData_new] /\
    m_stateVariables (w_env w1) = [] /\
    w_calls w1 =
      w_calls w0 ++
      [mkCall EVENT_Exit 0 (-1) true; mkCall EVENT_Probe 0 (-1) true;
       mkCall EVENT_Enter 0 (-1) true].
Proof.
  split.
  - vm_compute. repeat split; reflexivity.
  - eexists. split; [vm_compute; reflexivity|].
    vm_compute. repeat split; reflexivity.
Qed.

(** ** Timers *)

(** After one state change and one substate change the two scope counters
    differ; a timer set with [SetTimerState] then carries the substate rule
    and the substate counter. *)
Example SetTimerState_after_substate_change :
  exists w,
    run_ops (cfg := demo_config) (machine := idle_machine)
      [Op_Verb (Verb_ChangeState 1); Op_PerformStateChanges;
       Op_Verb (Verb_ChangeSubstate 0); Op_PerformStateChanges] demo_world
    = Some w /\
    (m_scopeState (w_env w), m_scopeSubstate (w_env w)) = (1, 2) /\
    g_msgroute (SetTimerState (cfg := demo_config) 5 30 (w_env w)) =
      [mkMSG 5 30 7 7 SCOPE_TO_SUBSTATE 2 0 (MSG_Data_float 5) true false].
Proof.
  eexists. split; [vm_compute; reflexivity|]. vm_compute. by split.
Qed.

(** ** The list broadcast *)

(** Owner 7 broadcasts to the list 3, 7, 5, 7: two requests, to 3 and to
    5. *)
Example SendMsgBroadcastToList_example :
  g_msgroute
    (SendMsgBroadcastToList (cfg := demo_config) 30 MSG_Data_none
       (BroadcastAddToList 7
          (BroadcastAddToList 5
             (BroadcastAddToList 7 (BroadcastAddToList 3 demo_env))))) =
    [mkMSG 1 30 3 7 SCOPE_TO_STATE_MACHINE 0 4 MSG_Data_none false false;
     mkMSG 1 30 5 7 SCOPE_TO_STATE_MACHINE 0 4 MSG_Data_none false false].
Proof. vm_compute. reflexivity. Qed.

(** ** Requests for a transition *)

(** A handler that has requested state 1 calls a second verb in the same
    dispatch: the pending request does not survive any of the three. *)
Example second_request_replaces_the_pending_one :
  let e := ChangeState 1 demo_env in
  m_stateChange e <> NO_STATE_CHANGE /\
  m_nextState (ChangeState 2 e) <> m_nextState e /\
  m_nextSubstate (ChangeSubstate 3 e) <> m_nextSubstate e /\
  m_stateChange (PopState e) <> m_stateChange e.
Proof. vm_compute. repeat split; discriminate. Qed.

Lemma C4_pending_request_is_replaced_witness :
  let e := ChangeState 1 demo_env in
  m_stateChange e <> NO_STATE_CHANGE /\
  (m_stateChange (ChangeState 2 e) = STATE_CHANGE /\
   m_nextState (ChangeState 2 e) = 2 /\
   m_nextSubstate (ChangeState 2 e) = -1) /\
  (m_stateChange (ChangeSubstate 2 e) = STATE_CHANGE /\
   m_nextState (ChangeSubstate 2 e) = m_currentState e /\
   m_nextSubstate (ChangeSubstate 2 e) = static_cast_int 2) /\
  (m_stateChange (PopState e) = STATE_POP /\
   m_nextState (PopState e) = m_nextState e /\
   m_nextSubstate (PopState e) = m_nextSubstate e).
Proof.
  assert (Hp : m_stateChange (ChangeState 1 demo_env) <> NO_STATE_CHANGE)
    by (vm_compute; discriminate).
  split; [exact Hp|].
  exact (C4_pending_request_is_replaced 2 (ChangeState 1 demo_env) Hp).
Defined.

(** ** Pop after a substate change *)

(** C5. A pop applied on a non-empty stack after a substate change was the
    last request replaces [m_currentState] and sets [m_currentSubstate] to
    none, but [m_scopeState] is not incremented and the state variables
    are not deleted: [PopState] leaves [m_nextSubstate] as the substate
    request set it, and [PerformStateChanges] tells a state-level change by
    [m_nextSubstate < 0]. *)
Theorem C5_pop_after_substate_change_keeps_state_scope :
  exists w0,
    run_ops (cfg := demo_config) (machine := idle_machine)
      pop_after_substate_change demo_world = Some w0 /\
    let w1 :=
      PerformStateChanges (cfg := demo_config) (machine := idle_machine) w0 in
    m_stateChange (w_env w0) = STATE_POP /\
    m_stack (w_env w0) = [0] /\
    (m_currentState (w_env w0), m_currentSubstate (w_env w0)) = (1, 0) /\
    (m_currentState (w_env w1), m_currentSubstate (w_env w1)) = (0, -1) /\
    m_stack (w_env w1) = [] /\
    m_scopeState (w_env w0) = 1 /\
    m_scopeState (w_env w1) = 1 /\
    m_stateVariables (w_env w0) = [PersistentData_int 42] /\
    m_stateVariables (w_env w1) = [PersistentData_int 42].
Proof.
  eexists. split; [vm_compute; reflexivity|].
  vm_compute. repeat split; reflexivity.
Qed.

(** ** Update *)

Lemma C6_counterexample :
  let w := mkWorld (ChangeState 1 demo_env) [] in
  owner_marked (w_env w) = false /\
  m_registeredEvents (w_env w) = 0 /\
  m_stateChange (w_env w) = STATE_CHANGE /\
  Update (cfg := demo_config) (machine := idle_machine) w = w /\
  PerformStateChanges (cfg := demo_config) (machine := idle_machine) w <> w /\
  m_currentState
    (w_env (PerformStateChanges (cfg := demo_config)
              (machine := idle_machine) w)) = 1 /\
  m_currentState
    (w_env (Update (cfg := demo_config) (machine := idle_machine) w)) = 0.
Proof. vm_compute. repeat split; discriminate. Qed.

Lemma C6_Update_performs_changes_when_registered_witness :
  let w := Reset (cfg := demo_config) (machine := ticking_machine) demo_world in
  owner_marked (w_env w) = false /\
  has_bits (m_registeredEvents (w_env w))
    (REGISTERED_EVENT_UPDATE (HostConfig := demo_config)) = true /\
  Update (cfg := demo_config) (machine := ticking_machine) w =
    PerformStateChanges (cfg := demo_config) (machine := ticking_machine)
      (Update_dispatch (cfg := demo_config) (machine := ticking_machine) w) /\
  (m_stateChange
     (w_env (Update_dispatch (cfg := demo_config)
               (machine := ticking_machine) w)) <> NO_STATE_CHANGE ->
   exists pre q r h post,
     w_calls (Update (cfg := demo_config) (machine := ticking_machine) w) =
       w_calls (Update_dispatch (cfg := demo_config)
                  (machine := ticking_machine) w) ++
       pre ++ mkCall EVENT_Probe q r h :: post).
Proof.
  split; [reflexivity|]. split; [reflexivity|].
  exact (C6_Update_performs_changes_when_registered (cfg := demo_config)
           (machine := ticking_machine)
           (Reset (cfg := demo_config) (machine := ticking_machine) demo_world)
           eq_refl).
Defined.

(** ** The state stack *)

Lemma C7_state_stack_bounded_witness :
  (forall ev m q r e,
     stack_bounded e ->
     stack_bounded (States (StateMachineClass := idle_machine) ev m q r e).2) /\
  exists w,
    run_ops (cfg := demo_config) (machine := idle_machine)
      eleven_state_changes demo_world = Some w /\
    reachable (cfg := demo_config) (machine := idle_machine) w /\
    m_stack (w_env w) = [0; 1; 2; 3; 4; 5; 6; 7; 8; 9] /\
    m_stack (PerformStateChanges_switch (w_env w)) =
      [1; 2; 3; 4; 5; 6; 7; 8; 9; 10] /\
    (length (m_stack (w_env w)) <= 10)%nat /\
    (forall o w',
       run_op (cfg := demo_config) (machine := idle_machine) o w = Some w' ->
       (length (m_stack (w_env w')) <= 10)%nat) /\
    m_stack (PerformStateChanges_switch (w_env w)) =
      match m_stateChange (w_env w) with
      | STATE_CHANGE =>
          if m_nextSubstate (w_env w) <? 0
          then newest (m_stack (w_env w) ++ [m_currentState (w_env w)])
          else m_stack (w_env w)
      | STATE_POP => removelast (m_stack (w_env w))
      | NO_STATE_CHANGE => m_stack (w_env w)
      end /\
    (length (m_stack (w_env w)) = 10%nat ->
     newest (m_stack (w_env w) ++ [m_currentState (w_env w)]) =
       tail (m_stack (w_env w)) ++ [m_currentState (w_env w)]).
Proof.
  assert (Hkeep : forall ev m q r e,
            stack_bounded e ->
            stack_bounded
              (States (StateMachineClass := idle_machine) ev m q r e).2).
  { intros ev m q r e Hb. exact Hb. }
  split; [exact Hkeep|].
  eexists. split; [vm_compute; reflexivity|].
  assert (Hreach : reachable (cfg := demo_config) (machine := idle_machine)
                     (default demo_world
                        (run_ops (cfg := demo_config)
                           (machine := idle_machine) eleven_state_changes
                           demo_world))).
  { eapply (reachable_run_ops (cfg := demo_config) (machine := idle_machine)
              eleven_state_changes demo_world).
    - apply reachable_new.
    - vm_compute. reflexivity. }
  split; [exact Hreach|]. split; [reflexivity|]. split; [reflexivity|].
  exact (C7_state_stack_bounded (cfg := demo_config)
           (machine := idle_machine) _ Hkeep Hreach).
Defined.

(** ** The manager's change requests *)

(** A push of machine 11 is requested on queue 0 and, before it is
    processed, a pop: the push and its machine are gone. *)
Example second_machine_request_replaces_the_pending_one :
  exists m1 m2,
    RequestStateMachineChange (Some 11) STATE_MACHINE_PUSH 0
      (StateMachineManager_new (cfg := demo_config)) = Some m1 /\
    RequestStateMachineChange None STATE_MACHINE_POP 0 m1 = Some m2 /\
    m_stateMachineChange m1 !! 0%nat = Some STATE_MACHINE_PUSH /\
    m_newStateMachine m1 !! 0%nat = Some (Some 11) /\
    m_stateMachineChange m2 !! 0%nat <> m_stateMachineChange m1 !! 0%nat /\
    m_newStateMachine m2 !! 0%nat <> m_newStateMachine m1 !! 0%nat.
Proof.
  do 2 eexists. split; [vm_compute; reflexivity|].
  split; [vm_compute; reflexivity|].
  vm_compute. repeat split; discriminate.
Qed.

Lemma C8_second_request_overwrites_witness :
  let m :=
    mkManager
      [STATE_MACHINE_PUSH; NO_STATE_MACHINE_CHANGE; NO_STATE_MACHINE_CHANGE]
      [Some 11; None; None] in
  (0 < length (m_stateMachineChange m))%nat /\
  (0 < length (m_newStateMachine m))%nat /\
  exists m',
    RequestStateMachineChange None STATE_MACHINE_POP (Z.of_nat 0) m = Some m' /\
    m_stateMachineChange m' !! 0%nat = Some STATE_MACHINE_POP /\
    m_newStateMachine m' !! 0%nat = Some None /\
    forall other, other <> 0%nat ->
      m_stateMachineChange m' !! other = m_stateMachineChange m !! other /\
      m_newStateMachine m' !! other = m_newStateMachine m !! other.
Proof.
  assert (H3 : (0 < 3)%nat) by lia.
  split; [exact H3|]. split; [exact H3|].
  exact (C8_second_request_overwrites None STATE_MACHINE_POP 0
           (mkManager
              [STATE_MACHINE_PUSH; NO_STATE_MACHINE_CHANGE;
               NO_STATE_MACHINE_CHANGE] [Some 11; None; None]) H3 H3).
Defined.

(** ** State variables *)

Lemma C9_counterexample :
  let e := DeclareVariable 1 STATE_VARIABLE_SCOPE demo_env in
  0 <= 1 /\
  length (m_stateVariables e) = 1%nat /\
  ~ (1 + 1 <= Z.of_nat (length (m_stateVariables e))) /\
  id_in_range 1 (m_stateVariables e) = false /\
  SetStateVariableInt 5 1 STATE_VARIABLE_SCOPE e = None /\
  GetStateVariable 1 STATE_VARIABLE_SCOPE e = None.
Proof.
  cbn zeta. split; [lia|]. split; [reflexivity|].
  split; [vm_compute; intros H; by apply H|].
  repeat split; reflexivity.
Qed.

Lemma C9_DeclareVariable_next_slot_witness :
  let e1 := DeclareVariable 0 STATE_VARIABLE_SCOPE demo_env in
  0 <= 0 <= Z.of_nat (length (variables STATE_VARIABLE_SCOPE demo_env)) /\
  0 + 1 <= Z.of_nat (length (variables STATE_VARIABLE_SCOPE e1)) /\
  (length (variables STATE_VARIABLE_SCOPE e1) <=
   length (variables STATE_VARIABLE_SCOPE demo_env) + 1)%nat /\
  id_in_range 0 (variables STATE_VARIABLE_SCOPE e1) = true /\
  exists e2, SetStateVariableInt 5 0 STATE_VARIABLE_SCOPE e1 = Some e2 /\
    GetStateVariable 0 STATE_VARIABLE_SCOPE e2 = Some (PersistentData_int 5).
Proof.
  assert (H0 : 0 <= 0 <=
               Z.of_nat (length (variables STATE_VARIABLE_SCOPE demo_env)))
    by (vm_compute; split; discriminate).
  split; [exact H0|].
  exact (C9_DeclareVariable_next_slot 5 0 STATE_VARIABLE_SCOPE demo_env H0).
Defined.

(** * Further properties of the machine *)

Section MoreProperties.

Context {float : Type} `{cfg : HostConfig float}.
Context `{machine : @StateMachineClass float}.

Implicit Types (e : @Env float) (w : @World float).

(** ** The log of a transition *)

Lemma probes_app (a b : list Call) : probes (a ++ b) = (probes a + probes b)%nat.
Proof. unfold probes. by rewrite filter_app, length_app. Qed.

Lemma probes_other (l : list Call) :
  Forall (fun c => call_event c <> EVENT_Probe) l -> probes l = 0%nat.
Proof.
  unfold probes. induction 1 as [|c l Hc Hl IH]; [done|].
  by rewrite filter_cons_False.
Qed.

Lemma exit_phase_calls w :
  exists exits,
    w_calls (PerformStateChanges_exit w) = w_calls w ++ exits /\
    Forall (fun c => call_event c = EVENT_Exit) exits /\
    (length exits <= 2)%nat.
Proof.
  unfold PerformStateChanges_exit.
  destruct (_ && _).
  - destruct (_ && _).
    + rewrite !call_States_calls, <- app_assoc. eexists.
      split; [done|]. split; [|cbn; lia]. by repeat constructor.
    + rewrite call_States_calls. eexists.
      split; [done|]. split; [|cbn; lia]. by repeat constructor.
  - destruct (_ && _).
    + rewrite call_States_calls. eexists.
      split; [done|]. split; [|cbn; lia]. by repeat constructor.
    + exists []. rewrite app_nil_r. split; [done|]. split; [done|cbn; lia].
Qed.

Lemma enter_phase_calls w :
  exists h enters,
    w_calls (PerformStateChanges_enter w) =
      w_calls w ++
      mkCall EVENT_Probe (static_cast_int (m_currentState (w_env w)))
        (m_currentSubstate (w_env w)) h :: enters /\
    (enters = [] \/
     exists q r h', enters = [mkCall EVENT_Enter q r h'] /\
       let e' := (States EVENT_Probe None
                    (static_cast_int (m_currentState (w_env w)))
                    (m_currentSubstate (w_env w)) (w_env w)).2 in
       q = static_cast_int (m_currentState e') /\
       r = m_currentSubstate e').
Proof.
  unfold PerformStateChanges_enter.
  set (w1 := (call_States _ _ _ _ w).2).
  assert (Hc : w_calls w1 =
               w_calls w ++
               [mkCall EVENT_Probe (static_cast_int (m_currentState (w_env w)))
                  (m_currentSubstate (w_env w))
                  (call_States EVENT_Probe None
                     (static_cast_int (m_currentState (w_env w)))
                     (m_currentSubstate (w_env w)) w).1]) by done.
  assert (He : w_env w1 =
               (States EVENT_Probe None
                  (static_cast_int (m_currentState (w_env w)))
                  (m_currentSubstate (w_env w)) (w_env w)).2) by done.
  destruct (_ <? _); destruct (has_bits _ _);
    rewrite ?call_States_calls, ?Hc, <- ?app_assoc; cbn [app];
    do 2 eexists; (split; [done|]); try (by left);
    right; do 3 eexists; (split; [done|]); by rewrite <- He.
Qed.

Lemma iteration_calls w :
  exists exits probe enters,
    w_calls (PerformStateChanges_iteration w) =
      w_calls w ++ exits ++ probe :: enters /\
    Forall (fun c => call_event c = EVENT_Exit) exits /\
    (length exits <= 2)%nat /\
    call_event probe = EVENT_Probe /\
    Forall (fun c => call_event c = EVENT_Enter) enters /\
    (length enters <= 1)%nat.
Proof.
  unfold PerformStateChanges_iteration.
  set (w1 := lift PerformStateChanges_begin w).
  set (w2 := PerformStateChanges_exit w1).
  set (w3 := lift PerformStateChanges_scope
               (lift PerformStateChanges_switch w2)).
  destruct (enter_phase_calls w3) as (h & enters & -> & Hen).
  destruct (exit_phase_calls w1) as (exits & Hex & Hall & Hlen).
  exists exits, (mkCall EVENT_Probe
                   (static_cast_int (m_currentState (w_env w3)))
                   (m_currentSubstate (w_env w3)) h), enters.
  change (w_calls w3) with (w_calls w2). fold w2 in Hex. rewrite Hex.
  change (w_calls w1) with (w_calls w). rewrite <- app_assoc.
  split; [done|]. split; [done|]. split; [done|]. split; [done|].
  destruct Hen as [->|(q & r & h' & -> & _)]; split;
    [done|cbn; lia|by repeat constructor|cbn; lia].
Qed.

Lemma iteration_probes w :
  exists new,
    w_calls (PerformStateChanges_iteration w) = w_calls w ++ new /\
    probes new = 1%nat.
Proof.
  destruct (iteration_calls w)
    as (exits & probe & enters & Hc & Hex & _ & Hp & Hen & _).
  exists (exits ++ probe :: enters). split; [done|].
  rewrite probes_app.
  change (probe :: enters) with ([probe] ++ enters). rewrite probes_app.
  rewrite (probes_other exits), (probes_other enters).
  - unfold probes. by rewrite filter_cons_True.
  - eapply Forall_impl; [exact Hen|]. cbn. intros c ->. done.
  - eapply Forall_impl; [exact Hex|]. cbn. intros c ->. done.
Qed.

Lemma loop_probes (n : nat) :
  forall w, exists new,
    w_calls (PerformStateChanges_loop n w) = w_calls w ++ new /\
    (probes new <= n)%nat /\
    (m_stateChange (w_env (PerformStateChanges_loop n w)) <> NO_STATE_CHANGE ->
     probes new = n).
Proof.
  induction n as [|n IH]; intros w.
  - exists []. cbn. by rewrite app_nil_r.
  - rewrite PerformStateChanges_loop_S.
    destruct (iteration_probes w) as (it & Hit & Hone).
    destruct (IH (PerformStateChanges_iteration w)) as (new & Hnew & Hle & Hp).
    destruct (m_stateChange (w_env w)) eqn:E.
    + exists []. rewrite app_nil_r. split; [done|]. split; [cbn; lia|].
      by rewrite E.
    + exists (it ++ new). rewrite Hnew, Hit, <- app_assoc, probes_app, Hone.
      split; [done|]. split; [lia|]. intros H. rewrite Hp by done. lia.
    + exists (it ++ new). rewrite Hnew, Hit, <- app_assoc, probes_app, Hone.
      split; [done|]. split; [lia|]. intros H. rewrite Hp by done. lia.
Qed.

(** X1. [PerformStateChanges] applies at most twenty transitions, each of
    which probes once; when a request is still pending at the end, exactly
    twenty were applied. *)
Theorem PerformStateChanges_at_most_twenty w :
  exists new,
    w_calls (PerformStateChanges w) = w_calls w ++ new /\
    (probes new <= 20)%nat /\
    (m_stateChange (w_env (PerformStateChanges w)) <> NO_STATE_CHANGE ->
     probes new = 20%nat).
Proof. apply loop_probes. Qed.

(** X2. One transition invokes [States] in a fixed order: at most two
    [EVENT_Exit], then exactly one [EVENT_Probe], then at most one
    [EVENT_Enter]; when the probe does not write the current state and
    substate, the enter is queried at the state and substate that was
    probed. *)
Theorem transition_exits_probes_enters w
    (Hkeep : forall m q r e,
       m_currentState (States EVENT_Probe m q r e).2 = m_currentState e /\
       m_currentSubstate (States EVENT_Probe m q r e).2 =
         m_currentSubstate e) :
  exists exits q r h enters,
    w_calls (PerformStateChanges_iteration w) =
      w_calls w ++ exits ++ mkCall EVENT_Probe q r h :: enters /\
    Forall (fun c => call_event c = EVENT_Exit) exits /\
    (length exits <= 2)%nat /\
    (enters = [] \/ exists h', enters = [mkCall EVENT_Enter q r h']).
Proof.
  unfold PerformStateChanges_iteration.
  set (w1 := lift PerformStateChanges_begin w).
  set (w2 := PerformStateChanges_exit w1).
  set (w3 := lift PerformStateChanges_scope
               (lift PerformStateChanges_switch w2)).
  destruct (enter_phase_calls w3) as (h & enters & -> & Hen).
  destruct (exit_phase_calls w1) as (exits & Hex & Hall & Hlen).
  exists exits, (static_cast_int (m_currentState (w_env w3))),
    (m_currentSubstate (w_env w3)), h, enters.
  change (w_calls w3) with (w_calls w2). fold w2 in Hex. rewrite Hex.
  change (w_calls w1) with (w_calls w). rewrite <- app_assoc.
  split; [done|]. split; [done|]. split; [done|].
  destruct Hen as [->|(q & r & h' & -> & Hq & Hr)]; [by left|].
  right. exists h'. cbn zeta in Hq, Hr.
  destruct (Hkeep None (static_cast_int (m_currentState (w_env w3)))
              (m_currentSubstate (w_env w3)) (w_env w3)) as [H1 H2].
  rewrite H1 in Hq. rewrite H2 in Hr. by subst.
Qed.

End MoreProperties.

(** ** Transitions of a machine whose handlers request none *)

Section QuietHandlers.

Context {float : Type} `{cfg : HostConfig float}.
Context `{machine : @StateMachineClass float}.

Implicit Types (e : @Env float) (w : @World float).

Ltac core_cases :=
  intros [oid1 omk1 gt1 rt1 mgr1 q1 ss1 ssub1 cs1 ui1 csub1 sc1 ns1 nsub1 d11
          d21 al1 regs1 t11 t21 cc1 bl1 st1 sv1 ssv1]
         [oid2 omk2 gt2 rt2 mgr2 q2 ss2 ssub2 cs2 ui2 csub2 sc2 ns2 nsub2 d12
          d22 al2 regs2 t12 t22 cc2 bl2 st2 sv2 ssv2] Hc;
  unfold core in Hc; cbn in Hc; simplify_eq.

Lemma begin_on_core : @on_core float PerformStateChanges_begin.
Proof. core_cases. reflexivity. Qed.

Lemma switch_on_core : @on_core float PerformStateChanges_switch.
Proof.
  core_cases. unfold PerformStateChanges_switch; cbn -[Nat.ltb].
  destruct sc2; [done| |].
  - destruct nsub2 as [|p|p]; cbn -[Nat.ltb]; [done|done|].
    by destruct (Nat.ltb _ _).
  - by destruct (last st2).
Qed.

Lemma scope_on_core : @on_core float PerformStateChanges_scope.
Proof. core_cases. destruct nsub2 as [|p|p]; reflexivity. Qed.

Lemma ChangeState_on_core (n : Z) : @on_core float (ChangeState n).
Proof. core_cases. unfold ChangeState; cbn. by destruct al2. Qed.

Lemma ChangeSubstate_on_core (n : Z) : @on_core float (ChangeSubstate n).
Proof. core_cases. unfold ChangeSubstate; cbn. by destruct al2. Qed.

Lemma PopState_on_core : @on_core float PopState.
Proof. core_cases. unfold PopState; cbn. by destruct al2. Qed.

Lemma scope_clears_request e :
  m_stateChange (PerformStateChanges_scope e) = NO_STATE_CHANGE /\
  m_stateChangeAllowed (PerformStateChanges_scope e) = true.
Proof.
  destruct e as [oid omk gt rt mgr q ss ssub cs ui csub sc ns nsub d1 d2 al
                 regs t1 t2 cc bl st sv ssv].
  destruct nsub as [|p|p]; split; reflexivity.
Qed.

Section Quiet.

Hypothesis Hquiet : keeps_core machine.

Lemma call_States_core ev m q r w :
  core (w_env (call_States ev m q r w).2) = core (w_env w).
Proof. rewrite call_States_env. apply Hquiet. Qed.

Lemma exit_phase_core w :
  core (w_env (PerformStateChanges_exit w)) = core (w_env w).
Proof.
  unfold PerformStateChanges_exit.
  destruct (_ && _); destruct (_ && _);
    rewrite ?call_States_core; done.
Qed.

Lemma enter_phase_core w :
  core (w_env (PerformStateChanges_enter w)) = core (w_env w).
Proof.
  unfold PerformStateChanges_enter.
  destruct (_ <? _); destruct (has_bits _ _);
    rewrite ?call_States_core; done.
Qed.

Lemma iteration_core w :
  core (w_env (PerformStateChanges_iteration w)) =
    core (PerformStateChanges_scope
            (PerformStateChanges_switch
               (PerformStateChanges_begin (w_env w)))).
Proof.
  unfold PerformStateChanges_iteration.
  rewrite enter_phase_core. cbn [lift w_env].
  apply scope_on_core, switch_on_core.
  by rewrite exit_phase_core.
Qed.

Lemma core_stateChange e1 e2 :
  core e1 = core e2 -> m_stateChange e1 = m_stateChange e2.
Proof. unfold core. intros Hc. by simplify_eq. Qed.

(** With a request pending, [PerformStateChanges] runs one iteration, and
    the handlers do not show in the core members. *)
Lemma PerformStateChanges_core w :
  m_stateChange (w_env w) <> NO_STATE_CHANGE ->
  core (w_env (PerformStateChanges w)) =
    core (PerformStateChanges_scope
            (PerformStateChanges_switch
               (PerformStateChanges_begin (w_env w)))).
Proof.
  intros Hp. unfold PerformStateChanges.
  rewrite (PerformStateChanges_loop_S 19).
  assert (Hno : m_stateChange (w_env (PerformStateChanges_iteration w)) =
                NO_STATE_CHANGE).
  { rewrite (core_stateChange _ _ (iteration_core w)).
    apply scope_clears_request. }
  destruct (m_stateChange (w_env w)); [done| |];
    rewrite (PerformStateChanges_loop_S 18), Hno; apply iteration_core.
Qed.

Lemma Process_dispatch_core ev m w :
  core (w_env (Process_dispatch ev m w)) = core (w_env w).
Proof.
  unfold Process_dispatch.
  repeat match goal with
         | |- context [if ?c then _ else _] => destruct c
         end; cbn [fst snd]; rewrite ?call_States_core; done.
Qed.

End Quiet.

Lemma core_fields e a1 a2 a3 a4 a5 a6 a7 a8 a9 a10 a11 :
  core e = (a1, a2, a3, a4, a5, a6, a7, a8, a9, a10, a11) ->
  m_scopeState e = a1 /\ m_scopeSubstate e = a2 /\ m_currentState e = a3 /\
  m_currentSubstate e = a4 /\ m_stateChange e = a5 /\ m_nextState e = a6 /\
  m_nextSubstate e = a7 /\ m_stateChangeAllowed e = a8 /\ m_stack e = a9 /\
  m_stateVariables e = a10 /\ m_substateVariables e = a11.
Proof. unfold core. intros Hc. by simplify_eq. Qed.

Lemma ChangeState_applied_core (n : Z) e :
  m_stateChangeAllowed e = true ->
  core (PerformStateChanges_scope
          (PerformStateChanges_switch
             (PerformStateChanges_begin (ChangeState n e)))) =
    (uint_incr (m_scopeState e), uint_incr (m_scopeSubstate e), n, -1,
     NO_STATE_CHANGE, n, -1, true, pushed (m_stack e) (m_currentState e),
     [], []).
Proof.
  destruct e as [oid omk gt rt mgr q ss ssub cs ui csub sc ns nsub d1 d2 al
                 regs t1 t2 cc bl st sv ssv].
  cbn. intros ->. unfold pushed, PerformStateChanges_switch; cbn -[Nat.ltb].
  by destruct (Nat.ltb _ _).
Qed.

Lemma ChangeSubstate_applied_core (s : Z) e :
  m_stateChangeAllowed e = true -> 0 <= s < 2 ^ 31 ->
  core (PerformStateChanges_scope
          (PerformStateChanges_switch
             (PerformStateChanges_begin (ChangeSubstate s e)))) =
    (m_scopeState e, uint_incr (m_scopeSubstate e), m_currentState e, s,
     NO_STATE_CHANGE, m_currentState e, s, true, m_stack e,
     m_stateVariables e, []).
Proof.
  destruct e as [oid omk gt rt mgr q ss ssub cs ui csub sc ns nsub d1 d2 al
                 regs t1 t2 cc bl st sv ssv].
  cbn. intros -> Hs. unfold ChangeSubstate; cbn [m_stateChangeAllowed].
  rewrite (static_cast_int_small s Hs).
  destruct s as [|p|p]; [reflexivity|reflexivity|lia].
Qed.

Lemma PopState_applied_core (l : list Z) (x : Z) e :
  m_stateChangeAllowed e = true -> m_stack e = l ++ [x] ->
  core (PerformStateChanges_scope
          (PerformStateChanges_switch
             (PerformStateChanges_begin (PopState e)))) =
    ((if m_nextSubstate e <? 0 then uint_incr (m_scopeState e)
      else m_scopeState e),
     uint_incr (m_scopeSubstate e), x, -1, NO_STATE_CHANGE, m_nextState e,
     m_nextSubstate e, true, l,
     (if m_nextSubstate e <? 0 then [] else m_stateVariables e), []).
Proof.
  destruct e as [oid omk gt rt mgr q ss ssub cs ui csub sc ns nsub d1 d2 al
                 regs t1 t2 cc bl st sv ssv].
  cbn. intros -> ->. unfold PerformStateChanges_switch; cbn.
  rewrite last_snoc. cbn. rewrite removelast_last.
  destruct nsub as [|p|p]; reflexivity.
Qed.

Lemma ChangeState_performed (n : Z) w :
  keeps_core machine -> m_stateChangeAllowed (w_env w) = true ->
  core (w_env (PerformStateChanges (lift (ChangeState n) w))) =
    (uint_incr (m_scopeState (w_env w)),
     uint_incr (m_scopeSubstate (w_env w)), n, -1, NO_STATE_CHANGE, n, -1,
     true, pushed (m_stack (w_env w)) (m_currentState (w_env w)), [], []).
Proof.
  intros Hquiet Hallowed.
  assert (Hp : m_stateChange (w_env (lift (ChangeState n) w)) <>
               NO_STATE_CHANGE).
  { cbn [lift w_env]. unfold ChangeState. by rewrite Hallowed. }
  pose proof (PerformStateChanges_core Hquiet _ Hp) as Hc.
  cbn [lift w_env] in Hc. by rewrite ChangeState_applied_core in Hc.
Qed.

Lemma PopState_performed (l : list Z) (x : Z) w :
  keeps_core machine -> m_stateChangeAllowed (w_env w) = true ->
  m_stack (w_env w) = l ++ [x] ->
  core (w_env (PerformStateChanges (lift PopState w))) =
    ((if m_nextSubstate (w_env w) <? 0 then uint_incr (m_scopeState (w_env w))
      else m_scopeState (w_env w)),
     uint_incr (m_scopeSubstate (w_env w)), x, -1, NO_STATE_CHANGE,
     m_nextState (w_env w), m_nextSubstate (w_env w), true, l,
     (if m_nextSubstate (w_env w) <? 0 then []
      else m_stateVariables (w_env w)), []).
Proof.
  intros Hquiet Hallowed Hstack.
  assert (Hp : m_stateChange (w_env (lift PopState w)) <> NO_STATE_CHANGE).
  { cbn [lift w_env]. unfold PopState. by rewrite Hallowed. }
  pose proof (PerformStateChanges_core Hquiet _ Hp) as Hc.
  cbn [lift w_env] in Hc.
  by rewrite (PopState_applied_core l x) in Hc.
Qed.

(** X3. A state change requested by [ChangeState( n )] while changes are
    allowed, once applied with handlers that request nothing: the machine
    is in state [n] without a substate, the state it left is on the stack,
    both scope counters moved, both sets of variables are deleted, and
    nothing is pending. *)
Theorem ChangeState_applied (n : Z) w
    (Hquiet : keeps_core machine)
    (Hallowed : m_stateChangeAllowed (w_env w) = true) :
  let e := w_env w in
  let e' := w_env (PerformStateChanges (lift (ChangeState n) w)) in
  m_currentState e' = n /\ m_currentSubstate e' = -1 /\
  m_stack e' = pushed (m_stack e) (m_currentState e) /\
  m_scopeState e' = uint_incr (m_scopeState e) /\
  m_scopeSubstate e' = uint_incr (m_scopeSubstate e) /\
  m_stateVariables e' = [] /\ m_substateVariables e' = [] /\
  m_stateChange e' = NO_STATE_CHANGE /\ m_stateChangeAllowed e' = true.
Proof.
  cbn zeta.
  pose proof (ChangeState_performed n w Hquiet Hallowed) as Hc.
  apply core_fields in Hc. tauto.
Qed.

(** X4. A substate change requested by [ChangeSubstate( s )], once applied
    with handlers that request nothing: the machine keeps its state, its
    state scope, its state variables and its stack, is in substate [s],
    and the substate scope moved and the substate variables are deleted. *)
Theorem ChangeSubstate_applied (s : Z) w
    (Hquiet : keeps_core machine)
    (Hallowed : m_stateChangeAllowed (w_env w) = true)
    (Hs : 0 <= s < 2 ^ 31) :
  let e := w_env w in
  let e' := w_env (PerformStateChanges (lift (ChangeSubstate s) w)) in
  m_currentState e' = m_currentState e /\ m_currentSubstate e' = s /\
  m_stack e' = m_stack e /\
  m_scopeState e' = m_scopeState e /\
  m_scopeSubstate e' = uint_incr (m_scopeSubstate e) /\
  m_stateVariables e' = m_stateVariables e /\ m_substateVariables e' = [] /\
  m_stateChange e' = NO_STATE_CHANGE /\ m_stateChangeAllowed e' = true.
Proof.
  cbn zeta.
  assert (Hp : m_stateChange (w_env (lift (ChangeSubstate s) w)) <>
               NO_STATE_CHANGE).
  { cbn [lift w_env]. unfold ChangeSubstate. by rewrite Hallowed. }
  pose proof (PerformStateChanges_core Hquiet _ Hp) as Hc.
  cbn [lift w_env] in Hc. rewrite ChangeSubstate_applied_core in Hc by done.
  apply core_fields in Hc. tauto.
Qed.

(** X5. A pop requested by [PopState()] on a stack that is not empty, once
    applied with handlers that request nothing: the machine is in the
    state that was pushed last, without a substate, that entry is off the
    stack, the substate scope moved and the substate variables are
    deleted. *)
Theorem PopState_applied (l : list Z) (x : Z) w
    (Hquiet : keeps_core machine)
    (Hallowed : m_stateChangeAllowed (w_env w) = true)
    (Hstack : m_stack (w_env w) = l ++ [x]) :
  let e := w_env w in
  let e' := w_env (PerformStateChanges (lift PopState w)) in
  m_currentState e' = x /\ m_currentSubstate e' = -1 /\
  m_stack e' = l /\
  m_scopeSubstate e' = uint_incr (m_scopeSubstate e) /\
  m_substateVariables e' = [] /\
  m_stateChange e' = NO_STATE_CHANGE /\ m_stateChangeAllowed e' = true.
Proof.
  cbn zeta.
  pose proof (PopState_performed l x w Hquiet Hallowed Hstack) as Hc.
  apply core_fields in Hc. tauto.
Qed.

Lemma pushed_snoc (stack : list Z) (current : Z) :
  pushed stack current =
    (if (length stack <? MAX_STATE_STACK_SIZE)%nat then stack
     else tail stack) ++ [current].
Proof.
  unfold pushed, MAX_STATE_STACK_SIZE. rewrite length_app. cbn [length].
  destruct (Nat.ltb_spec 10 (length stack + 1));
    destruct (Nat.ltb_spec (length stack) 10); try lia; [|done].
  destruct stack; [cbn in *; lia|done].
Qed.

(** X6. [ChangeState( n )] followed by [PopState()], each applied with
    handlers that request nothing, brings the machine back to the state it
    was in, without a substate; the stack is as before when it held fewer
    than ten entries, and has lost its oldest entry otherwise. *)
Theorem ChangeState_PopState_round_trip (n : Z) w
    (Hquiet : keeps_core machine)
    (Hallowed : m_stateChangeAllowed (w_env w) = true) :
  let e := w_env w in
  let e' :=
    w_env (PerformStateChanges
             (lift PopState
                (PerformStateChanges (lift (ChangeState n) w)))) in
  m_currentState e' = m_currentState e /\ m_currentSubstate e' = -1 /\
  m_stack e' =
    (if (length (m_stack e) <? MAX_STATE_STACK_SIZE)%nat then m_stack e
     else tail (m_stack e)) /\
  m_stateChange e' = NO_STATE_CHANGE.
Proof.
  cbn zeta.
  pose proof (ChangeState_performed n w Hquiet Hallowed) as Hc.
  apply core_fields in Hc.
  destruct Hc as (_ & _ & _ & _ & _ & _ & _ & Hal & Hst & _).
  rewrite pushed_snoc in Hst.
  pose proof (PopState_performed _ _ _ Hquiet Hal Hst) as Hc.
  apply core_fields in Hc. tauto.
Qed.

End QuietHandlers.

(** ** Scope values captured before a transition *)

Section Dispatch.

Context {float : Type} `{cfg : HostConfig float}.
Context `{machine : @StateMachineClass float}.

Implicit Types (e : @Env float) (w : @World float).

Lemma uint_incr_moves (x : Z) : uint_incr x <> x.
Proof.
  unfold uint_incr. intros H.
  pose proof (Z.mod_pos_bound (x + 1) (2 ^ 32) ltac:(lia)) as Hb.
  destruct (Z.lt_ge_cases (x + 1) (2 ^ 32)) as [Hlt|Hge].
  - rewrite Z.mod_small in H by lia. lia.
  - assert (x = 2 ^ 32 - 1) by lia. subst x.
    replace (2 ^ 32 - 1 + 1) with (2 ^ 32) in H by lia.
    rewrite Z.mod_same in H by lia. lia.
Qed.

Lemma SendMsgDelayedToMeHelper_core (delay : float) (name : MSG_Name)
    (rule : Scope_Rule) (queue : StateMachineQueue) (data : MSG_Data)
    (timer : bool) e :
  core (SendMsgDelayedToMeHelper delay name rule queue data timer e) = core e.
Proof. done. Qed.

(** X7. A state-scoped or substate-scoped message that a handler sends to
    its own machine after it called [ChangeState] captures the scope
    counter of the state that is being left; once the change is applied
    the machine's counter differs from the captured value. *)
Theorem scoped_send_after_ChangeState_captures_old_scope (n : Z)
    (name : MSG_Name) (data : MSG_Data) w
    (Hquiet : keeps_core machine)
    (Hallowed : m_stateChangeAllowed (w_env w) = true) :
  let e := w_env w in
  let to_state := SendMsgToState name data (ChangeState n e) in
  let to_substate := SendMsgToSubstate name data (ChangeState n e) in
  g_msgroute to_state =
    g_msgroute e ++
    [mkMSG ONE_FRAME name (owner_id e) (owner_id e) SCOPE_TO_STATE
       (m_scopeState e) (m_queue e) data false false] /\
  g_msgroute to_substate =
    g_msgroute e ++
    [mkMSG ONE_FRAME name (owner_id e) (owner_id e) SCOPE_TO_SUBSTATE
       (m_scopeSubstate e) (m_queue e) data false false] /\
  m_scopeState
    (w_env (PerformStateChanges (mkWorld to_state (w_calls w)))) <>
    m_scopeState e /\
  m_scopeSubstate
    (w_env (PerformStateChanges (mkWorld to_substate (w_calls w)))) <>
    m_scopeSubstate e.
Proof.
  cbn zeta. unfold SendMsgToState, SendMsgToSubstate.
  assert (Hroute : forall rule,
            g_msgroute
              (SendMsgDelayedToMeHelper ONE_FRAME name rule
                 (m_queue (ChangeState n (w_env w))) data false
                 (ChangeState n (w_env w))) =
            g_msgroute (w_env w) ++
            [mkMSG ONE_FRAME name (owner_id (w_env w)) (owner_id (w_env w))
               rule
               match rule with
               | SCOPE_TO_SUBSTATE => m_scopeSubstate (w_env w)
               | SCOPE_TO_STATE => m_scopeState (w_env w)
               | SCOPE_TO_STATE_MACHINE => 0
               end (m_queue (w_env w)) data false false]).
  { intros rule. rewrite SendMsgDelayedToMeHelper_route.
    unfold ChangeState. by destruct (m_stateChangeAllowed (w_env w)). }
  assert (Hafter : forall rule,
            core (w_env (PerformStateChanges
                           (mkWorld
                              (SendMsgDelayedToMeHelper ONE_FRAME name rule
                                 (m_queue (ChangeState n (w_env w))) data
                                 false (ChangeState n (w_env w)))
                              (w_calls w)))) =
            (uint_incr (m_scopeState (w_env w)),
             uint_incr (m_scopeSubstate (w_env w)), n, -1, NO_STATE_CHANGE,
             n, -1, true,
             pushed (m_stack (w_env w)) (m_currentState (w_env w)), [], [])).
  { intros rule. rewrite <- (ChangeState_applied_core n (w_env w) Hallowed).
    rewrite (PerformStateChanges_core Hquiet).
    - cbn [w_env].
      apply scope_on_core, switch_on_core, begin_on_core,
        SendMsgDelayedToMeHelper_core.
    - cbn [w_env].
      rewrite (core_stateChange _ _ (SendMsgDelayedToMeHelper_core _ _ _ _ _ _ _)).
      unfold ChangeState. by rewrite Hallowed. }
  split; [apply Hroute|]. split; [apply Hroute|].
  split.
  - destruct (core_fields _ _ _ _ _ _ _ _ _ _ _ _ (Hafter SCOPE_TO_STATE))
      as (-> & _). apply uint_incr_moves.
  - destruct (core_fields _ _ _ _ _ _ _ _ _ _ _ _ (Hafter SCOPE_TO_SUBSTATE))
      as (_ & -> & _). apply uint_incr_moves.
Qed.

(** ** Reset *)

Lemma Process_without_request (ev : State_Machine_Event) w
    (Hquiet : keeps_core machine) :
  owner_marked (w_env w) = false ->
  m_stateChange (w_env w) = NO_STATE_CHANGE ->
  Process ev None w = Process_dispatch ev None w.
Proof.
  intros Ha Hn. unfold Process. rewrite Ha. cbn [negb].
  apply PerformStateChanges_nothing_pending.
  by rewrite (core_stateChange _ _ (Process_dispatch_core Hquiet ev None w)).
Qed.

Lemma Process_dispatch_owner_marked (ev : State_Machine_Event)
    (m : option MSG_Object) w
    (Halive : forall ev m q r e,
       owner_marked (States ev m q r e).2 = owner_marked e) :
  owner_marked (w_env (Process_dispatch ev m w)) = owner_marked (w_env w).
Proof.
  unfold Process_dispatch.
  repeat match goal with
         | |- context [if ?c then _ else _] => destruct c
         end; cbn [fst snd]; rewrite ?call_States_env, ?Halive; done.
Qed.

Lemma keeps_core_currentState (Hquiet : keeps_core machine) :
  forall ev m q r e, m_currentState (States ev m q r e).2 = m_currentState e.
Proof.
  intros ev m q r e. pose proof (Hquiet ev m q r e) as Hc.
  unfold core in Hc. by simplify_eq.
Qed.

(** X8. [Reset] on a machine whose owner is not marked for deletion, with
    handlers that request nothing and do not delete the owner: whatever
    the machine was before, it is in state 0 without a substate, with scope
    counters 0, an empty stack and no variables, and [States] was queried
    with [EVENT_Probe] and then with [EVENT_Enter], each down the ladder of
    state 0. *)
Theorem Reset_enters_state_zero w
    (Hquiet : keeps_core machine)
    (Halive : forall ev m q r e,
       owner_marked (States ev m q r e).2 = owner_marked e)
    (Hnot : owner_marked (w_env w) = false) :
  exists probed entered,
    w_calls (Reset w) = w_calls w ++ probed ++ entered /\
    walks_ladder EVENT_Probe (ladder 0 (-1)) probed /\
    walks_ladder EVENT_Enter (ladder 0 (-1)) entered /\
    core (w_env (Reset w)) =
      (0, 0, 0, -1, NO_STATE_CHANGE, 0, 0, true, [], [], []).
Proof.
  unfold Reset.
  set (w0 := lift Initialize w).
  assert (H0 : core (w_env w0) =
               (0, 0, 0, -1, NO_STATE_CHANGE, 0, 0, true, [], [], [])) by done.
  assert (Ha0 : owner_marked (w_env w0) = false) by exact Hnot.
  assert (Hn0 : m_stateChange (w_env w0) = NO_STATE_CHANGE) by done.
  rewrite (Process_without_request EVENT_Probe w0 Hquiet Ha0 Hn0).
  set (w1 := Process_dispatch EVENT_Probe None w0).
  assert (H1 : core (w_env w1) = core (w_env w0))
    by apply (Process_dispatch_core Hquiet).
  assert (Ha1 : owner_marked (w_env w1) = false).
  { subst w1. by rewrite Process_dispatch_owner_marked. }
  assert (Hn1 : m_stateChange (w_env w1) = NO_STATE_CHANGE).
  { by rewrite (core_stateChange _ _ H1). }
  rewrite (Process_without_request EVENT_Enter w1 Hquiet Ha1 Hn1).
  destruct (Process_dispatch_walks_ladder EVENT_Probe None w0
              (keeps_core_currentState Hquiet)) as (probed & Hp & Hwp).
  destruct (Process_dispatch_walks_ladder EVENT_Enter None w1
              (keeps_core_currentState Hquiet)) as (entered & Hen & Hwe).
  fold w1 in Hp.
  assert (Hcs : m_currentState (w_env w1) = 0 /\
                m_currentSubstate (w_env w1) = -1).
  { rewrite H0 in H1. apply core_fields in H1. tauto. }
  destruct Hcs as [Hcs Hsub]. rewrite Hcs, Hsub in Hwe.
  exists probed, entered.
  split; [by rewrite Hen, Hp, <- app_assoc|].
  split; [exact Hwp|]. split; [exact Hwe|].
  rewrite (Process_dispatch_core Hquiet). by rewrite H1.
Qed.

(** X9. For an owner that is marked for deletion [Process] and [Update]
    invoke no handler and leave the machine as it is, and [Reset] only
    re-initialises it. *)
Theorem marked_for_deletion_is_not_dispatched
    (ev : State_Machine_Event) (m : option MSG_Object) w
    (Hmarked : owner_marked (w_env w) = true) :
  Process ev m w = w /\ Update w = w /\ Reset w = lift Initialize w.
Proof.
  assert (HP : forall ev' m' w', owner_marked (w_env w') = true ->
                 Process ev' m' w' = w').
  { intros ev' m' w' H. unfold Process. by rewrite H. }
  split; [by apply HP|]. split.
  - unfold Update. rewrite Hmarked. by rewrite andb_false_r.
  - unfold Reset.
    rewrite (HP EVENT_Probe None (lift Initialize w)) by exact Hmarked.
    by rewrite (HP EVENT_Enter None (lift Initialize w)) by exact Hmarked.
Qed.

(** ** The Update ladder *)

Lemma Update_dispatch_walks_ladder w
    (Hkeep : forall m q r e,
       m_currentState (States EVENT_Update m q r e).2 = m_currentState e /\
       m_registeredEvents (States EVENT_Update m q r e).2 =
         m_registeredEvents e) :
  exists new,
    w_calls (Update_dispatch w) = w_calls w ++ new /\
    walks_ladder EVENT_Update
      (update_ladder (m_registeredEvents (w_env w))
         (static_cast_int (m_currentState (w_env w)))
         (m_currentSubstate (w_env w))) new.
Proof.
  unfold Update_dispatch, update_ladder.
  set (w0 := lift _ w).
  change (m_registeredEvents (w_env w)) with (m_registeredEvents (w_env w0)).
  change (m_currentState (w_env w)) with (m_currentState (w_env w0)).
  change (m_currentSubstate (w_env w)) with (m_currentSubstate (w_env w0)).
  change (w_calls w) with (w_calls w0).
  generalize w0. clear w w0. intros w.
  remember (static_cast_int (m_currentState (w_env w))) as cs eqn:Hcs.
  remember (m_currentSubstate (w_env w)) as sub eqn:Hsub.
  remember (m_registeredEvents (w_env w)) as regs eqn:Hregs.
  symmetry in Hcs, Hregs.
  assert (Hstep : forall q r w',
            static_cast_int (m_currentState (w_env w')) = cs ->
            m_registeredEvents (w_env w') = regs ->
            static_cast_int
              (m_currentState (w_env (call_States EVENT_Update None q r w').2))
              = cs /\
            m_registeredEvents (w_env (call_States EVENT_Update None q r w').2)
              = regs).
  { intros q r w' H1 H2. rewrite call_States_env.
    destruct (Hkeep None q r (w_env w')) as [-> ->]. done. }
  destruct ((0 <=? sub) && has_bits regs REGISTERED_EVENT_UPDATE_SUBSTATE).
  - destruct (call_States EVENT_Update None cs sub w) as [h1 w1] eqn:E1.
    pose proof (call_States_calls EVENT_Update None cs sub w) as C1.
    destruct (Hstep cs sub w Hcs Hregs) as [S1 R1].
    rewrite E1 in C1, S1, R1. cbn [fst snd] in *.
    destruct h1; cbn [negb fst snd andb].
    + exists [mkCall EVENT_Update cs sub true]. by rewrite C1.
    + rewrite R1, S1. destruct (has_bits regs REGISTERED_EVENT_UPDATE_STATE).
      * destruct (call_States EVENT_Update None cs (-1) w1) as [h2 w2] eqn:E2.
        pose proof (call_States_calls EVENT_Update None cs (-1) w1) as C2.
        destruct (Hstep cs (-1) w1 S1 R1) as [S2 R2].
        rewrite E2 in C2, S2, R2. cbn [fst snd] in *.
        destruct h2; cbn [negb fst snd andb].
        -- exists [mkCall EVENT_Update cs sub false;
                   mkCall EVENT_Update cs (-1) true].
           by rewrite C2, C1, <- app_assoc.
        -- rewrite R2.
           destruct (has_bits regs REGISTERED_EVENT_UPDATE_STATEMACHINE);
             cbn [negb andb fst snd].
           ++ destruct (call_States EVENT_Update None (-1) (-1) w2)
                as [h3 w3] eqn:E3.
              pose proof (call_States_calls EVENT_Update None (-1) (-1) w2)
                as C3.
              rewrite E3 in C3. cbn [fst snd] in *.
              rewrite C3, C2, C1, <- !app_assoc. eexists. split; [done|]. cbn.
              repeat split; by destruct h3.
           ++ cbn [fst snd].
              exists [mkCall EVENT_Update cs sub false;
                      mkCall EVENT_Update cs (-1) false].
              by rewrite C2, C1, <- app_assoc.
      * cbn [negb andb fst snd]. rewrite R1.
        destruct (has_bits regs REGISTERED_EVENT_UPDATE_STATEMACHINE);
          cbn [negb andb fst snd].
        -- destruct (call_States EVENT_Update None (-1) (-1) w1)
                as [h3 w3] eqn:E3.
              pose proof (call_States_calls EVENT_Update None (-1) (-1) w1)
                as C3.
              rewrite E3 in C3. cbn [fst snd] in *.
              rewrite C3, C1, <- !app_assoc. eexists. split; [done|]. cbn.
              repeat split; by destruct h3.
        -- cbn [fst snd].
           exists [mkCall EVENT_Update cs sub false]. by rewrite C1.
  - cbn [negb fst snd andb app]. rewrite ?Hcs, ?Hregs.
    destruct (has_bits regs REGISTERED_EVENT_UPDATE_STATE).
    + destruct (call_States EVENT_Update None cs (-1) w) as [h2 w2] eqn:E2.
      pose proof (call_States_calls EVENT_Update None cs (-1) w) as C2.
      destruct (Hstep cs (-1) w Hcs Hregs) as [S2 R2].
      rewrite E2 in C2, S2, R2. cbn [fst snd] in *.
      destruct h2; cbn [negb fst snd andb].
      * exists [mkCall EVENT_Update cs (-1) true]. by rewrite C2.
      * rewrite R2.
        destruct (has_bits regs REGISTERED_EVENT_UPDATE_STATEMACHINE);
          cbn [negb andb fst snd].
        -- destruct (call_States EVENT_Update None (-1) (-1) w2)
                as [h3 w3] eqn:E3.
              pose proof (call_States_calls EVENT_Update None (-1) (-1) w2)
                as C3.
              rewrite E3 in C3. cbn [fst snd] in *.
              rewrite C3, C2, <- !app_assoc. eexists. split; [done|]. cbn.
              repeat split; by destruct h3.
        -- cbn [fst snd].
           exists [mkCall EVENT_Update cs (-1) false]. by rewrite C2.
    + cbn [negb andb fst snd]. rewrite ?Hcs, ?Hregs.
      destruct (has_bits regs REGISTERED_EVENT_UPDATE_STATEMACHINE);
        cbn [negb andb fst snd].
      * destruct (call_States EVENT_Update None (-1) (-1) w)
                as [h3 w3] eqn:E3.
              pose proof (call_States_calls EVENT_Update None (-1) (-1) w)
                as C3.
              rewrite E3 in C3. cbn [fst snd] in *.
              rewrite C3. eexists. split; [done|]. cbn.
              repeat split; by destruct h3.
      * exists []. by rewrite app_nil_r.
Qed.

(** X10. [Update] on a machine with a registered Update handler, whose
    owner is not marked for deletion, queries [States] with [EVENT_Update]
    down the rungs of the ladder whose Update handler is registered, and
    no other rung, stops at the first that is handled, and then runs
    [PerformStateChanges].  The Update handlers are taken not to write the
    current state or the registered events. *)
Theorem Update_walks_registered_rungs w
    (Hkeep : forall m q r e,
       m_currentState (States EVENT_Update m q r e).2 = m_currentState e /\
       m_registeredEvents (States EVENT_Update m q r e).2 =
         m_registeredEvents e)
    (Hreg : has_bits (m_registeredEvents (w_env w)) REGISTERED_EVENT_UPDATE
            = true)
    (Hnot : owner_marked (w_env w) = false) :
  exists w1 new,
    Update w = PerformStateChanges w1 /\
    w_calls w1 = w_calls w ++ new /\
    walks_ladder EVENT_Update
      (update_ladder (m_registeredEvents (w_env w))
         (static_cast_int (m_currentState (w_env w)))
         (m_currentSubstate (w_env w))) new.
Proof.
  destruct (Update_dispatch_walks_ladder w Hkeep) as (new & Hnew & Hwalk).
  exists (Update_dispatch w), new.
  unfold Update. rewrite Hreg, Hnot. done.
Qed.

End Dispatch.

(** ** Timers, sends and delayed requests *)

Section Sends.

Context {float : Type} `{cfg : HostConfig float}.

Implicit Types (e : @Env float).

(** X11. The three timer verbs never hand the router a delay below
    [ONE_FRAME]: a smaller delay is replaced by [ONE_FRAME].  The message
    goes to the machine's own queue of its own owner, is marked as a
    timer, and carries as payload the very delay it is scheduled with. *)
Theorem timers_wait_at_least_one_frame (delay : float) (name : MSG_Name) e
    (Hirreflexive : float_lt ONE_FRAME ONE_FRAME = false) :
  let d := if float_lt delay ONE_FRAME then ONE_FRAME else delay in
  let timer rule scope :=
    mkMSG d name (owner_id e) (owner_id e) rule scope (m_queue e)
      (MSG_Data_float d) true false in
  float_lt d ONE_FRAME = false /\
  g_msgroute (SetTimerSubstate delay name e) =
    g_msgroute e ++ [timer SCOPE_TO_SUBSTATE (m_scopeSubstate e)] /\
  g_msgroute (SetTimerStateMachine delay name e) =
    g_msgroute e ++ [timer SCOPE_TO_STATE_MACHINE 0] /\
  exists rule scope,
    g_msgroute (SetTimerState delay name e) =
      g_msgroute e ++ [timer rule scope].
Proof.
  cbn zeta. split; [|split; [|split]].
  - by destruct (float_lt delay ONE_FRAME) eqn:E.
  - unfold SetTimerSubstate. by rewrite SendMsgDelayedToMeHelper_route.
  - unfold SetTimerStateMachine. by rewrite SendMsgDelayedToMeHelper_route.
  - unfold SetTimerState. rewrite SendMsgDelayedToMeHelper_route.
    by do 2 eexists.
Qed.

Lemma to_all_other_queues_loop (delay : float) (name : MSG_Name)
    (data : MSG_Data) (queues : list Z) :
  forall e,
    let e' :=
      foldl
        (fun e queue =>
           if bool_decide (queue <> m_queue e)
           then SendMsgDelayedToMeHelper delay name SCOPE_TO_STATE_MACHINE
                  queue data false e
           else e) e queues in
    g_msgroute e' =
      g_msgroute e ++
      map (fun queue =>
             mkMSG delay name (owner_id e) (owner_id e)
               SCOPE_TO_STATE_MACHINE 0 queue data false false)
        (filter (fun queue => queue <> m_queue e) queues).
Proof.
  induction queues as [|q queues IH]; intros e; cbn [foldl].
  - cbn. by rewrite app_nil_r.
  - case_bool_decide as Hq.
    + rewrite filter_cons_True by done. rewrite IH.
      rewrite SendMsgDelayedToMeHelper_route. cbn [map].
      by rewrite <- app_assoc.
    + rewrite filter_cons_False by (intros ?; congruence). apply IH.
Qed.

Lemma length_filter_ne_seqZ (q : Z) (n : nat) :
  length (filter (fun x => x <> q) (seqZ 0 (Z.of_nat n))) =
    if (0 <=? q) && (q <? Z.of_nat n) then pred n else n.
Proof.
  induction n as [|n IH].
  - by destruct (_ && _).
  - rewrite seqZ_S, filter_app, length_app, IH, Nat2Z.inj_succ, Z.add_0_l.
    destruct (decide (Z.of_nat n = q)) as [<-|Hne].
    + rewrite filter_cons_False by (intros H; by apply H).
      cbn [filter list_filter length].
      assert (E1 : (0 <=? Z.of_nat n) && (Z.of_nat n <? Z.of_nat n) = false).
      { rewrite andb_false_iff, Z.ltb_ge. right. lia. }
      assert (E2 : (0 <=? Z.of_nat n) && (Z.of_nat n <? Z.succ (Z.of_nat n))
                   = true).
      { rewrite andb_true_iff, Z.leb_le, Z.ltb_lt. lia. }
      rewrite E1, E2. cbn. lia.
    + rewrite filter_cons_True by done. cbn [filter list_filter length].
      destruct (Z.leb_spec 0 q); cbn [andb]; [|lia].
      destruct (Z.ltb_spec q (Z.of_nat n));
        destruct (Z.ltb_spec q (Z.succ (Z.of_nat n))); try lia;
        destruct n; cbn; lia.
Qed.

(** X12. The sends "to all other queues" hand the router one
    machine-scoped message per queue index other than the machine's own,
    in increasing order, and none for its own queue: as many as there are
    queues, less one when the machine sits on a queue of the manager. *)
Theorem all_other_queues_skips_own_queue (delay : float) (name : MSG_Name)
    (data : MSG_Data) e :
  let others :=
    filter (fun queue => queue <> m_queue e)
      (seqZ 0 (Z.of_nat STATE_MACHINE_NUM_QUEUES)) in
  let sent d :=
    map (fun queue =>
           mkMSG d name (owner_id e) (owner_id e) SCOPE_TO_STATE_MACHINE 0
             queue data false false) others in
  g_msgroute (SendMsgToAllOtherQueues name data e) =
    g_msgroute e ++ sent ONE_FRAME /\
  g_msgroute (SendMsgToAllOtherQueuesNow name data e) =
    g_msgroute e ++ sent float_zero /\
  g_msgroute (SendMsgDelayedToAllOtherQueues delay name data e) =
    g_msgroute e ++ sent delay /\
  Forall (fun m => msg_queue m <> m_queue e) (sent delay) /\
  length (sent delay) =
    if (0 <=? m_queue e) && (m_queue e <? Z.of_nat STATE_MACHINE_NUM_QUEUES)
    then pred STATE_MACHINE_NUM_QUEUES else STATE_MACHINE_NUM_QUEUES.
Proof.
  cbn zeta. split; [|split; [|split; [|split]]].
  - apply to_all_other_queues_loop.
  - apply to_all_other_queues_loop.
  - apply to_all_other_queues_loop.
  - apply Forall_fmap, Forall_forall. intros q Hin. cbn.
    by apply list_elem_of_filter in Hin as [? _].
  - rewrite length_map. apply length_filter_ne_seqZ.
Qed.

(** X13. [ChangeStateDelayed] and [ChangeSubstateDelayed] request nothing
    now: the pending request and the core members are as before.  While
    changes are allowed they hand the router one message to the machine
    itself, scoped to the state (to the substate) at its current counter,
    with the target as payload; while changes are disallowed they do
    nothing at all. *)
Theorem delayed_change_is_a_scoped_message (delay : float) (n : Z) e :
  core (ChangeStateDelayed delay n e) = core e /\
  core (ChangeSubstateDelayed delay n e) = core e /\
  if m_stateChangeAllowed e then
    g_msgroute (ChangeStateDelayed delay n e) =
      g_msgroute e ++
      [mkMSG delay MSG_CHANGE_STATE_DELAYED (owner_id e) (owner_id e)
         SCOPE_TO_STATE (m_scopeState e) (m_queue e)
         (MSG_Data_int (static_cast_int n)) false false] /\
    g_msgroute (ChangeSubstateDelayed delay n e) =
      g_msgroute e ++
      [mkMSG delay MSG_CHANGE_SUBSTATE_DELAYED (owner_id e) (owner_id e)
         SCOPE_TO_SUBSTATE (m_scopeSubstate e) (m_queue e)
         (MSG_Data_int (static_cast_int n)) false false]
  else
    ChangeStateDelayed delay n e = e /\ ChangeSubstateDelayed delay n e = e.
Proof.
  unfold ChangeStateDelayed, ChangeSubstateDelayed.
  destruct (m_stateChangeAllowed e); done.
Qed.

(** ** State variables *)

Lemma GetStateVariable_lookup (id : Z) (scope : StateVariableScope) e :
  GetStateVariable id scope e =
    if id_in_range id (variables scope e)
    then variables scope e !! Z.to_nat id else None.
Proof. by destruct scope. Qed.

Lemma SetStateVariableInt_variables (value id : Z)
    (scope : StateVariableScope) e e' :
  SetStateVariableInt value id scope e = Some e' ->
  id_in_range id (variables scope e) = true /\
  variables scope e' =
    <[Z.to_nat id := PersistentData_int value]> (variables scope e) /\
  match scope with
  | STATE_VARIABLE_SCOPE => m_substateVariables e' = m_substateVariables e
  | SUBSTATE_VARIABLE_SCOPE => m_stateVariables e' = m_stateVariables e
  end.
Proof.
  unfold SetStateVariableInt.
  destruct scope; simpl bool_decide; cbn iota; cbn [variables];
    destruct (id_in_range _ _); intros H; [|done| |done];
    injection H as <-; done.
Qed.

(** X14. A successful [SetStateVariableInt( value, id, scope )] is read
    back by a get of the same id and scope, leaves every other slot of that
    scope and the whole other scope as they were, and keeps the number of
    slots. *)
Theorem SetStateVariableInt_read_back (value id : Z)
    (scope : StateVariableScope) e e'
    (Hset : SetStateVariableInt value id scope e = Some e') :
  GetStateVariable id scope e' = Some (PersistentData_int value) /\
  (forall id', id' <> id ->
     GetStateVariable id' scope e' = GetStateVariable id' scope e) /\
  (forall id' scope', scope' <> scope ->
     GetStateVariable id' scope' e' = GetStateVariable id' scope' e) /\
  length (variables scope e') = length (variables scope e).
Proof.
  destruct (SetStateVariableInt_variables _ _ _ _ _ Hset) as (Hr & Hv & Ho).
  assert (Hlen : length (variables scope e') = length (variables scope e)).
  { by rewrite Hv, length_insert. }
  assert (Hid : 0 <= id < Z.of_nat (length (variables scope e))).
  { unfold id_in_range in Hr. apply andb_true_iff in Hr as [H1 H2].
    apply Z.leb_le in H1. apply Z.ltb_lt in H2. lia. }
  split; [|split; [|split]].
  - rewrite GetStateVariable_lookup. unfold id_in_range in *.
    rewrite Hlen, Hr, Hv. apply list_lookup_insert_eq. lia.
  - intros id' Hne. rewrite !GetStateVariable_lookup. unfold id_in_range.
    rewrite Hlen.
    destruct ((0 <=? id') && (id' <? Z.of_nat (length (variables scope e))))
      eqn:E; [|done].
    apply andb_true_iff in E as [H1 H2].
    apply Z.leb_le in H1. apply Z.ltb_lt in H2.
    rewrite Hv. apply list_lookup_insert_ne. lia.
  - intros id' scope' Hne. rewrite !GetStateVariable_lookup.
    destruct scope, scope'; try done; cbn [variables] in *; by rewrite Ho.
  - exact Hlen.
Qed.

(** X15. [DeclareVariable] keeps every slot that exists, with its value,
    and the whole other scope; it appends one fresh slot exactly when the
    scope has at most [id] slots.  Declaring again an id that is declared,
    or was the next to declare, changes nothing. *)
Theorem DeclareVariable_keeps_slots (id : Z) (scope : StateVariableScope) e :
  let e' := DeclareVariable id scope e in
  variables scope e' =
    variables scope e ++
    (if Z.of_nat (length (variables scope e)) <=? id
     then [PersistentData_new] else []) /\
  match scope with
  | STATE_VARIABLE_SCOPE => m_substateVariables e' = m_substateVariables e
  | SUBSTATE_VARIABLE_SCOPE => m_stateVariables e' = m_stateVariables e
  end /\
  (forall id', id_in_range id' (variables scope e) = true ->
     GetStateVariable id' scope e' = GetStateVariable id' scope e) /\
  (id <= Z.of_nat (length (variables scope e)) ->
   DeclareVariable id scope e' = e').
Proof.
  cbn zeta.
  assert (Hv : variables scope (DeclareVariable id scope e) =
               variables scope e ++
               (if Z.of_nat (length (variables scope e)) <=? id
                then [PersistentData_new] else [])).
  { rewrite DeclareVariable_variables.
    destruct (_ <=? _); [done|by rewrite app_nil_r]. }
  split; [exact Hv|]. split; [|split].
  - unfold DeclareVariable.
    destruct scope; simpl bool_decide; cbn [andb]; by destruct (_ <=? _).
  - intros id' Hr. rewrite !GetStateVariable_lookup, Hv.
    unfold id_in_range in *. rewrite length_app.
    apply andb_true_iff in Hr as [H1 H2].
    apply Z.leb_le in H1. apply Z.ltb_lt in H2.
    assert (E : (0 <=? id') &&
                (id' <? Z.of_nat
                   (length (variables scope e) +
                    length (if Z.of_nat (length (variables scope e)) <=? id
                            then [PersistentData_new (float := float)]
                            else []))) = true).
    { rewrite andb_true_iff, Z.leb_le, Z.ltb_lt. lia. }
    rewrite E.
    assert (E' : (0 <=? id') &&
                 (id' <? Z.of_nat (length (variables scope e))) = true).
    { rewrite andb_true_iff, Z.leb_le, Z.ltb_lt. lia. }
    rewrite E'. apply lookup_app_l. lia.
  - intros Hle.
    assert (Hgt : (Z.of_nat
                     (length (variables scope (DeclareVariable id scope e)))
                   <=? id) = false).
    { rewrite Hv, length_app. apply Z.leb_gt.
      destruct (Z.leb_spec (Z.of_nat (length (variables scope e))) id);
        cbn [length]; lia. }
    unfold DeclareVariable at 1.
    destruct scope; simpl bool_decide; cbn [andb variables] in *;
      by rewrite Hgt.
Qed.

End Sends.

(** * Properties of the machine manager *)

Section ClearedRequest.

Context {float : Type} `{cfg : HostConfig float}.

Lemma RequestStateMachineChange_defined (mch : StateMachinePtr)
    (change c : StateMachineChange) (p : StateMachinePtr)
    (queue : StateMachineQueue) (m : StateMachineManager) :
  0 <= queue ->
  m_stateMachineChange m !! Z.to_nat queue = Some c ->
  m_newStateMachine m !! Z.to_nat queue = Some p ->
  exists m', RequestStateMachineChange mch change queue m = Some m' /\
    m_stateMachineChange m' !! Z.to_nat queue = Some change /\
    m_newStateMachine m' !! Z.to_nat queue = Some mch.
Proof.
  intros Hq Hc Hp. pose proof (lookup_lt_Some _ _ _ Hc) as Hlc.
  pose proof (lookup_lt_Some _ _ _ Hp) as Hlp.
  unfold RequestStateMachineChange.
  destruct (Z.leb_spec 0 queue); [|lia].
  destruct (Z.ltb_spec queue (Z.of_nat (length (m_stateMachineChange m))));
    [|lia].
  destruct (Z.ltb_spec queue (Z.of_nat (length (m_newStateMachine m))));
    [|lia].
  eexists; split; [reflexivity|]. cbn.
  by rewrite !list_lookup_insert_eq.
Qed.

End ClearedRequest.

Section ManagerProperties.

Import Manager.

Context {float : Type} `{cfg : HostConfig float} {Rest : Type}.
Context `{code : @MachineCode float Rest}.

Implicit Types (w : @World float Rest) (l : list Z).

Ltac ostep := cbv zeta; cbn [mbind option_bind].

Lemma queue_list_set_eq (queue : StateMachineQueue) l l' w :
  queue_list queue w = Some l ->
  queue_list queue (set_queue_list queue l' w) = Some l'.
Proof.
  unfold queue_list, set_queue_list. cbn.
  destruct (0 <=? queue); [|done]. intros H.
  apply list_lookup_insert_eq. by eapply lookup_lt_Some.
Qed.

Lemma queue_list_set_ne (queue other : StateMachineQueue) l' w :
  0 <= queue -> other <> queue ->
  queue_list other (set_queue_list queue l' w) = queue_list other w.
Proof.
  unfold queue_list, set_queue_list. cbn. intros Hq Hne.
  destruct (Z.leb_spec 0 other); [|done].
  apply list_lookup_insert_ne. lia.
Qed.

Lemma queue_list_on_rest (f : Rest -> Rest) (c : Call) (queue : Z) w :
  queue_list queue (on_rest f c w) = queue_list queue w.
Proof. done. Qed.

Lemma queue_list_call_delete (mch queue : Z) w :
  queue_list queue (call_delete mch w) = queue_list queue w.
Proof. done. Qed.

Lemma queue_list_call_SetStateMachineQueue (mch queue queue' : Z) w :
  queue_list queue (call_SetStateMachineQueue mch queue' w) =
  queue_list queue w.
Proof. done. Qed.

Lemma queue_list_call_PurgeScopedMsg (queue queue' : Z) w :
  queue_list queue (call_PurgeScopedMsg queue' w) = queue_list queue w.
Proof. done. Qed.

Lemma queue_list_call_Reset (mch queue : Z) w :
  Reset_keeps_lists ->
  queue_list queue (call_Reset mch w) = queue_list queue w.
Proof.
  intros Hk. unfold queue_list, call_Reset, on_state. cbn. by rewrite Hk.
Qed.

Lemma queue_list_nonneg (queue : StateMachineQueue) l w :
  queue_list queue w = Some l -> 0 <= queue.
Proof.
  unfold queue_list. destruct (Z.leb_spec 0 queue); [done|discriminate].
Qed.

Lemma last_two {A} (l : list A) (x y : A) : last (l ++ [x; y]) = Some y.
Proof. by rewrite last_app. Qed.

Lemma removelast_two {A} (l : list A) (x y : A) :
  removelast (l ++ [x; y]) = l ++ [x].
Proof. by rewrite removelast_app. Qed.

Lemma list_cases {A} (l : list A) :
  l = [] \/ (exists x, l = [x]) \/ exists r y x, l = r ++ [y; x].
Proof.
  destruct l as [|x l _] using rev_ind; [by left|].
  destruct l as [|y l _] using rev_ind; [right; left; by exists x|].
  right; right. exists l, y, x. by rewrite <- app_assoc.
Qed.

Lemma ltb_two_more {A} (r : list A) (y x : A) :
  (1 <? length (r ++ [y; x]))%nat = true.
Proof. rewrite length_app. apply Nat.ltb_lt. cbn. lia. Qed.

(** ** The single operations *)

Lemma PopStateMachine_pops (queue : StateMachineQueue) w r below top :
  Reset_keeps_lists ->
  queue_list queue w = Some (r ++ [below; top]) ->
  PopStateMachine queue w =
    Some (call_Reset below
            (call_delete top (set_queue_list queue (r ++ [below]) w))).
Proof.
  intros Hk Hl. unfold PopStateMachine. rewrite Hl. ostep.
  rewrite ltb_two_more, last_two, removelast_two. ostep.
  rewrite queue_list_call_delete.
  rewrite (queue_list_set_eq _ _ _ _ Hl). ostep.
  by rewrite last_snoc.
Qed.

Lemma PopStateMachine_short (queue : StateMachineQueue) w l :
  queue_list queue w = Some l -> (length l <= 1)%nat ->
  PopStateMachine queue w = Some w.
Proof.
  intros Hl Hle. unfold PopStateMachine. rewrite Hl. ostep.
  by destruct (Nat.ltb_spec 1 (length l)); [lia|].
Qed.

Lemma PushStateMachine_pushes (mch : Z) (queue : StateMachineQueue)
    (initialize : bool) w l :
  queue_list queue w = Some l ->
  PushStateMachine mch queue initialize w =
    Some (let w1 := set_queue_list queue (l ++ [mch])
                      (call_SetStateMachineQueue mch queue w) in
          if initialize then call_Reset mch w1 else w1).
Proof.
  intros Hl. unfold PushStateMachine.
  by rewrite queue_list_call_SetStateMachineQueue, Hl.
Qed.

Lemma QueueStateMachine_queues (mch : Z) (queue : StateMachineQueue) w l :
  queue_list queue w = Some l ->
  QueueStateMachine mch queue w =
    Some (let w1 := call_SetStateMachineQueue mch queue w in
          set_queue_list queue (take 1 l ++ mch :: drop 1 l)
            (if (length l <=? 1)%nat
             then call_SetStateMachineQueue mch queue w1 else w1)).
Proof.
  intros Hl. unfold QueueStateMachine.
  rewrite queue_list_call_SetStateMachineQueue, Hl.
  ostep. destruct (Nat.leb_spec (length l) 1) as [Hle|Hgt]; [|done].
  erewrite PushStateMachine_pushes by (rewrite queue_list_call_SetStateMachineQueue; exact Hl).
  cbv zeta. do 2 f_equal.
  destruct l as [|a [|b l]]; cbn in *; try done; lia.
Qed.

Lemma RequeueStateMachine_rotates (queue : StateMachineQueue) w
    bottom middle top :
  Reset_keeps_lists ->
  queue_list queue w = Some (bottom :: middle ++ [top]) ->
  RequeueStateMachine queue w =
    Some (call_Reset (default top (last middle))
            (set_queue_list queue (bottom :: top :: middle)
               (set_queue_list queue (bottom :: top :: middle ++ [top])
                  (call_SetStateMachineQueue top queue w)))).
Proof.
  intros Hk Hl. unfold RequeueStateMachine. rewrite Hl. ostep.
  assert (Hlen : (1 <? length (bottom :: middle ++ [top]))%nat = true).
  { apply Nat.ltb_lt. cbn. rewrite length_app. cbn. lia. }
  rewrite Hlen.
  assert (Hleb : (length (bottom :: middle ++ [top]) <=? 1)%nat = false).
  { apply Nat.leb_gt. cbn. rewrite length_app. cbn. lia. }
  assert (Hlast : last (bottom :: middle ++ [top]) = Some top).
  { change (bottom :: middle ++ [top]) with ((bottom :: middle) ++ [top]).
    apply last_snoc. }
  rewrite Hlast. ostep.
  rewrite (QueueStateMachine_queues _ _ _ _ Hl). ostep.
  rewrite Hleb. cbn [firstn skipn app]. rewrite ?take_0, ?drop_0. cbn [app].
  erewrite queue_list_set_eq
    by (rewrite queue_list_call_SetStateMachineQueue; exact Hl).
  ostep.
  assert (Hrm : removelast (bottom :: top :: middle ++ [top]) =
                bottom :: top :: middle)
    by apply (removelast_last (bottom :: top :: middle)).
  rewrite !Hrm.
  erewrite queue_list_set_eq
    by (eapply queue_list_set_eq;
        rewrite queue_list_call_SetStateMachineQueue; exact Hl).
  ostep. rewrite !last_cons. by destruct (last middle).
Qed.

Lemma ReplaceStateMachine_replaces (mch : Z) (queue : StateMachineQueue) w l :
  queue_list queue w = Some l ->
  ReplaceStateMachine mch queue w =
    Some (let w1 := call_SetStateMachineQueue mch queue w in
          let w2 := match last l with
                    | Some top =>
                        call_delete top
                          (set_queue_list queue (removelast l) w1)
                    | None => w1
                    end in
          call_Reset mch
            (set_queue_list queue (removelast l ++ [mch])
               (call_SetStateMachineQueue mch queue w2))).
Proof.
  intros Hl. unfold ReplaceStateMachine.
  rewrite queue_list_call_SetStateMachineQueue, Hl.
  ostep. destruct l as [|x l _] using rev_ind.
  - cbn [length Nat.ltb Nat.leb last]. ostep.
    by erewrite PushStateMachine_pushes by (rewrite queue_list_call_SetStateMachineQueue; exact Hl).
  - replace (0 <? length (l ++ [x]))%nat with true
      by (symmetry; apply Nat.ltb_lt; rewrite length_app; cbn; lia).
    rewrite last_snoc, removelast_last. ostep.
    by erewrite PushStateMachine_pushes
      by (rewrite queue_list_call_delete;
          eapply queue_list_set_eq;
          rewrite queue_list_call_SetStateMachineQueue; exact Hl).
Qed.

Lemma ResetStateMachine_resets (queue : StateMachineQueue) w l :
  queue_list queue w = Some l ->
  ResetStateMachine queue w =
    Some (match last l with Some top => call_Reset top w | None => w end).
Proof.
  intros Hl. unfold ResetStateMachine. rewrite Hl. ostep.
  destruct l as [|x l _] using rev_ind; [done|].
  replace (0 <? length (l ++ [x]))%nat with true
    by (symmetry; apply Nat.ltb_lt; rewrite length_app; cbn; lia).
  by rewrite last_snoc.
Qed.

Lemma RequeueStateMachine_short (queue : StateMachineQueue) w l :
  queue_list queue w = Some l -> (length l <= 1)%nat ->
  RequeueStateMachine queue w =
    Some (match l with m :: _ => call_Reset m w | [] => w end).
Proof.
  intros Hl Hle. unfold RequeueStateMachine. rewrite Hl. ostep.
  destruct l as [|m [|b l]]; cbn in Hle; try lia; done.
Qed.

Lemma list_cases3 {A} (l : list A) :
  l = [] \/ (exists m, l = [m]) \/
  exists bottom middle top, l = bottom :: middle ++ [top].
Proof.
  destruct l as [|b l]; [by left|]. right.
  destruct l as [|x l _] using rev_ind; [left; by exists b|].
  right. by exists b, l, x.
Qed.

Lemma requests_call_Reset (mch : Z) w :
  Reset_keeps_requests ->
  requests (state (call_Reset mch w)) = requests (state w).
Proof. intros Hr. apply Hr. Qed.

Lemma requests_call_delete (mch : Z) w :
  requests (state (call_delete mch w)) = requests (state w).
Proof. done. Qed.

Lemma requests_call_SetStateMachineQueue (mch queue : Z) w :
  requests (state (call_SetStateMachineQueue mch queue w)) =
  requests (state w).
Proof. done. Qed.

Lemma requests_call_PurgeScopedMsg (queue : Z) w :
  requests (state (call_PurgeScopedMsg queue w)) = requests (state w).
Proof. done. Qed.

Lemma requests_set_queue_list (queue : Z) l w :
  requests (state (set_queue_list queue l w)) = requests (state w).
Proof. done. Qed.

(** Solves [queue_list queue W = Some _] for a world [W] built from the
    calls and assignments above. *)
Ltac queue_list_of Hk :=
  repeat first
    [ rewrite queue_list_call_Reset by exact Hk
    | rewrite queue_list_call_delete
    | rewrite queue_list_call_SetStateMachineQueue
    | rewrite queue_list_call_PurgeScopedMsg ];
  first [ eassumption | eapply queue_list_set_eq; queue_list_of Hk ].

(** Rewrites the requests of such a world to those it started from. *)
Ltac requests_of Hr :=
  repeat first
    [ rewrite requests_call_Reset by exact Hr
    | rewrite requests_call_delete
    | rewrite requests_call_SetStateMachineQueue
    | rewrite requests_call_PurgeScopedMsg
    | rewrite requests_set_queue_list ].

(** X16.  [PopStateMachine] never empties a queue: with at most one
    machine in the queue it does nothing at all; otherwise it removes and
    deletes the active machine and resets the machine below it, which
    becomes the active one, and no other queue changes. *)
Theorem PopStateMachine_keeps_the_last_machine (queue : StateMachineQueue)
    w l
    (Hk : Reset_keeps_lists)
    (Hl : queue_list queue w = Some l) :
  ((length l <= 1)%nat -> PopStateMachine queue w = Some w) /\
  (forall below_all below top, l = below_all ++ [below; top] ->
     exists w', PopStateMachine queue w = Some w' /\
       queue_list queue w' = Some (below_all ++ [below]) /\
       calls w' = calls w ++ [Call_delete top; Call_Reset below] /\
       forall other, other <> queue ->
         queue_list other w' = queue_list other w).
Proof.
  pose proof (queue_list_nonneg _ _ _ Hl) as Hq.
  split; [by apply PopStateMachine_short|].
  intros below_all below top ->.
  rewrite (PopStateMachine_pops _ _ _ _ _ Hk Hl).
  eexists; split; [reflexivity|]. split; [|split].
  - queue_list_of Hk.
  - cbn. by rewrite <- app_assoc.
  - intros other Hne. rewrite queue_list_call_Reset by done.
    rewrite queue_list_call_delete. by apply queue_list_set_ne.
Qed.

(** X17.  [QueueStateMachine] puts the machine directly above the bottom
    machine (at the end of a queue of at most one machine), runs no
    handler of any machine and leaves the requests alone; in a queue of
    two or more machines the active machine stays the active one. *)
Theorem QueueStateMachine_inserts_above_the_bottom (mch : Z)
    (queue : StateMachineQueue) w l
    (Hl : queue_list queue w = Some l) :
  exists w', QueueStateMachine mch queue w = Some w' /\
    queue_list queue w' = Some (take 1 l ++ mch :: drop 1 l) /\
    calls w' =
      calls w ++ replicate (if (length l <=? 1)%nat then 2 else 1)%nat
                   (Call_SetStateMachineQueue mch queue) /\
    requests (state w') = requests (state w) /\
    ((1 < length l)%nat -> last (take 1 l ++ mch :: drop 1 l) = last l).
Proof.
  rewrite (QueueStateMachine_queues _ _ _ _ Hl). cbv zeta.
  eexists; split; [reflexivity|]. split; [|split; [|split]].
  - eapply queue_list_set_eq.
    destruct (length l <=? 1)%nat;
      rewrite ?queue_list_call_SetStateMachineQueue; exact Hl.
  - destruct (length l <=? 1)%nat; cbn; by rewrite <- ?app_assoc.
  - by destruct (length l <=? 1)%nat.
  - intros Hlen. destruct l as [|a [|b l]]; cbn in Hlen; try lia.
    cbn [firstn skipn app]. rewrite ?take_0, ?drop_0. cbn [app].
    rewrite !last_cons. by destruct (last l).
Qed.

(** X18.  [RequeueStateMachine] moves the active machine directly above
    the bottom machine and resets the machine that is now on top; a queue
    of one machine has that machine reset, an empty queue is left
    alone. *)
Theorem RequeueStateMachine_moves_the_active_machine_down
    (queue : StateMachineQueue) w l
    (Hk : Reset_keeps_lists)
    (Hl : queue_list queue w = Some l) :
  (l = [] -> RequeueStateMachine queue w = Some w) /\
  (forall m, l = [m] ->
     RequeueStateMachine queue w = Some (call_Reset m w)) /\
  (forall bottom middle top, l = bottom :: middle ++ [top] ->
     exists w', RequeueStateMachine queue w = Some w' /\
       queue_list queue w' = Some (bottom :: top :: middle) /\
       calls w' =
         calls w ++ [Call_SetStateMachineQueue top queue;
                     Call_Reset (default top (last middle))]).
Proof.
  split; [|split].
  - intros ->. by rewrite (RequeueStateMachine_short _ _ _ Hl) by (cbn; lia).
  - intros m ->. by rewrite (RequeueStateMachine_short _ _ _ Hl) by (cbn; lia).
  - intros bottom middle top ->.
    rewrite (RequeueStateMachine_rotates _ _ _ _ _ Hk Hl).
    eexists; split; [reflexivity|]. split.
    + queue_list_of Hk.
    + cbn. by rewrite <- app_assoc.
Qed.

(** X19.  Queuing a machine and then requeuing: the machine that was
    active goes directly above the bottom machine, the queued machine
    directly above it; in a queue of two machines the queued machine thus
    becomes the active one and is reset. *)
Theorem QueueStateMachine_then_RequeueStateMachine (mch : Z)
    (queue : StateMachineQueue) w bottom middle top
    (Hk : Reset_keeps_lists)
    (Hl : queue_list queue w = Some (bottom :: middle ++ [top])) :
  exists w1 w2,
    QueueStateMachine mch queue w = Some w1 /\
    RequeueStateMachine queue w1 = Some w2 /\
    queue_list queue w2 = Some (bottom :: top :: mch :: middle) /\
    calls w2 =
      calls w ++ [Call_SetStateMachineQueue mch queue;
                  Call_SetStateMachineQueue top queue;
                  Call_Reset (default mch (last middle))].
Proof.
  rewrite (QueueStateMachine_queues _ _ _ _ Hl). cbv zeta.
  replace (length (bottom :: middle ++ [top]) <=? 1)%nat with false
    by (symmetry; apply Nat.leb_gt; cbn; rewrite length_app; cbn; lia).
  cbn [firstn skipn app]. rewrite ?take_0, ?drop_0. cbn [app].
  eexists _, _; split; [reflexivity|].
  assert (Hl1 : queue_list queue
                  (set_queue_list queue (bottom :: (mch :: middle) ++ [top])
                     (call_SetStateMachineQueue mch queue w)) =
                Some (bottom :: (mch :: middle) ++ [top]))
    by queue_list_of Hk.
  split; [exact (RequeueStateMachine_rotates _ _ _ _ _ Hk Hl1)|]. split.
  - queue_list_of Hk.
  - cbn [calls call_Reset on_state set_queue_list call_SetStateMachineQueue
         on_rest].
    rewrite <- !app_assoc. cbn [app]. do 4 f_equal.
    rewrite last_cons. by destruct (last middle).
Qed.

(** X20.  [ReplaceStateMachine] deletes the active machine, if there is
    one, puts the new machine in its place and resets it: the machines
    below are untouched. *)
Theorem ReplaceStateMachine_swaps_the_active_machine (mch : Z)
    (queue : StateMachineQueue) w l
    (Hk : Reset_keeps_lists)
    (Hl : queue_list queue w = Some l) :
  exists w', ReplaceStateMachine mch queue w = Some w' /\
    queue_list queue w' = Some (removelast l ++ [mch]) /\
    calls w' =
      calls w ++ [Call_SetStateMachineQueue mch queue] ++
      match last l with Some top => [Call_delete top] | None => [] end ++
      [Call_SetStateMachineQueue mch queue; Call_Reset mch].
Proof.
  rewrite (ReplaceStateMachine_replaces _ _ _ _ Hl). cbv zeta.
  eexists; split; [reflexivity|]. split.
  - destruct (last l); queue_list_of Hk.
  - destruct (last l); cbn; by rewrite <- !app_assoc.
Qed.

(** X21.  Pushing a machine on a queue that is not empty and popping it
    again restores the queue; the pushed machine was reset and is deleted,
    and the machine that was active is reset, not resumed. *)
Theorem PushStateMachine_then_PopStateMachine (mch : Z)
    (queue : StateMachineQueue) w below_all top
    (Hk : Reset_keeps_lists)
    (Hl : queue_list queue w = Some (below_all ++ [top])) :
  exists w1 w2,
    PushStateMachine mch queue true w = Some w1 /\
    PopStateMachine queue w1 = Some w2 /\
    queue_list queue w2 = Some (below_all ++ [top]) /\
    calls w2 =
      calls w ++ [Call_SetStateMachineQueue mch queue; Call_Reset mch;
                  Call_delete mch; Call_Reset top].
Proof.
  rewrite (PushStateMachine_pushes _ _ _ _ _ Hl). cbv zeta.
  eexists _, _; split; [reflexivity|].
  assert (Hl1 : queue_list queue
                  (call_Reset mch
                     (set_queue_list queue ((below_all ++ [top]) ++ [mch])
                        (call_SetStateMachineQueue mch queue w))) =
                Some (below_all ++ [top; mch])).
  { rewrite <- app_assoc. queue_list_of Hk. }
  split; [exact (PopStateMachine_pops _ _ _ _ _ Hk Hl1)|]. split.
  - queue_list_of Hk.
  - cbn. by rewrite <- !app_assoc.
Qed.

(** ** The loops over a queue and over the queues *)

Lemma delete_loop_deletes (queue : StateMachineQueue) l : forall w,
  queue_list queue w = Some l ->
  exists w', delete_loop (length l) queue w = Some w' /\
    m_stateMachineList (state w') =
      <[Z.to_nat queue := []]> (m_stateMachineList (state w)) /\
    calls w' = calls w ++ map Call_delete (reverse l) /\
    requests (state w') = requests (state w).
Proof.
  induction l as [|x l IH] using rev_ind; intros w Hl.
  - exists w. cbn. rewrite app_nil_r. repeat split.
    symmetry. apply list_insert_id.
    unfold queue_list in Hl. by destruct (0 <=? queue).
  - rewrite length_app, Nat.add_1_r. cbn [delete_loop]. rewrite Hl. ostep.
    rewrite last_snoc, removelast_last.
    destruct (IH (call_delete x (set_queue_list queue l w)))
      as (w' & -> & Hlists & Hcalls & Hreqs).
    { rewrite queue_list_call_delete. by eapply queue_list_set_eq. }
    exists w'. split; [done|]. split; [|split].
    + rewrite Hlists. cbn. apply list_insert_insert_eq.
    + rewrite Hcalls, reverse_snoc. cbn. by rewrite <- app_assoc.
    + by rewrite Hreqs.
Qed.

Lemma for_queues_app (qs1 qs2 : list Z) body w :
  for_queues qs1 body w ≫= for_queues qs2 body =
  for_queues (qs1 ++ qs2) body w.
Proof.
  revert w. induction qs1 as [|q qs1 IH]; intros w; [done|].
  cbn [for_queues app]. destruct (body q w) as [w1|]; [|done].
  ostep. apply IH.
Qed.

Lemma queue_list_of_nat (n : nat) w :
  queue_list (Z.of_nat n) w = m_stateMachineList (state w) !! n.
Proof.
  unfold queue_list. rewrite Nat2Z.id.
  by destruct (Z.leb_spec 0 (Z.of_nat n)); [|lia].
Qed.

Lemma delete_queues_prefix (n : nat) w :
  (n <= length (m_stateMachineList (state w)))%nat ->
  exists w', for_queues (seqZ 0 (Z.of_nat n)) delete_queue w = Some w' /\
    m_stateMachineList (state w') =
      replicate n [] ++ drop n (m_stateMachineList (state w)) /\
    calls w' =
      calls w ++
      concat (map (fun l => map Call_delete (reverse l))
                (take n (m_stateMachineList (state w)))) /\
    requests (state w') = requests (state w).
Proof.
  induction n as [|n IH]; intros Hn.
  - exists w. cbn. rewrite drop_0, app_nil_r. done.
  - destruct IH as (w1 & Hfor & Hlists & Hcalls & Hreqs); [lia|].
    destruct (lookup_lt_is_Some_2 (m_stateMachineList (state w)) n)
      as [ln Hln]; [lia|].
    assert (Hq : queue_list (Z.of_nat n) w1 = Some ln).
    { rewrite queue_list_of_nat, Hlists, lookup_app_r
        by (rewrite length_replicate; lia).
      rewrite length_replicate, Nat.sub_diag, lookup_drop, Nat.add_0_r.
      exact Hln. }
    destruct (delete_loop_deletes _ _ _ Hq)
      as (w2 & Hloop & Hlists2 & Hcalls2 & Hreqs2).
    exists w2. split; [|split; [|split]].
    + rewrite seqZ_S, <- for_queues_app, Hfor. ostep.
      rewrite Z.add_0_l. cbn [for_queues]. unfold delete_queue.
      rewrite Hq. ostep. rewrite Hloop. done.
    + rewrite Hlists2, Hlists, Nat2Z.id.
      rewrite insert_app_r_alt by (rewrite length_replicate; lia).
      rewrite length_replicate, Nat.sub_diag.
      rewrite (drop_S _ _ _ Hln). cbn [insert list_insert].
      rewrite replicate_S_end, <- app_assoc. done.
    + rewrite Hcalls2, Hcalls, (take_S_r _ _ _ Hln), map_app, concat_app.
      cbn. by rewrite app_nil_r, <- app_assoc.
    + by rewrite Hreqs2.
Qed.

(** X22.  [DeleteStateMachineQueue] on one queue deletes every machine of
    the queue, the active one first and the bottom one last, leaves the
    queue empty and touches neither the other queues nor the pending
    requests. *)
Theorem DeleteStateMachineQueue_deletes_top_down
    (queue : StateMachineQueue) w l
    (Hone : queue <> STATE_MACHINE_QUEUE_ALL)
    (Hvalid : queue < Z.of_nat STATE_MACHINE_NUM_QUEUES)
    (Hl : queue_list queue w = Some l) :
  exists w', DeleteStateMachineQueue queue w = Some w' /\
    queue_list queue w' = Some [] /\
    calls w' = calls w ++ map Call_delete (reverse l) /\
    requests (state w') = requests (state w) /\
    forall other, other <> queue ->
      queue_list other w' = queue_list other w.
Proof.
  pose proof (queue_list_nonneg _ _ _ Hl) as Hq.
  destruct (delete_loop_deletes _ _ _ Hl) as (w' & Hloop & Hlists & Hc & Hr).
  exists w'. split; [|split; [|split; [|split]]]; try done.
  - unfold DeleteStateMachineQueue, delete_queue.
    destruct (Z.eqb_spec queue STATE_MACHINE_QUEUE_ALL); [done|].
    destruct (Z.ltb_spec queue (Z.of_nat STATE_MACHINE_NUM_QUEUES)); [|lia].
    by rewrite Hl.
  - unfold queue_list in *. rewrite Hlists.
    destruct (0 <=? queue); [|done].
    apply list_lookup_insert_eq. by eapply lookup_lt_Some.
  - intros other Hne. unfold queue_list. rewrite Hlists.
    destruct (Z.leb_spec 0 other); [|done].
    apply list_lookup_insert_ne. lia.
Qed.

(** X23.  [DeleteStateMachineQueue] on [STATE_MACHINE_QUEUE_ALL] empties
    every queue, deleting the machines queue by queue and top down within
    each queue. *)
Theorem DeleteStateMachineQueue_all_empties_every_queue w
    (Hlen : length (m_stateMachineList (state w)) =
            STATE_MACHINE_NUM_QUEUES) :
  exists w', DeleteStateMachineQueue STATE_MACHINE_QUEUE_ALL w = Some w' /\
    m_stateMachineList (state w') = replicate STATE_MACHINE_NUM_QUEUES [] /\
    calls w' =
      calls w ++
      concat (map (fun l => map Call_delete (reverse l))
                (m_stateMachineList (state w))) /\
    requests (state w') = requests (state w).
Proof.
  destruct (delete_queues_prefix STATE_MACHINE_NUM_QUEUES w)
    as (w' & Hfor & Hlists & Hcalls & Hreqs); [lia|].
  exists w'. split; [|split; [|split]]; try done.
  - unfold DeleteStateMachineQueue. by rewrite Z.eqb_refl.
  - rewrite Hlists, <- Hlen, drop_all. by rewrite app_nil_r.
  - by rewrite Hcalls, <- Hlen, firstn_all.
Qed.

Lemma process_queues_prefix (event : State_Machine_Event)
    (msg : option (@MSG_Object float)) (n : nat) w :
  Process_keeps_lists ->
  (n <= length (m_stateMachineList (state w)))%nat ->
  exists w',
    for_queues (seqZ 0 (Z.of_nat n)) (Process_queue event msg) w = Some w' /\
    m_stateMachineList (state w') = m_stateMachineList (state w) /\
    calls w' =
      calls w ++
      concat (map (delivery event msg)
                (take n (m_stateMachineList (state w)))).
Proof.
  intros Hk. induction n as [|n IH]; intros Hn.
  - exists w. cbn. by rewrite app_nil_r.
  - destruct IH as (w1 & Hfor & Hlists & Hcalls); [lia|].
    destruct (lookup_lt_is_Some_2 (m_stateMachineList (state w)) n)
      as [ln Hln]; [lia|].
    assert (Hq : queue_list (Z.of_nat n) w1 = Some ln)
      by (by rewrite queue_list_of_nat, Hlists).
    rewrite seqZ_S, <- for_queues_app, Hfor. ostep.
    rewrite Z.add_0_l. cbn [for_queues]. unfold Process_queue at 1.
    rewrite Hq. ostep.
    rewrite (take_S_r _ _ _ Hln), map_app, concat_app.
    unfold delivery at 2.
    destruct ln as [|x ln _] using rev_ind.
    + cbn [length Nat.ltb Nat.leb last]. ostep.
      exists w1. cbn. by rewrite !app_nil_r.
    + replace (0 <? length (ln ++ [x]))%nat with true
        by (symmetry; apply Nat.ltb_lt; rewrite length_app; cbn; lia).
      rewrite last_snoc. ostep. eexists; split; [reflexivity|]. split.
      * cbn. by rewrite Hk.
      * cbn. by rewrite last_snoc, Hcalls, app_nil_r, <- app_assoc.
Qed.

(** X24.  An event processed for [STATE_MACHINE_QUEUE_ALL] reaches the
    active machine of every queue that is not empty, once and in queue
    order, and no machine below an active one; [SendMsg] is that for
    [EVENT_Message]. *)
Theorem Process_all_reaches_each_active_machine
    (event : State_Machine_Event) (msg : option (@MSG_Object float)) w
    (Hk : Process_keeps_lists)
    (Hall : Z.of_nat STATE_MACHINE_NUM_QUEUES <= STATE_MACHINE_QUEUE_ALL)
    (Hlen : length (m_stateMachineList (state w)) =
            STATE_MACHINE_NUM_QUEUES) :
  (exists w', Process event msg STATE_MACHINE_QUEUE_ALL w = Some w' /\
     calls w' =
       calls w ++
       concat (map (delivery event msg) (m_stateMachineList (state w)))) /\
  (forall m, SendMsg m w =
             Process EVENT_Message (Some m) STATE_MACHINE_QUEUE_ALL w).
Proof.
  assert (Hproc : forall ev ms,
            Process ev ms STATE_MACHINE_QUEUE_ALL w =
            for_queues all_queues (Process_queue ev ms) w).
  { intros ev ms. unfold Process.
    destruct (Z.ltb_spec STATE_MACHINE_QUEUE_ALL
                (Z.of_nat STATE_MACHINE_NUM_QUEUES)); [lia|].
    by rewrite Z.eqb_refl. }
  split; [|intros m; by rewrite Hproc].
  destruct (process_queues_prefix event msg STATE_MACHINE_NUM_QUEUES w Hk)
    as (w' & Hfor & _ & Hcalls); [lia|].
  exists w'. split; [by rewrite Hproc|].
  by rewrite Hcalls, <- Hlen, firstn_all.
Qed.

(** ** Change requests *)

Lemma requests_loop_S (n : nat) (change : StateMachineChange)
    (tmp : StateMachinePtr) (queue : StateMachineQueue) w :
  requests_loop (S n) change tmp queue w =
  match change with
  | NO_STATE_MACHINE_CHANGE => Some w
  | _ =>
      w ← RequestStateMachineChange None NO_STATE_MACHINE_CHANGE queue w;
      w ← apply_change change tmp queue w;
      next ← pending queue w;
      requests_loop n next.1 next.2 queue w
  end.
Proof. reflexivity. Qed.

Lemma RequestStateMachineChange_world (mch : StateMachinePtr)
    (change : StateMachineChange) (queue : StateMachineQueue) w w1 :
  RequestStateMachineChange mch change queue w = Some w1 ->
  m_stateMachineList (state w1) = m_stateMachineList (state w) /\
  calls w1 = calls w.
Proof.
  unfold RequestStateMachineChange.
  match goal with |- context [mbind _ ?x] => destruct x end;
    [|discriminate].
  by intros [= <-].
Qed.

Lemma RequestStateMachineChange_clears (queue : StateMachineQueue) w
    (first : StateMachineChange * StateMachinePtr) :
  pending queue w = Some first ->
  exists w1,
    RequestStateMachineChange None NO_STATE_MACHINE_CHANGE queue w = Some w1 /\
    pending queue w1 = Some (NO_STATE_MACHINE_CHANGE, None).
Proof.
  unfold pending, RequestStateMachineChange.
  destruct (Z.leb_spec 0 queue) as [Hq|]; [|discriminate].
  destruct (m_stateMachineChange (requests (state w)) !! Z.to_nat queue)
    as [c|] eqn:Hc; [|discriminate].
  destruct (m_newStateMachine (requests (state w)) !! Z.to_nat queue)
    as [m|] eqn:Hm; [|discriminate].
  intros _.
  destruct (RequestStateMachineChange_defined None NO_STATE_MACHINE_CHANGE
              _ _ _ _ Hq Hc Hm) as (m' & -> & Hc' & Hm').
  eexists; split; [reflexivity|]. cbn. by rewrite Hc', Hm'.
Qed.

Lemma pending_requests (queue : StateMachineQueue) w w' :
  requests (state w') = requests (state w) ->
  pending queue w' = pending queue w.
Proof. unfold pending. by intros ->. Qed.

Lemma apply_change_keeps (change : StateMachineChange)
    (tmp : StateMachinePtr) (queue : StateMachineQueue) w w' l :
  Reset_keeps_lists ->
  queue_list queue w = Some l ->
  apply_change change tmp queue w = Some w' ->
  exists l', queue_list queue w' = Some l' /\
    (l <> [] -> l' <> []) /\
    (Reset_keeps_requests -> requests (state w') = requests (state w)).
Proof.
  intros Hk Hl. destruct change; cbn [apply_change]; cbv zeta.
  - (* nothing *)
    intros [= <-]. by exists l.
  - (* reset *)
    erewrite ResetStateMachine_resets by queue_list_of Hk.
    intros [= <-]. exists l. split; [|split; [done|]].
    + destruct (last l); queue_list_of Hk.
    + intros Hr. destruct (last l); by requests_of Hr.
  - (* replace *)
    destruct tmp as [mch|]; [|discriminate]. ostep.
    erewrite ReplaceStateMachine_replaces by queue_list_of Hk.
    cbv zeta. intros [= <-]. exists (removelast l ++ [mch]).
    split; [|split].
    + destruct (last l); queue_list_of Hk.
    + intros _. by destruct (removelast l).
    + intros Hr. destruct (last l); by requests_of Hr.
  - (* queue *)
    destruct tmp as [mch|]; [|discriminate]. ostep.
    erewrite QueueStateMachine_queues by queue_list_of Hk.
    cbv zeta. intros [= <-]. exists (take 1 l ++ mch :: drop 1 l).
    split; [|split].
    + destruct (length l <=? 1)%nat; queue_list_of Hk.
    + intros _. by destruct (take 1 l).
    + intros Hr. destruct (length l <=? 1)%nat; by requests_of Hr.
  - (* requeue *)
    destruct (list_cases3 l) as [->|[[m ->]|(b & mid & top & ->)]].
    + erewrite RequeueStateMachine_short
        by (try queue_list_of Hk; cbn; lia).
      intros [= <-]. exists []. split; [queue_list_of Hk|done].
    + erewrite RequeueStateMachine_short
        by (try queue_list_of Hk; cbn; lia).
      intros [= <-]. exists [m]. split; [queue_list_of Hk|].
      split; [done|]. intros Hr. by requests_of Hr.
    + erewrite RequeueStateMachine_rotates by (try queue_list_of Hk; done).
      intros [= <-]. exists (b :: top :: mid). split; [queue_list_of Hk|].
      split; [done|]. intros Hr. by requests_of Hr.
  - (* push *)
    destruct tmp as [mch|]; [|discriminate]. ostep.
    erewrite PushStateMachine_pushes by queue_list_of Hk.
    cbv zeta. intros [= <-]. exists (l ++ [mch]).
    split; [queue_list_of Hk|]. split; [intros _; by destruct l|].
    intros Hr. by requests_of Hr.
  - (* pop *)
    destruct (list_cases l) as [->|[[m ->]|(r & y & x & ->)]].
    + erewrite PopStateMachine_short by (try queue_list_of Hk; cbn; lia).
      intros [= <-]. exists []. split; [queue_list_of Hk|done].
    + erewrite PopStateMachine_short by (try queue_list_of Hk; cbn; lia).
      intros [= <-]. exists [m]. split; [queue_list_of Hk|done].
    + erewrite PopStateMachine_pops by (try queue_list_of Hk; done).
      intros [= <-]. exists (r ++ [y]). split; [queue_list_of Hk|].
      split; [intros _; by destruct r|]. intros Hr. by requests_of Hr.
Qed.

Lemma apply_change_defined (change : StateMachineChange)
    (tmp : StateMachinePtr) (queue : StateMachineQueue) w l :
  Reset_keeps_lists ->
  queue_list queue w = Some l ->
  (tmp = None ->
   change <> STATE_MACHINE_REPLACE /\ change <> STATE_MACHINE_QUEUE /\
   change <> STATE_MACHINE_PUSH) ->
  is_Some (apply_change change tmp queue w).
Proof.
  intros Hk Hl Htmp. destruct change; cbn [apply_change]; cbv zeta.
  - done.
  - by erewrite ResetStateMachine_resets by queue_list_of Hk.
  - destruct tmp as [mch|]; [|by destruct Htmp]. ostep.
    by erewrite ReplaceStateMachine_replaces by queue_list_of Hk.
  - destruct tmp as [mch|]; [|by destruct Htmp as (_ & ? & _)]. ostep.
    by erewrite QueueStateMachine_queues by queue_list_of Hk.
  - destruct (list_cases3 l) as [->|[[m ->]|(b & mid & top & ->)]].
    + by erewrite RequeueStateMachine_short
        by (try queue_list_of Hk; cbn; lia).
    + by erewrite RequeueStateMachine_short
        by (try queue_list_of Hk; cbn; lia).
    + by erewrite RequeueStateMachine_rotates
        by (try queue_list_of Hk; done).
  - destruct tmp as [mch|]; [|by destruct Htmp as (_ & _ & ?)]. ostep.
    by erewrite PushStateMachine_pushes by queue_list_of Hk.
  - destruct (list_cases l) as [->|[[m ->]|(r & y & x & ->)]].
    + by erewrite PopStateMachine_short by (try queue_list_of Hk; cbn; lia).
    + by erewrite PopStateMachine_short by (try queue_list_of Hk; cbn; lia).
    + by erewrite PopStateMachine_pops by (try queue_list_of Hk; done).
Qed.



(** X25.  A pending request is cleared and then applied; when it needs a
    machine and has one, and no [Reset] handler requests a further change,
    the processing ends after this one change with nothing pending. *)
Theorem ProcessStateMachineChangeRequests_applies_the_request
    (queue : StateMachineQueue) w l (change : StateMachineChange)
    (tmp : StateMachinePtr)
    (Hk : Reset_keeps_lists)
    (Hr : Reset_keeps_requests)
    (Hl : queue_list queue w = Some l)
    (Hp : pending queue w = Some (change, tmp))
    (Htmp : tmp = None ->
            change <> STATE_MACHINE_REPLACE /\
            change <> STATE_MACHINE_QUEUE /\
            change <> STATE_MACHINE_PUSH) :
  exists w1 w',
    RequestStateMachineChange None NO_STATE_MACHINE_CHANGE queue w = Some w1 /\
    apply_change change tmp queue w1 = Some w' /\
    ProcessStateMachineChangeRequests queue w =
      Some (if decide (change = NO_STATE_MACHINE_CHANGE) then w else w') /\
    pending queue w' = Some (NO_STATE_MACHINE_CHANGE, None).
Proof.
  destruct (RequestStateMachineChange_clears _ _ _ Hp) as (w1 & Hclear & Hp1).
  pose proof (RequestStateMachineChange_world _ _ _ _ _ Hclear) as [Hlists _].
  assert (Hl1 : queue_list queue w1 = Some l)
    by (unfold queue_list in *; by rewrite Hlists).
  destruct (apply_change_defined change tmp queue w1 l Hk Hl1 Htmp)
    as [w' Happly].
  destruct (apply_change_keeps _ _ _ _ _ _ Hk Hl1 Happly) as (_ & _ & _ & Hreq).
  assert (Hp' : pending queue w' = Some (NO_STATE_MACHINE_CHANGE, None))
    by (by rewrite (pending_requests _ _ _ (Hreq Hr))).
  exists w1, w'. split; [done|]. split; [done|]. split; [|done].
  unfold ProcessStateMachineChangeRequests. rewrite Hp. ostep.
  change 20%nat with (S 19). rewrite requests_loop_S. cbn [fst snd].
  rewrite Hclear. ostep. rewrite Happly. ostep. rewrite Hp'. ostep.
  cbn [fst snd]. rewrite (requests_loop_S 18).
  by destruct change.
Qed.


End ManagerProperties.

(** * The further properties on the demo machines and the demo manager *)

#[local] Existing Instance demo_config.
#[local] Existing Instance demo_code.

Lemma probing_machine_keeps_core : keeps_core probing_machine.
Proof. intros ev m q r e. destruct ev; reflexivity. Qed.

Lemma probing_machine_keeps_owner ev m q r (e : Env (float := Z)) :
  owner_marked (States (StateMachineClass := probing_machine) ev m q r e).2 =
  owner_marked e.
Proof. destruct ev; reflexivity. Qed.

Lemma ticking_machine_Update m q r (e : Env (float := Z)) :
  m_currentState
    (States (StateMachineClass := ticking_machine) EVENT_Update m q r e).2 =
    m_currentState e /\
  m_registeredEvents
    (States (StateMachineClass := ticking_machine) EVENT_Update m q r e).2 =
    m_registeredEvents e.
Proof.
  cbn. destruct (_ && _); cbn; [|done].
  unfold ChangeState. by destruct (m_stateChangeAllowed e).
Qed.

Lemma demo_code_keeps_lists : Manager.Reset_keeps_lists.
Proof. intros mch s. reflexivity. Qed.

Lemma demo_code_keeps_requests : Manager.Reset_keeps_requests.
Proof. intros mch s. reflexivity. Qed.

Lemma demo_code_Process_keeps_lists : Manager.Process_keeps_lists.
Proof. intros mch ev msg s. reflexivity. Qed.

Lemma transition_exits_probes_enters_witness :
  let w := lift (ChangeState 1) demo_world in
  (forall m q r e,
     m_currentState
       (States (StateMachineClass := probing_machine) EVENT_Probe m q r e).2 =
       m_currentState e /\
     m_currentSubstate
       (States (StateMachineClass := probing_machine) EVENT_Probe m q r e).2 =
       m_currentSubstate e) /\
  exists exits q r h enters,
    w_calls (PerformStateChanges_iteration (machine := probing_machine) w) =
      w_calls w ++ exits ++ mkCall EVENT_Probe q r h :: enters /\
    Forall (fun c => call_event c = EVENT_Exit) exits /\
    (length exits <= 2)%nat /\
    (enters = [] \/ exists h', enters = [mkCall EVENT_Enter q r h']).
Proof.
  assert (Hkeep : forall m q r (e : Env (float := Z)),
            m_currentState
              (States (StateMachineClass := probing_machine)
                 EVENT_Probe m q r e).2 = m_currentState e /\
            m_currentSubstate
              (States (StateMachineClass := probing_machine)
                 EVENT_Probe m q r e).2 = m_currentSubstate e)
    by (intros; split; reflexivity).
  split; [exact Hkeep|].
  exact (transition_exits_probes_enters (machine := probing_machine)
           (lift (ChangeState 1) demo_world) Hkeep).
Defined.

Lemma ChangeState_applied_witness :
  let e := w_env demo_world in
  let e' :=
    w_env (PerformStateChanges (machine := probing_machine)
             (lift (ChangeState 3) demo_world)) in
  keeps_core probing_machine /\
  m_stateChangeAllowed e = true /\
  m_currentState e' = 3 /\ m_currentSubstate e' = -1 /\
  m_stack e' = pushed (m_stack e) (m_currentState e) /\
  m_scopeState e' = uint_incr (m_scopeState e) /\
  m_scopeSubstate e' = uint_incr (m_scopeSubstate e) /\
  m_stateVariables e' = [] /\ m_substateVariables e' = [] /\
  m_stateChange e' = NO_STATE_CHANGE /\ m_stateChangeAllowed e' = true.
Proof.
  split; [exact probing_machine_keeps_core|]. split; [reflexivity|].
  exact (ChangeState_applied (machine := probing_machine) 3 demo_world
           probing_machine_keeps_core eq_refl).
Defined.

Lemma ChangeSubstate_applied_witness :
  let e := w_env demo_world in
  let e' :=
    w_env (PerformStateChanges (machine := probing_machine)
             (lift (ChangeSubstate 2) demo_world)) in
  keeps_core probing_machine /\
  m_stateChangeAllowed e = true /\
  0 <= 2 < 2 ^ 31 /\
  m_currentState e' = m_currentState e /\ m_currentSubstate e' = 2 /\
  m_stack e' = m_stack e /\
  m_scopeState e' = m_scopeState e /\
  m_scopeSubstate e' = uint_incr (m_scopeSubstate e) /\
  m_stateVariables e' = m_stateVariables e /\ m_substateVariables e' = [] /\
  m_stateChange e' = NO_STATE_CHANGE /\ m_stateChangeAllowed e' = true.
Proof.
  split; [exact probing_machine_keeps_core|]. split; [reflexivity|].
  split; [lia|].
  exact (ChangeSubstate_applied (machine := probing_machine) 2 demo_world
           probing_machine_keeps_core eq_refl ltac:(lia)).
Defined.

Lemma PopState_applied_witness :
  let w :=
    PerformStateChanges (machine := probing_machine)
      (lift (ChangeState 3) demo_world) in
  let e := w_env w in
  let e' :=
    w_env (PerformStateChanges (machine := probing_machine)
             (lift PopState w)) in
  keeps_core probing_machine /\
  m_stateChangeAllowed e = true /\
  m_stack e = [] ++ [0] /\
  m_currentState e' = 0 /\ m_currentSubstate e' = -1 /\
  m_stack e' = [] /\
  m_scopeSubstate e' = uint_incr (m_scopeSubstate e) /\
  m_substateVariables e' = [] /\
  m_stateChange e' = NO_STATE_CHANGE /\ m_stateChangeAllowed e' = true.
Proof.
  split; [exact probing_machine_keeps_core|]. split; [reflexivity|].
  split; [reflexivity|].
  exact (PopState_applied (machine := probing_machine) [] 0
           (PerformStateChanges (machine := probing_machine)
              (lift (ChangeState 3) demo_world))
           probing_machine_keeps_core eq_refl eq_refl).
Defined.

Lemma ChangeState_PopState_round_trip_witness :
  let e := w_env demo_world in
  let e' :=
    w_env (PerformStateChanges (machine := probing_machine)
             (lift PopState
                (PerformStateChanges (machine := probing_machine)
                   (lift (ChangeState 3) demo_world)))) in
  keeps_core probing_machine /\
  m_stateChangeAllowed e = true /\
  m_currentState e' = m_currentState e /\ m_currentSubstate e' = -1 /\
  m_stack e' =
    (if (length (m_stack e) <? MAX_STATE_STACK_SIZE)%nat then m_stack e
     else tail (m_stack e)) /\
  m_stateChange e' = NO_STATE_CHANGE.
Proof.
  split; [exact probing_machine_keeps_core|]. split; [reflexivity|].
  exact (ChangeState_PopState_round_trip (machine := probing_machine) 3
           demo_world probing_machine_keeps_core eq_refl).
Defined.

Lemma scoped_send_after_ChangeState_captures_old_scope_witness :
  let w := demo_world in
  let e := w_env w in
  let to_state := SendMsgToState 5 MSG_Data_none (ChangeState 3 e) in
  let to_substate := SendMsgToSubstate 5 MSG_Data_none (ChangeState 3 e) in
  keeps_core probing_machine /\
  m_stateChangeAllowed e = true /\
  g_msgroute to_state =
    g_msgroute e ++
    [mkMSG ONE_FRAME 5 (owner_id e) (owner_id e) SCOPE_TO_STATE
       (m_scopeState e) (m_queue e) MSG_Data_none false false] /\
  g_msgroute to_substate =
    g_msgroute e ++
    [mkMSG ONE_FRAME 5 (owner_id e) (owner_id e) SCOPE_TO_SUBSTATE
       (m_scopeSubstate e) (m_queue e) MSG_Data_none false false] /\
  m_scopeState
    (w_env (PerformStateChanges (machine := probing_machine)
              (mkWorld to_state (w_calls w)))) <>
    m_scopeState e /\
  m_scopeSubstate
    (w_env (PerformStateChanges (machine := probing_machine)
              (mkWorld to_substate (w_calls w)))) <>
    m_scopeSubstate e.
Proof.
  split; [exact probing_machine_keeps_core|]. split; [reflexivity|].
  exact (scoped_send_after_ChangeState_captures_old_scope
           (machine := probing_machine) 3 5 MSG_Data_none demo_world
           probing_machine_keeps_core eq_refl).
Defined.

Lemma Reset_enters_state_zero_witness :
  let w := lift (ChangeState 3) demo_world in
  keeps_core probing_machine /\
  (forall ev m q r e,
     owner_marked
       (States (StateMachineClass := probing_machine) ev m q r e).2 =
     owner_marked e) /\
  owner_marked (w_env w) = false /\
  exists probed entered,
    w_calls (Reset (machine := probing_machine) w) =
      w_calls w ++ probed ++ entered /\
    walks_ladder EVENT_Probe (ladder 0 (-1)) probed /\
    walks_ladder EVENT_Enter (ladder 0 (-1)) entered /\
    core (w_env (Reset (machine := probing_machine) w)) =
      (0, 0, 0, -1, NO_STATE_CHANGE, 0, 0, true, [], [], []).
Proof.
  split; [exact probing_machine_keeps_core|].
  split; [exact probing_machine_keeps_owner|]. split; [reflexivity|].
  exact (Reset_enters_state_zero (machine := probing_machine)
           (lift (ChangeState 3) demo_world) probing_machine_keeps_core
           probing_machine_keeps_owner eq_refl).
Defined.

Lemma marked_for_deletion_is_not_dispatched_witness :
  let w := lift (set_owner_marked true) demo_world in
  owner_marked (w_env w) = true /\
  Process (machine := probing_machine) EVENT_Message (Some demo_msg) w = w /\
  Update (machine := probing_machine) w = w /\
  Reset (machine := probing_machine) w = lift Initialize w.
Proof.
  split; [reflexivity|].
  exact (marked_for_deletion_is_not_dispatched (machine := probing_machine)
           EVENT_Message (Some demo_msg)
           (lift (set_owner_marked true) demo_world) eq_refl).
Defined.

Lemma Update_walks_registered_rungs_witness :
  let w := Reset (machine := ticking_machine) demo_world in
  (forall m q r e,
     m_currentState
       (States (StateMachineClass := ticking_machine) EVENT_Update m q r e).2 =
       m_currentState e /\
     m_registeredEvents
       (States (StateMachineClass := ticking_machine) EVENT_Update m q r e).2 =
       m_registeredEvents e) /\
  has_bits (m_registeredEvents (w_env w)) REGISTERED_EVENT_UPDATE = true /\
  owner_marked (w_env w) = false /\
  exists w1 new,
    Update (machine := ticking_machine) w =
      PerformStateChanges (machine := ticking_machine) w1 /\
    w_calls w1 = w_calls w ++ new /\
    walks_ladder EVENT_Update
      (update_ladder (m_registeredEvents (w_env w))
         (static_cast_int (m_currentState (w_env w)))
         (m_currentSubstate (w_env w))) new.
Proof.
  split; [exact ticking_machine_Update|]. split; [reflexivity|].
  split; [reflexivity|].
  exact (Update_walks_registered_rungs (machine := ticking_machine)
           (Reset (machine := ticking_machine) demo_world)
           ticking_machine_Update eq_refl eq_refl).
Defined.

Lemma timers_wait_at_least_one_frame_witness :
  let e := demo_env in
  let d := if float_lt 0 ONE_FRAME then ONE_FRAME else 0 in
  let timer rule scope :=
    mkMSG d 3 (owner_id e) (owner_id e) rule scope (m_queue e)
      (MSG_Data_float d) true false in
  float_lt ONE_FRAME ONE_FRAME = false /\
  float_lt d ONE_FRAME = false /\
  g_msgroute (SetTimerSubstate 0 3 e) =
    g_msgroute e ++ [timer SCOPE_TO_SUBSTATE (m_scopeSubstate e)] /\
  g_msgroute (SetTimerStateMachine 0 3 e) =
    g_msgroute e ++ [timer SCOPE_TO_STATE_MACHINE 0] /\
  exists rule scope,
    g_msgroute (SetTimerState 0 3 e) = g_msgroute e ++ [timer rule scope].
Proof.
  split; [reflexivity|].
  exact (timers_wait_at_least_one_frame 0 3 demo_env eq_refl).
Defined.

Lemma SetStateVariableInt_read_back_witness :
  let e := DeclareVariable 0 STATE_VARIABLE_SCOPE demo_env in
  exists e',
    SetStateVariableInt 42 0 STATE_VARIABLE_SCOPE e = Some e' /\
    GetStateVariable 0 STATE_VARIABLE_SCOPE e' =
      Some (PersistentData_int 42) /\
    (forall id', id' <> 0 ->
       GetStateVariable id' STATE_VARIABLE_SCOPE e' =
       GetStateVariable id' STATE_VARIABLE_SCOPE e) /\
    (forall id' scope', scope' <> STATE_VARIABLE_SCOPE ->
       GetStateVariable id' scope' e' = GetStateVariable id' scope' e) /\
    length (variables STATE_VARIABLE_SCOPE e') =
      length (variables STATE_VARIABLE_SCOPE e).
Proof.
  eexists. split; [reflexivity|].
  exact (SetStateVariableInt_read_back 42 0 STATE_VARIABLE_SCOPE
           (DeclareVariable 0 STATE_VARIABLE_SCOPE demo_env) _ eq_refl).
Defined.

Lemma PopStateMachine_keeps_the_last_machine_witness :
  let w := demo_manager in
  let l := [1; 2; 3] in
  Manager.Reset_keeps_lists /\
  Manager.queue_list 0 w = Some l /\
  ((length l <= 1)%nat -> Manager.PopStateMachine 0 w = Some w) /\
  (forall below_all below top, l = below_all ++ [below; top] ->
     exists w', Manager.PopStateMachine 0 w = Some w' /\
       Manager.queue_list 0 w' = Some (below_all ++ [below]) /\
       Manager.calls w' =
         Manager.calls w ++
         [Manager.Call_delete top; Manager.Call_Reset below] /\
       forall other, other <> 0 ->
         Manager.queue_list other w' = Manager.queue_list other w).
Proof.
  split; [exact demo_code_keeps_lists|]. split; [reflexivity|].
  exact (PopStateMachine_keeps_the_last_machine 0 demo_manager [1; 2; 3]
           demo_code_keeps_lists eq_refl).
Defined.

Lemma QueueStateMachine_inserts_above_the_bottom_witness :
  let w := demo_manager in
  let l := [1; 2; 3] in
  Manager.queue_list 0 w = Some l /\
  exists w', Manager.QueueStateMachine 9 0 w = Some w' /\
    Manager.queue_list 0 w' = Some (take 1 l ++ 9 :: drop 1 l) /\
    Manager.calls w' =
      Manager.calls w ++
      replicate (if (length l <=? 1)%nat then 2 else 1)%nat
        (Manager.Call_SetStateMachineQueue 9 0) /\
    Manager.requests (Manager.state w') =
      Manager.requests (Manager.state w) /\
    ((1 < length l)%nat -> last (take 1 l ++ 9 :: drop 1 l) = last l).
Proof.
  split; [reflexivity|].
  exact (QueueStateMachine_inserts_above_the_bottom 9 0 demo_manager
           [1; 2; 3] eq_refl).
Defined.

Lemma RequeueStateMachine_moves_the_active_machine_down_witness :
  let w := demo_manager in
  let l := [1; 2; 3] in
  Manager.Reset_keeps_lists /\
  Manager.queue_list 0 w = Some l /\
  (l = [] -> Manager.RequeueStateMachine 0 w = Some w) /\
  (forall m, l = [m] ->
     Manager.RequeueStateMachine 0 w = Some (Manager.call_Reset m w)) /\
  (forall bottom middle top, l = bottom :: middle ++ [top] ->
     exists w', Manager.RequeueStateMachine 0 w = Some w' /\
       Manager.queue_list 0 w' = Some (bottom :: top :: middle) /\
       Manager.calls w' =
         Manager.calls w ++
         [Manager.Call_SetStateMachineQueue top 0;
          Manager.Call_Reset (default top (last middle))]).
Proof.
  split; [exact demo_code_keeps_lists|]. split; [reflexivity|].
  exact (RequeueStateMachine_moves_the_active_machine_down 0 demo_manager
           [1; 2; 3] demo_code_keeps_lists eq_refl).
Defined.

Lemma QueueStateMachine_then_RequeueStateMachine_witness :
  let w := demo_manager in
  Manager.Reset_keeps_lists /\
  Manager.queue_list 0 w = Some (1 :: [2] ++ [3]) /\
  exists w1 w2,
    Manager.QueueStateMachine 9 0 w = Some w1 /\
    Manager.RequeueStateMachine 0 w1 = Some w2 /\
    Manager.queue_list 0 w2 = Some (1 :: 3 :: 9 :: [2]) /\
    Manager.calls w2 =
      Manager.calls w ++
      [Manager.Call_SetStateMachineQueue 9 0;
       Manager.Call_SetStateMachineQueue 3 0;
       Manager.Call_Reset (default 9 (last [2]))].
Proof.
  split; [exact demo_code_keeps_lists|]. split; [reflexivity|].
  exact (QueueStateMachine_then_RequeueStateMachine 9 0 demo_manager 1 [2] 3
           demo_code_keeps_lists eq_refl).
Defined.

Lemma ReplaceStateMachine_swaps_the_active_machine_witness :
  let w := demo_manager in
  let l := [1; 2; 3] in
  Manager.Reset_keeps_lists /\
  Manager.queue_list 0 w = Some l /\
  exists w', Manager.ReplaceStateMachine 9 0 w = Some w' /\
    Manager.queue_list 0 w' = Some (removelast l ++ [9]) /\
    Manager.calls w' =
      Manager.calls w ++ [Manager.Call_SetStateMachineQueue 9 0] ++
      match last l with
      | Some top => [Manager.Call_delete top]
      | None => []
      end ++
      [Manager.Call_SetStateMachineQueue 9 0; Manager.Call_Reset 9].
Proof.
  split; [exact demo_code_keeps_lists|]. split; [reflexivity|].
  exact (ReplaceStateMachine_swaps_the_active_machine 9 0 demo_manager
           [1; 2; 3] demo_code_keeps_lists eq_refl).
Defined.

Lemma PushStateMachine_then_PopStateMachine_witness :
  let w := demo_manager in
  Manager.Reset_keeps_lists /\
  Manager.queue_list 0 w = Some ([1; 2] ++ [3]) /\
  exists w1 w2,
    Manager.PushStateMachine 9 0 true w = Some w1 /\
    Manager.PopStateMachine 0 w1 = Some w2 /\
    Manager.queue_list 0 w2 = Some ([1; 2] ++ [3]) /\
    Manager.calls w2 =
      Manager.calls w ++
      [Manager.Call_SetStateMachineQueue 9 0; Manager.Call_Reset 9;
       Manager.Call_delete 9; Manager.Call_Reset 3].
Proof.
  split; [exact demo_code_keeps_lists|]. split; [reflexivity|].
  exact (PushStateMachine_then_PopStateMachine 9 0 demo_manager [1; 2] 3
           demo_code_keeps_lists eq_refl).
Defined.

Lemma DeleteStateMachineQueue_deletes_top_down_witness :
  let w := demo_manager in
  let l := [1; 2; 3] in
  0 <> STATE_MACHINE_QUEUE_ALL /\
  0 < Z.of_nat STATE_MACHINE_NUM_QUEUES /\
  Manager.queue_list 0 w = Some l /\
  exists w', Manager.DeleteStateMachineQueue 0 w = Some w' /\
    Manager.queue_list 0 w' = Some [] /\
    Manager.calls w' =
      Manager.calls w ++ map Manager.Call_delete (reverse l) /\
    Manager.requests (Manager.state w') =
      Manager.requests (Manager.state w) /\
    forall other, other <> 0 ->
      Manager.queue_list other w' = Manager.queue_list other w.
Proof.
  assert (Hone : 0 <> STATE_MACHINE_QUEUE_ALL) by discriminate.
  assert (Hvalid : 0 < Z.of_nat STATE_MACHINE_NUM_QUEUES) by reflexivity.
  split; [exact Hone|]. split; [exact Hvalid|]. split; [reflexivity|].
  exact (DeleteStateMachineQueue_deletes_top_down 0 demo_manager [1; 2; 3]
           Hone Hvalid eq_refl).
Defined.

Lemma DeleteStateMachineQueue_all_empties_every_queue_witness :
  let w := demo_manager in
  length (Manager.m_stateMachineList (Manager.state w)) =
    STATE_MACHINE_NUM_QUEUES /\
  exists w',
    Manager.DeleteStateMachineQueue STATE_MACHINE_QUEUE_ALL w = Some w' /\
    Manager.m_stateMachineList (Manager.state w') =
      replicate STATE_MACHINE_NUM_QUEUES [] /\
    Manager.calls w' =
      Manager.calls w ++
      concat (map (fun l => map Manager.Call_delete (reverse l))
                (Manager.m_stateMachineList (Manager.state w))) /\
    Manager.requests (Manager.state w') =
      Manager.requests (Manager.state w).
Proof.
  split; [reflexivity|].
  exact (DeleteStateMachineQueue_all_empties_every_queue demo_manager
           eq_refl).
Defined.

Lemma Process_all_reaches_each_active_machine_witness :
  let w := demo_manager in
  Manager.Process_keeps_lists /\
  Z.of_nat STATE_MACHINE_NUM_QUEUES <= STATE_MACHINE_QUEUE_ALL /\
  length (Manager.m_stateMachineList (Manager.state w)) =
    STATE_MACHINE_NUM_QUEUES /\
  (exists w',
     Manager.Process EVENT_Message (Some demo_msg) STATE_MACHINE_QUEUE_ALL w =
       Some w' /\
     Manager.calls w' =
       Manager.calls w ++
       concat (map (Manager.delivery EVENT_Message (Some demo_msg))
                 (Manager.m_stateMachineList (Manager.state w)))) /\
  (forall m,
     Manager.SendMsg m w =
     Manager.Process EVENT_Message (Some m) STATE_MACHINE_QUEUE_ALL w).
Proof.
  assert (Hall : Z.of_nat STATE_MACHINE_NUM_QUEUES <= STATE_MACHINE_QUEUE_ALL)
    by discriminate.
  split; [exact demo_code_Process_keeps_lists|]. split; [exact Hall|].
  split; [reflexivity|].
  exact (Process_all_reaches_each_active_machine EVENT_Message
           (Some demo_msg) demo_manager demo_code_Process_keeps_lists Hall
           eq_refl).
Defined.

Lemma ProcessStateMachineChangeRequests_applies_the_request_witness :
  let w := demo_manager_pushing in
  Manager.Reset_keeps_lists /\
  Manager.Reset_keeps_requests /\
  Manager.queue_list 0 w = Some [1; 2; 3] /\
  Manager.pending 0 w = Some (STATE_MACHINE_PUSH, Some 5) /\
  (Some 5 = None ->
   STATE_MACHINE_PUSH <> STATE_MACHINE_REPLACE /\
   STATE_MACHINE_PUSH <> STATE_MACHINE_QUEUE /\
   STATE_MACHINE_PUSH <> STATE_MACHINE_PUSH) /\
  exists w1 w',
    Manager.RequestStateMachineChange None NO_STATE_MACHINE_CHANGE 0 w =
      Some w1 /\
    Manager.apply_change STATE_MACHINE_PUSH (Some 5) 0 w1 = Some w' /\
    Manager.ProcessStateMachineChangeRequests 0 w =
      Some (if decide (STATE_MACHINE_PUSH = NO_STATE_MACHINE_CHANGE)
            then w else w') /\
    Manager.pending 0 w' = Some (NO_STATE_MACHINE_CHANGE, None).
Proof.
  assert (Htmp : Some 5 = None ->
            STATE_MACHINE_PUSH <> STATE_MACHINE_REPLACE /\
            STATE_MACHINE_PUSH <> STATE_MACHINE_QUEUE /\
            STATE_MACHINE_PUSH <> STATE_MACHINE_PUSH) by discriminate.
  split; [exact demo_code_keeps_lists|].
  split; [exact demo_code_keeps_requests|]. split; [reflexivity|].
  split; [reflexivity|]. split; [exact Htmp|].
  exact (ProcessStateMachineChangeRequests_applies_the_request 0
           demo_manager_pushing [1; 2; 3] STATE_MACHINE_PUSH (Some 5)
           demo_code_keeps_lists demo_code_keeps_requests eq_refl eq_refl
           Htmp).
Defined.

